(** * Road-hazard-detection: the relay endpoint and its client

    A shallow embedding of
    - [src/app/api/analyze-image/route.ts] (the relay: handler [POST]), and
    - the client component [ImageAnalyzer] (handlers [onDrop], [clearImage],
      [analyzeImage], helper [renderUserContext] and the results panel),
    followed by the properties of the request/response contract.

    Conventions.
    - A JavaScript string is a [string]: a sequence of 8-bit code units
      (the Latin-1 range of UTF-16 code units).
    - [null] and [undefined] of a nullable value are [None]; where the two
      must be told apart (the client's [userContext]) the value is an
      [option Json] with [None] for [undefined] and [Some JNull] for [null].
    - A call that may throw returns a [JsResult].
    - What the platform provides ([JSON.parse], [JSON.stringify], base64
      encoding, the clock, the process environment, the remote model) is an
      argument of the handlers. *)

From Stdlib Require Import String Ascii List ZArith NArith QArith Bool Lia.
From stdpp Require Import base strings pretty gmap.

Import ListNotations.
Local Open Scope string_scope.
Local Open Scope Z_scope.

(** ** JavaScript strings *)

Module Js.

(** The double-quote character, and the backtick. *)
Definition dq : string := String (ascii_of_nat 34) EmptyString.
Definition backtick : ascii := ascii_of_nat 96.

(** [String.prototype.startsWith]: [startsWith p s] is [s.startsWith(p)]. *)
Fixpoint startsWith (p s : string) : bool :=
  match p with
  | EmptyString => true
  | String a p' =>
      match s with
      | EmptyString => false
      | String b s' => Ascii.eqb a b && startsWith p' s'
      end
  end.

(** [String.prototype.includes]: [includes p s] is [s.includes(p)]. *)
Fixpoint includes (p s : string) : bool :=
  startsWith p s ||
  match s with
  | EmptyString => false
  | String _ s' => includes p s'
  end.

(** White space as [String.prototype.trim] sees it, within the 8-bit
    range: TAB, LF, VT, FF, CR, SPACE and NBSP. *)
Definition isWhiteSpace (c : ascii) : bool :=
  let n := N_of_ascii c in
  ((9 <=? n) && (n <=? 13) || (n =? 32) || (n =? 160))%N.

Fixpoint trimStart (s : string) : string :=
  match s with
  | EmptyString => EmptyString
  | String c s' => if isWhiteSpace c then trimStart s' else s
  end.

Fixpoint trimEnd (s : string) : string :=
  match s with
  | EmptyString => EmptyString
  | String c s' =>
      match trimEnd s' with
      | EmptyString => if isWhiteSpace c then EmptyString else String c EmptyString
      | r => String c r
      end
  end.

(** [String.prototype.trim]. *)
Definition trim (s : string) : string := trimEnd (trimStart s).

(** [s.replace(/^p/, '')] for a literal [p]: drop one leading [p]. *)
Fixpoint removePrefix (p s : string) : option string :=
  match p with
  | EmptyString => Some s
  | String a p' =>
      match s with
      | EmptyString => None
      | String b s' => if Ascii.eqb a b then removePrefix p' s' else None
      end
  end.

Definition replaceStart (p s : string) : string :=
  match removePrefix p s with
  | Some r => r
  | None => s
  end.

(** [s.replace(/p$/, '')] for a literal [p] (no [m] flag: [$] is the end of
    the input): drop one trailing [p]. *)
Fixpoint replaceEnd (p s : string) : string :=
  if String.eqb s p then EmptyString
  else match s with
       | EmptyString => EmptyString
       | String c s' => String c (replaceEnd p s')
       end.

(** A string all of whose characters are white space. *)
Fixpoint allWhiteSpace (s : string) : bool :=
  match s with
  | EmptyString => true
  | String c s' => isWhiteSpace c && allWhiteSpace s'
  end.

(** Truthiness of a nullable string: [null], [undefined] and the empty
    string are falsy. *)
Definition truthy (v : option string) : bool :=
  match v with
  | Some (String _ _) => true
  | _ => false
  end.

(** [x] occurs in [s] as a contiguous substring. *)
Definition occursIn (x s : string) : Prop :=
  exists a b : string, s = a +:+ x +:+ b.

End Js.

(** ** JSON values and thrown values *)

(** A JSON value; an object keeps its properties in insertion order.
    Numbers are integers: the only number the relay builds itself is a
    byte count. *)
#[warnings="-register-all"]
Inductive Json : Type :=
| JNull
| JBool (b : bool)
| JNum (n : Z)
| JStr (s : string)
| JArr (items : list Json)
| JObj (props : list (string * Json)).

(** Property access [o.k] on a parsed JSON value; [None] is [undefined]
    (a missing key, or a value that is not an object). *)
Fixpoint assoc (k : string) (props : list (string * Json)) : option Json :=
  match props with
  | [] => None
  | (k', v) :: rest => if String.eqb k k' then Some v else assoc k rest
  end.

Definition prop (k : string) (v : Json) : option Json :=
  match v with
  | JObj props => assoc k props
  | _ => None
  end.

(** A chain of property accesses [v.k1.k2...], on objects all the way. *)
Fixpoint path (keys : list string) (v : Json) : option Json :=
  match keys with
  | [] => Some v
  | k :: rest =>
      match prop k v with
      | Some x => path rest x
      | None => None
      end
  end.

(** JavaScript truthiness of a JSON value ([None] is [undefined]). *)
Definition truthyJson (v : option Json) : bool :=
  match v with
  | None | Some JNull | Some (JBool false) | Some (JNum 0) | Some (JStr EmptyString) => false
  | Some _ => true
  end.

(** What a [catch] clause can observe of a thrown value:
    [error?.error?.type] (the type tag of an upstream API error, [None]
    when there is none), [error instanceof Error], and [error.message]. *)
Record JsError : Type := mkJsError {
  error_type : option string;
  instanceof_Error : bool;
  message : string
}.

(** An [Error] (or [TypeError]) raised by the runtime itself. *)
Definition RuntimeError (msg : string) : JsError :=
  {| error_type := None; instanceof_Error := true; message := msg |}.

Inductive JsResult (A : Type) : Type :=
| Ok (a : A)
| Throw (e : JsError).
Arguments Ok {A} a.
Arguments Throw {A} e.

(** ** What the platform provides *)

(** The built-ins both programs call. [JSON_parse] is [None] where
    [JSON.parse] throws a [SyntaxError]; [JSON_stringify] is
    [JSON.stringify(v, null, 2)]; [ToString] is the string conversion of
    a value (in [new Error(v)] and in template literals);
    [toString_base64] is [Buffer.from(bytes).toString("base64")]. *)
Class Runtime : Type := {
  JSON_parse : string -> option Json;
  JSON_stringify : Json -> string;
  ToString : Json -> string;
  toString_base64 : list Byte.byte -> string
}.

(** The first character of a JSON value (ECMA-404): an object, an array,
    a string, a number, or one of [true], [false], [null]. *)
Inductive ValueStart : Type :=
| StartObject | StartArray | StartString | StartNumber
| StartTrue | StartFalse | StartNull.

Definition valueStart (c : ascii) : option ValueStart :=
  let n := N_of_ascii c in
  if (n =? 123)%N then Some StartObject
  else if (n =? 91)%N then Some StartArray
  else if (n =? 34)%N then Some StartString
  else if ((n =? 45) || (48 <=? n) && (n <=? 57))%N then Some StartNumber
  else if (n =? 116)%N then Some StartTrue
  else if (n =? 102)%N then Some StartFalse
  else if (n =? 110)%N then Some StartNull
  else None.

(** The one fact about [JSON.parse] the development relies on: a text it
    accepts is, after leading white space, the start of a JSON value. *)
Definition JSON_parse_value_start (parse : string -> option Json) : Prop :=
  forall (s : string) (v : Json),
    parse s = Some v ->
    exists (c : ascii) (r : string),
      Js.trimStart s = String c r /\ is_Some (valueStart c).

(** ** Multipart forms *)

Module File.
(** A [File] of a multipart form: its declared content type, its size
    in bytes, and its content. The handler reads [size] and the
    content separately, and nothing below relies on their agreeing. *)
Record t : Type := mk {
  type : string;
  size : N;
  bytes : list Byte.byte
}.
End File.

Inductive FormDataEntryValue : Type :=
| EntryString (s : string)
| EntryFile (f : File.t).

(** A form is its list of fields, in order. *)
Definition FormData : Type := list (string * FormDataEntryValue).

(** [formData.get(name)]: the first value of that name, or [null]. *)
Fixpoint get (name : string) (formData : FormData) : option FormDataEntryValue :=
  match formData with
  | [] => None
  | (k, v) :: rest => if String.eqb name k then Some v else get name rest
  end.

(** Truthiness of what [get] returns: [null] and the empty string are
    falsy, a [File] is an object and truthy. *)
Definition truthyEntry (v : option FormDataEntryValue) : bool :=
  match v with
  | None | Some (EntryString EmptyString) => false
  | Some _ => true
  end.

(** [`${v}`]: a string is itself, a [File] prints as an object. *)
Definition interpolate (v : FormDataEntryValue) : string :=
  match v with
  | EntryString s => s
  | EntryFile _ => "[object File]"
  end.

(** [v || null], as it is serialised in the response body (a [File] has
    no enumerable property of its own). *)
Definition orNull (v : option FormDataEntryValue) : Json :=
  match v with
  | None | Some (EntryString EmptyString) => JNull
  | Some (EntryString s) => JStr s
  | Some (EntryFile _) => JObj []
  end.

(** ** The multipart encoding of a form

    What a [FormData] body becomes between [fetch] and the
    [request.formData()] that reads it back (HTML, the
    multipart/form-data encoding algorithm): in a text value every CR
    not followed by LF and every LF not preceded by CR is sent as CR LF,
    and a file without a type is sent as [application/octet-stream].
    Field names are taken as they are: those of the two programs are
    plain words. *)

Definition CR : ascii := ascii_of_nat 13.
Definition LF : ascii := ascii_of_nat 10.

Fixpoint normalizeNewlines (s : string) : string :=
  match s with
  | EmptyString => EmptyString
  | String c r =>
      if Ascii.eqb c CR then
        String CR (String LF
          match r with
          | String d r' => if Ascii.eqb d LF then normalizeNewlines r' else normalizeNewlines r
          | EmptyString => EmptyString
          end)
      else if Ascii.eqb c LF then String CR (String LF (normalizeNewlines r))
      else String c (normalizeNewlines r)
  end.

Definition sentFile (f : File.t) : File.t :=
  match File.type f with
  | EmptyString => File.mk "application/octet-stream" (File.size f) (File.bytes f)
  | _ => f
  end.

Definition multipart (formData : FormData) : FormData :=
  map (fun field : string * FormDataEntryValue =>
         (fst field,
          match snd field with
          | EntryString s => EntryString (normalizeNewlines s)
          | EntryFile f => EntryFile (sentFile f)
          end))
      formData.

(** ** The relay endpoint: [src/app/api/analyze-image/route.ts] *)

Module Relay.

(** An incoming request: [request.body] may be [null]; otherwise
    [request.formData()] yields the form or throws. *)
Inductive NextRequest : Type :=
| NoBody
| WithBody (formData : JsResult FormData).

Record NextResponse : Type := mkNextResponse {
  status : Z;
  body : Json
}.

(** [NextResponse.json(body, { status })]; the status defaults to 200. *)
Definition NextResponse_json (body : Json) (status : Z) : NextResponse :=
  mkNextResponse status body.

Definition error_json (msg : string) : Json := JObj [("error", JStr msg)].

(** The client object of the model SDK; it keeps the credential it
    was built with. *)
Record OpenAI : Type := mkOpenAI { apiKey : string }.

(** [const openai = new OpenAI({ apiKey: "sk-proj-..." })], route.ts:4-6:
    the client of the module, built when the module loads from a string
    literal; the process environment is not read. The literal is a
    secret key: its characters after the prefix are left out here, and
    no statement depends on them. *)
Definition openai : OpenAI := {| apiKey := "sk-proj-..." |}.

(** The argument of [chat.completions.create]: one user message with a
    text part and an image part. *)
Record ChatCompletionCreateParams : Type := mkParams {
  model : string;
  text : string;
  image_url : string;
  detail : string;
  max_tokens : Z;
  temperature : Q
}.

(** One call of [chat.completions.create]: the client it is made on
    (and so the credential it carries) and the parameters. What the SDK
    puts on the wire for one call, its own retries included, is behind
    [create] and not counted here. *)
Record ModelCall : Type := mkCall {
  call_client : OpenAI;
  call_params : ChatCompletionCreateParams
}.

(** What lines 157-183 yield: [response.choices[0]?.message?.content]
    ([None]: [null] or [undefined]), or the value thrown on the way. *)
Definition ModelReply : Type := JsResult (option string).

(** The failures the SDK raises when no response of the model service
    arrives (openai-node, [APIConnectionError] and
    [APIConnectionTimeoutError]): instances of [Error] whose [error]
    property is [undefined], with the library's own messages. *)
Definition APIConnectionError : JsError :=
  {| error_type := None; instanceof_Error := true; message := "Connection error." |}.

Definition APIConnectionTimeoutError : JsError :=
  {| error_type := None; instanceof_Error := true; message := "Request timed out." |}.

Definition maxSize : N := 10 * 1024 * 1024.

Definition OPENAI_API_KEY : string := "OPENAI_API_KEY".

Definition analysisPrompt_head : string :=
  "You are an expert road inspector AI designed to analyze road conditions and public complaints. Analyze the provided image comprehensively and detect ANY issues or problems related to road safety, cleanliness, and usability.

".

Definition analysisPrompt_tail : string :=
  String.concat Js.dq
  [ "

**DETECTION CATEGORIES:**

1. **STRUCTURAL DAMAGE**: Potholes, cracks, surface wear, broken asphalt, uneven surfaces
2. **ROAD MARKINGS**: Faded lines, missing signs, damaged traffic signs, unclear markings
3. **GARBAGE & LITTER**: Trash, plastic bags, bottles, food waste, scattered debris
4. **OBSTACLES & HAZARDS**: 
   - Fallen trees, branches, rocks
   - Abandoned vehicles or parts
   - Construction materials left behind
   - Dead animals
   - Large debris blocking traffic
   - Flood water, oil spills
5. **INFRASTRUCTURE ISSUES**: 
   - Broken streetlights, damaged guardrails
   - Clogged drains, standing water
   - Damaged manholes, missing covers
   - Broken or tilted poles
6. **VEGETATION ISSUES**: Overgrown grass/weeds, branches blocking view
7. **SAFETY CONCERNS**: Any other hazards affecting pedestrians, cyclists, or vehicles

For each issue detected, provide:
- **type**: Specific issue type (e.g., ";
    "plastic bags";
    ", ";
    "pothole";
    ", ";
    "fallen branch";
    ", ";
    "standing water";
    ")
- **category**: Main category (structural, garbage, obstacle, infrastructure, vegetation, safety)
- **location**: Position in image (left, center, right, near curb, etc.)
- **size_description**: Size estimate in practical terms (small/medium/large or dimensions)
- **severity**: minor, moderate, severe, critical
- **blocking_traffic**: yes/no - Does it block or impede traffic flow?
- **safety_risk**: Specific safety concerns (vehicle damage, pedestrian hazard, etc.)
- **urgency**: immediate, within_24h, within_week, routine_maintenance
- **additional_notes**: Any other relevant observations

**OVERALL ASSESSMENT:**
- **condition_rating**: excellent, good, fair, poor, dangerous
- **priority_action**: immediate_attention, scheduled_maintenance, monitoring, no_action_needed
- **estimated_cleanup_time**: Time estimate for resolution (if applicable)

Return ONLY a JSON object with real analysis data (no placeholders):

{
  ";
    "overall_assessment";
    ": {
    ";
    "condition_rating";
    ": ";
    "fair";
    ",
    ";
    "priority_action";
    ": ";
    "scheduled_maintenance";
    ",
    ";
    "estimated_cleanup_time";
    ": ";
    "2-4 hours";
    ",
    ";
    "weather_impact";
    ": ";
    "none/low/moderate/high";
    "
  },
  ";
    "issue_count";
    ": 3,
  ";
    "categories_detected";
    ": [";
    "garbage";
    ", ";
    "structural";
    ", ";
    "obstacle";
    "],
  ";
    "issues";
    ": [
    {
      ";
    "type";
    ": ";
    "plastic bags";
    ",
      ";
    "category";
    ": ";
    "garbage";
    ",
      ";
    "location";
    ": ";
    "center right";
    ",
      ";
    "size_description";
    ": ";
    "multiple large bags scattered";
    ",
      ";
    "severity";
    ": ";
    "moderate";
    ",
      ";
    "blocking_traffic";
    ": false,
      ";
    "safety_risk";
    ": ";
    "potential flying debris in wind";
    ",
      ";
    "urgency";
    ": ";
    "within_24h";
    ",
      ";
    "additional_notes";
    ": ";
    "appears to be household waste dumped illegally";
    "
    }
  ],
  ";
    "recommendations";
    ": [
    ";
    "Schedule garbage collection within 24 hours";
    ",
    ";
    "Install no-dumping signage";
    ",
    ";
    "Repair pothole to prevent water accumulation";
    "
  ],
  ";
    "tags";
    ": [";
    "illegal dumping";
    ", ";
    "garbage cleanup needed";
    ", ";
    "moderate priority";
    "],
  ";
    "summary";
    ": ";
    "Multiple issues detected requiring coordinated cleanup and maintenance response.";
    ",
  ";
    "detailed_description";
    ": ";
    "### Road Condition: Fair
**Immediate Issues:**
- Illegal garbage dumping requiring cleanup
- Structural damage needs repair

**Recommended Actions:**
- Priority cleanup within 24 hours
- Schedule road maintenance";
    "
}

// Append this before ";
    "Respond ONLY with the JSON object - no additional text.";
    "

**POTHOLE SUMMARY:**
Return a separate key called **potholes_summary** with:
- **pothole_count**: total number of potholes detected in the image
- **potholes**: array of pothole details, each with:
  - **location**: where in image
  - **size_description**: size estimate
  - **severity**: minor, moderate, severe, critical
  - **blocking_traffic**: yes/no
  - **safety_risk**: potential risks
  - **urgency**: immediate, within_24h, within_week, routine_maintenance
  - **additional_notes**: any extra notes

If no potholes are detected, return pothole_count as 0 and potholes as an empty array.



Respond ONLY with the JSON object - no additional text." ].

(** The template literal of [analysisPrompt]. *)
Definition analysisPrompt (contextualInfo : string) : string :=
  analysisPrompt_head +:+ contextualInfo +:+ analysisPrompt_tail.

(** One [if (v) contextualInfo += label + v]. *)
Definition hint (label : string) (v : option FormDataEntryValue) : string :=
  match v with
  | Some e => if truthyEntry v then label +:+ interpolate e else EmptyString
  | None => EmptyString
  end.

Definition contextualInfo (complaintType location description : option FormDataEntryValue) : string :=
  hint "
User complaint type: " complaintType +:+
  hint "
Reported location: " location +:+
  hint "
User description: " description.

Section Handler.

Context {rt : Runtime}.

(** The handler is written over the client object it calls; the one of
    the module is [Relay.openai] above. *)
Variable openai : OpenAI.

(** The process environment, the clock ([new Date().toISOString()])
    and the remote model. *)
Variable env : gmap string string.
Variable now : string.
Variable create : ModelCall -> ModelReply.

(** Lines 36-39 and 49-179: the request sent to the model for a
    validated image. *)
Definition modelCall (formData : FormData) (image : File.t) : ModelCall :=
  let base64 := toString_base64 (File.bytes image) in
  let mimeType := File.type image in
  let complaintType := get "complaintType" formData in
  let location := get "location" formData in
  let description := get "description" formData in
  {| call_client := openai;
     call_params :=
       {| model := "gpt-4o";
          text := analysisPrompt (contextualInfo complaintType location description);
          image_url := "data:" +:+ mimeType +:+ ";base64," +:+ base64;
          detail := "high";
          max_tokens := 1500;
          temperature := 3 # 10 |} |}.

(** Lines 183-213: the response for the content the model returned. *)
Definition respond (formData : FormData) (image : File.t) (analysis : option string)
    : NextResponse :=
  let complaintType := get "complaintType" formData in
  let location := get "location" formData in
  let description := get "description" formData in
  match analysis with
  | None => NextResponse_json (error_json "No analysis generated") 500
  | Some analysis =>
      if (String.length (Js.trim analysis) =? 0)%nat then
        NextResponse_json (error_json "No analysis generated") 500
      else
        match JSON_parse analysis with
        | Some parsedAnalysis =>
            let enhancedResponse :=
              JObj [("analysis", parsedAnalysis);
                    ("metadata",
                     JObj [("timestamp", JStr now);
                           ("image_size", JNum (Z.of_N (File.size image)));
                           ("user_context",
                            JObj [("complaint_type", orNull complaintType);
                                  ("location", orNull location);
                                  ("description", orNull description)])])] in
            NextResponse_json enhancedResponse 200
        | None =>
            NextResponse_json (JObj [("analysis", JStr analysis); ("raw", JBool true)]) 200
        end
  end.

(** The body of the [try] block: the outbound calls made, and the
    response returned or the value thrown. *)
Definition POST_try (request : NextRequest) : list ModelCall * JsResult NextResponse :=
  match request with
  | NoBody => ([], Ok (NextResponse_json (error_json "No request body provided") 400))
  | WithBody (Throw e) => ([], Throw e)
  | WithBody (Ok formData) =>
      let image := get "image" formData in
      if negb (truthyEntry image) then
        ([], Ok (NextResponse_json (error_json "No image file provided") 400))
      else
        match image with
        | Some (EntryFile image) =>
            if negb (Js.startsWith "image/" (File.type image)) then
              ([], Ok (NextResponse_json (error_json "File must be an image") 400))
            else if (maxSize <? File.size image)%N then
              ([], Ok (NextResponse_json
                         (error_json "Image file too large. Maximum size is 10MB") 400))
            else if negb (Js.truthy (env !! OPENAI_API_KEY)) then
              ([], Ok (NextResponse_json (error_json "AI service not configured") 500))
            else
              let call := modelCall formData image in
              match create call with
              | Throw e => ([call], Throw e)
              | Ok analysis => ([call], Ok (respond formData image analysis))
              end
        | _ =>
            (* the field is text: [image.type] is [undefined] *)
            ([], Throw (RuntimeError
                          "Cannot read properties of undefined (reading 'startsWith')"))
        end
  end.

(** The [catch] block: the [switch] on the upstream type tag, then the
    tests on the message of an [Error]. *)
Definition POST_catch (error : JsError) : NextResponse :=
  match error_type error with
  | Some (String _ _ as type) =>
      if String.eqb type "invalid_request_error" then
        NextResponse_json (error_json "Invalid request to AI service") 400
      else if String.eqb type "authentication_error" then
        NextResponse_json (error_json "AI service authentication failed") 401
      else if String.eqb type "permission_error" then
        NextResponse_json (error_json "Permission denied for AI service") 403
      else if String.eqb type "rate_limit_error" then
        NextResponse_json (error_json "Rate limit exceeded. Please try again in a moment") 429
      else if String.eqb type "api_error" then
        NextResponse_json (error_json "AI service temporarily unavailable") 502
      else if String.eqb type "overloaded_error" then
        NextResponse_json (error_json "AI service is overloaded. Please try again") 503
      else
        NextResponse_json (error_json "AI service error occurred") 500
  | _ =>
      if instanceof_Error error && Js.includes "fetch" (message error) then
        NextResponse_json (error_json "Network error. Please check your connection") 503
      else if instanceof_Error error && Js.includes "timeout" (message error) then
        NextResponse_json (error_json "Request timed out. Please try again") 408
      else if instanceof_Error error && Js.includes "API key" (message error) then
        NextResponse_json (error_json "AI service configuration error") 500
      else
        NextResponse_json (error_json "Internal server error occurred") 500
  end.

(** The handler: the outbound calls it made and the response. *)
Definition POST (request : NextRequest) : list ModelCall * NextResponse :=
  let '(calls, r) := POST_try request in
  (calls, match r with
          | Ok response => response
          | Throw error => POST_catch error
          end).

End Handler.

End Relay.

(** ** The client component: [ImageAnalyzer] *)

Module Client.

(** The component's state, one field per [useState]. [parsedAnalysis]
    is [JNull] for [null]; [userContext] is [None] for [undefined] and
    [Some JNull] for [null]. *)
Record State : Type := mkState {
  uploadedImage : option File.t;
  imagePreview : option string;
  isAnalyzing : bool;
  analysis : option string;
  parsedAnalysis : Json;
  error : option string;
  isRightPanelMaximized : bool;
  mounted : bool;
  userDetails : string;
  userContext : option Json
}.

Definition initial : State :=
  {| uploadedImage := None; imagePreview := None; isAnalyzing := false;
     analysis := None; parsedAnalysis := JNull; error := None;
     isRightPanelMaximized := false; mounted := false;
     userDetails := EmptyString; userContext := Some JNull |}.

Definition setUploadedImage (v : option File.t) (st : State) : State :=
  mkState v (imagePreview st) (isAnalyzing st) (analysis st) (parsedAnalysis st)
          (error st) (isRightPanelMaximized st) (mounted st) (userDetails st)
          (userContext st).

Definition setImagePreview (v : option string) (st : State) : State :=
  mkState (uploadedImage st) v (isAnalyzing st) (analysis st) (parsedAnalysis st)
          (error st) (isRightPanelMaximized st) (mounted st) (userDetails st)
          (userContext st).

Definition setIsAnalyzing (v : bool) (st : State) : State :=
  mkState (uploadedImage st) (imagePreview st) v (analysis st) (parsedAnalysis st)
          (error st) (isRightPanelMaximized st) (mounted st) (userDetails st)
          (userContext st).

Definition setAnalysis (v : option string) (st : State) : State :=
  mkState (uploadedImage st) (imagePreview st) (isAnalyzing st) v (parsedAnalysis st)
          (error st) (isRightPanelMaximized st) (mounted st) (userDetails st)
          (userContext st).

Definition setParsedAnalysis (v : Json) (st : State) : State :=
  mkState (uploadedImage st) (imagePreview st) (isAnalyzing st) (analysis st) v
          (error st) (isRightPanelMaximized st) (mounted st) (userDetails st)
          (userContext st).

Definition setError (v : option string) (st : State) : State :=
  mkState (uploadedImage st) (imagePreview st) (isAnalyzing st) (analysis st)
          (parsedAnalysis st) v (isRightPanelMaximized st) (mounted st)
          (userDetails st) (userContext st).

Definition setIsRightPanelMaximized (v : bool) (st : State) : State :=
  mkState (uploadedImage st) (imagePreview st) (isAnalyzing st) (analysis st)
          (parsedAnalysis st) (error st) v (mounted st) (userDetails st)
          (userContext st).

Definition setMounted (v : bool) (st : State) : State :=
  mkState (uploadedImage st) (imagePreview st) (isAnalyzing st) (analysis st)
          (parsedAnalysis st) (error st) (isRightPanelMaximized st) v
          (userDetails st) (userContext st).

Definition setUserDetails (v : string) (st : State) : State :=
  mkState (uploadedImage st) (imagePreview st) (isAnalyzing st) (analysis st)
          (parsedAnalysis st) (error st) (isRightPanelMaximized st) (mounted st)
          v (userContext st).

Definition setUserContext (v : option Json) (st : State) : State :=
  mkState (uploadedImage st) (imagePreview st) (isAnalyzing st) (analysis st)
          (parsedAnalysis st) (error st) (isRightPanelMaximized st) (mounted st)
          (userDetails st) v.

(** The effect that runs once after the first render. *)
Definition mount (st : State) : State := setMounted true st.

Definition toggleRightPanel (st : State) : State :=
  setIsRightPanelMaximized (negb (isRightPanelMaximized st)) st.

(** [onDrop], up to the hand-over to the [FileReader]. *)
Definition onDrop (acceptedFiles : list File.t) (st : State) : State :=
  match acceptedFiles with
  | file :: _ =>
      if Js.startsWith "image/" (File.type file) then
        setError None (setAnalysis None (setUploadedImage (Some file) st))
      else st
  | [] => st
  end.

(** [reader.onload], with [e.target?.result]. *)
Definition reader_onload (result : option string) (st : State) : State :=
  setImagePreview result st.

Definition clearImage (st : State) : State :=
  setError None (setAnalysis None (setImagePreview None (setUploadedImage None st))).

(** What [fetch] resolves to: the [content-type] header, the status,
    and what reading the body yields, through [response.text()] (the
    text is only logged, so it is not kept) and through
    [response.json()]. *)
Record Response : Type := mkResponse {
  content_type : option string;
  status : Z;
  text : JsResult unit;
  json : JsResult Json
}.

Definition ok (response : Response) : bool :=
  (200 <=? status response) && (status response <=? 299).

(** Lines 135-140 (and again 229-231): trim, then strip one code fence. *)
Definition cleanAnalysis (analysisData : string) : string :=
  let cleanAnalysis := Js.trim analysisData in
  if Js.startsWith "```json" cleanAnalysis then
    Js.trim (Js.replaceEnd "```" (Js.replaceStart "```json" cleanAnalysis))
  else if Js.startsWith "```" cleanAnalysis then
    Js.trim (Js.replaceEnd "```" (Js.replaceStart "```" cleanAnalysis))
  else cleanAnalysis.

(** The message of the [catch] block of [analyzeImage]. *)
Definition errorMessage (error : JsError) : string :=
  if instanceof_Error error then
    if Js.includes "Failed to fetch" (message error) then
      "Network error. Please check your connection and try again."
    else if Js.includes "invalid response format" (message error) then
      "Server error. Please try again in a moment."
    else message error
  else "An unexpected error occurred".

Section Handlers.

Context {rt : Runtime}.

(** The network: what [fetch("/api/analyze-image", { method: "POST",
    body })] resolves to, or the value it rejects with. *)
Variable fetch : FormData -> JsResult Response.

(** [String(v)] as [new Error(v)] applies it. *)
Definition toString (v : Json) : string :=
  match v with
  | JStr s => s
  | _ => ToString v
  end.

(** Lines 131-146: [parsedData] for a truthy [analysisData], or the
    [TypeError] of calling [trim] on a number or a boolean. *)
Definition parsedData (analysisData : Json) : JsResult Json :=
  match analysisData with
  | JObj _ | JArr _ | JNull => Ok analysisData
  | JStr s =>
      match JSON_parse (cleanAnalysis s) with
      | Some v => Ok v
      | None => Ok JNull
      end
  | JBool _ | JNum _ => Throw (RuntimeError "analysisData.trim is not a function")
  end.

(** Lines 126-149, for the truthy [data.analysis]: keep the text,
    parse it, store the result and [data?.user_context]. The state
    carries the updates made before a throw. *)
Definition handleAnalysis (data analysisData : Json) (st : State)
    : State * option JsError :=
  let st :=
    setAnalysis
      (Some (match analysisData with
             | JStr s => s
             | _ => JSON_stringify analysisData
             end)) st in
  match parsedData analysisData with
  | Ok parsedData =>
      (setUserContext (prop "user_context" data) (setParsedAnalysis parsedData st), None)
  | Throw e => (st, Some e)
  end.

(** The [try] block of [analyzeImage] for the staged image: the state
    with the updates made so far, and the value thrown if any. *)
Definition analyzeImage_try (uploadedImage : File.t) (st : State) : State * option JsError :=
  let details := Js.trim (userDetails st) in
  let formData : FormData :=
    ("image", EntryFile uploadedImage) ::
    (if Js.truthy (Some details) then [("description", EntryString details)] else []) in
  match fetch formData with
  | Throw e => (st, Some e)
  | Ok response =>
      if negb (match content_type response with
               | Some contentType =>
                   Js.truthy (Some contentType) &&
                   Js.includes "application/json" contentType
               | None => false
               end) then
        match text response with
        | Throw e => (st, Some e)
        | Ok _ => (st, Some (RuntimeError "Server returned an invalid response format"))
        end
      else
        match json response with
        | Throw e => (st, Some e)
        | Ok JNull =>
            (st, Some (RuntimeError
                         (if ok response
                          then "Cannot read properties of null (reading 'analysis')"
                          else "Cannot read properties of null (reading 'error')")))
        | Ok data =>
            if negb (ok response) then
              (st, Some (RuntimeError
                           (match prop "error" data with
                            | Some v =>
                                if truthyJson (Some v) then toString v
                                else "Server error: " +:+ pretty (status response)
                            | None => "Server error: " +:+ pretty (status response)
                            end)))
            else
              match prop "analysis" data with
              | Some analysisData =>
                  if negb (truthyJson (Some analysisData)) then
                    (st, Some (RuntimeError "No analysis received from server"))
                  else handleAnalysis data analysisData st
              | None => (st, Some (RuntimeError "No analysis received from server"))
              end
        end
  end.

(** [analyzeImage], from the click to the [finally] block, as one
    step: no other event comes between the request and its answer. *)
Definition analyzeImage (st : State) : State :=
  match uploadedImage st with
  | None => st
  | Some image =>
      let st := setError None (setIsAnalyzing true st) in
      let '(st, thrown) := analyzeImage_try image st in
      let st :=
        match thrown with
        | Some error => setError (Some (errorMessage error)) st
        | None => st
        end in
      setIsAnalyzing false st
  end.

(** The Try Again button: [setError(null)], then [analyzeImage] when
    an image is staged. *)
Definition retry (st : State) : State :=
  match uploadedImage st with
  | Some _ => analyzeImage st
  | None => setError None st
  end.

(** [Object.entries] of an object or an array. *)
Definition entries (v : Json) : list (string * Json) :=
  match v with
  | JObj props => props
  | JArr items => imap (fun (i : nat) (x : Json) => (pretty i, x)) items
  | _ => []
  end.

(** [v != null && v !== ''] *)
Definition shown (kv : string * Json) : bool :=
  match snd kv with
  | JNull | JStr EmptyString => false
  | _ => true
  end.

(** [renderUserContext]: the entries of the Complaint Details panel,
    or [None] where the function returns [null]. *)
Definition renderUserContext (userContext : option Json) : option (list (string * Json)) :=
  let parsed : option Json :=
    match userContext with
    | Some (JObj props) =>
        match assoc "description" props with
        | Some (JStr description) =>
            match JSON_parse (cleanAnalysis description) with
            | Some v => Some v
            | None => Some (JObj [("description", JStr description)])
            end
        | _ => userContext
        end
    | _ => userContext
    end in
  match parsed with
  | Some ((JObj _ | JArr _) as parsed) =>
      match filter (fun kv => Is_true (shown kv)) (entries parsed) with
      | [] => None
      | entries => Some entries
      end
  | _ => None
  end.

(** Which branch of the results panel the mounted component takes: the
    nest of conditionals around the report. The JSX inside a branch is
    not modelled, except for the Complaint Details panel of the
    structured report; in particular [Structured] says that the report
    branch is entered with that value, not that its sections render (the
    JSX reads properties of the items of [issues] and throws on an item
    that is [null]). *)
Inductive ResultsPanel : Type :=
  | Analyzing
  | Failed (error : string)
  | Structured (parsedAnalysis : Json) (complaintDetails : option (list (string * Json)))
  | Unstructured (analysis : string)
  | Ready.

Definition resultsPanel (st : State) : ResultsPanel :=
  if isAnalyzing st then Analyzing
  else if Js.truthy (error st) then
    Failed (default EmptyString (error st))
  else if Js.truthy (analysis st) then
    if truthyJson (Some (parsedAnalysis st)) then
      Structured (parsedAnalysis st) (renderUserContext (userContext st))
    else Unstructured (default EmptyString (analysis st))
  else Ready.

End Handlers.

(** ** The report helpers *)

(** Lines 176-184: the classes of an issue card, by a [switch] on the severity. *)
Definition getSeverityColor (severity : string) : string :=
  if String.eqb severity "critical" then
    "bg-[#e6f3fc] text-[#0a1e46] border-[#e6f3fc] dark:bg-[#0a1e46]/30 dark:text-[#e6f3fc] dark:border-[#545454]"
  else if String.eqb severity "severe" then
    "bg-[#e6f3fc] text-[#0a1e46] border-[#e6f3fc] dark:bg-[#0a1e46]/30 dark:text-[#e6f3fc] dark:border-[#545454]"
  else if String.eqb severity "moderate" then
    "bg-[#e6f3fc] text-[#0a1e46] border-[#e6f3fc] dark:bg-[#0a1e46]/30 dark:text-[#e6f3fc] dark:border-[#545454]"
  else if String.eqb severity "minor" then
    "bg-[#e6f3fc] text-[#0a1e46] border-[#e6f3fc] dark:bg-[#0a1e46]/30 dark:text-[#e6f3fc] dark:border-[#545454]"
  else
    "bg-[#e6f3fc] text-[#0a1e46] border-[#e6f3fc] dark:bg-[#0a1e46]/30 dark:text-[#e6f3fc] dark:border-[#545454]".

(** Lines 186-194: the classes of the urgency badge. *)
Definition getUrgencyColor (urgency : string) : string :=
  if String.eqb urgency "immediate" then
    "bg-[#0a1e46] text-[#ffffff]"
  else if String.eqb urgency "within_24h" then
    "bg-[#0a1e46] text-[#ffffff]"
  else if String.eqb urgency "within_week" then
    "bg-[#0a1e46] text-[#ffffff]"
  else if String.eqb urgency "routine_maintenance" then
    "bg-[#0a1e46] text-[#ffffff]"
  else
    "bg-[#0a1e46] text-[#ffffff]".

(** Lines 196-205: the classes of the condition rating. *)
Definition getConditionColor (condition : string) : string :=
  if String.eqb condition "excellent" then
    "text-[#0a1e46] dark:text-[#e6f3fc]"
  else if String.eqb condition "good" then
    "text-[#0a1e46] dark:text-[#e6f3fc]"
  else if String.eqb condition "fair" then
    "text-[#0a1e46] dark:text-[#e6f3fc]"
  else if String.eqb condition "poor" then
    "text-[#0a1e46] dark:text-[#e6f3fc]"
  else if String.eqb condition "dangerous" then
    "text-[#0a1e46] dark:text-[#e6f3fc]"
  else
    "text-[#0a1e46] dark:text-[#e6f3fc]".

(** Lines 220-222: the markdown of the pothole summary. *)
Definition getPotholesMarkdown (potholesSummary : Json) : option string :=
  Some EmptyString.

(** [a ?? b] *)
Definition nullish (a b : option Json) : option Json :=
  match a with
  | None | Some JNull => b
  | Some _ => a
  end.

Section Report.

Context {rt : Runtime}.

(** Lines 682-717: the markdown given to the Detailed Analysis block,
    [None] where the block is not rendered:
    [detailed_description + (potholes ? getPotholesMarkdown(potholes) || '' : '')]
    with [potholes] the [potholes_summary] key or else [potholesSummary]. *)
Definition detailedMarkdown (parsedAnalysis : Json) : option string :=
  match prop "detailed_description" parsedAnalysis with
  | Some detailed_description =>
      if truthyJson (Some detailed_description) then
        let potholes :=
          nullish (prop "potholes_summary" parsedAnalysis)
                  (prop "potholesSummary" parsedAnalysis) in
        Some (toString detailed_description +:+
              match potholes with
              | Some potholesSummary =>
                  if truthyJson potholes then
                    match getPotholesMarkdown potholesSummary with
                    | Some markdown => if Js.truthy (Some markdown) then markdown else EmptyString
                    | None => EmptyString
                    end
                  else EmptyString
              | None => EmptyString
              end)
      else None
  | None => None
  end.

End Report.

End Client.

(** ** The earlier client component: [src/app/page.tsx]

    The same component without the text area and without the stored
    user context. Its lines 131-146 (the parsing of [data.analysis])
    and 152-162 (the message of the [catch] block) are those of the
    later component, and are shared with it here. *)

Module Page.

Record State : Type := mkState {
  uploadedImage : option File.t;
  imagePreview : option string;
  isAnalyzing : bool;
  analysis : option string;
  parsedAnalysis : Json;
  error : option string;
  isRightPanelMaximized : bool;
  mounted : bool
}.

Definition initial : State :=
  {| uploadedImage := None; imagePreview := None; isAnalyzing := false;
     analysis := None; parsedAnalysis := JNull; error := None;
     isRightPanelMaximized := false; mounted := false |}.

Definition setUploadedImage (v : option File.t) (st : State) : State :=
  mkState v (imagePreview st) (isAnalyzing st) (analysis st) (parsedAnalysis st)
          (error st) (isRightPanelMaximized st) (mounted st).

Definition setImagePreview (v : option string) (st : State) : State :=
  mkState (uploadedImage st) v (isAnalyzing st) (analysis st) (parsedAnalysis st)
          (error st) (isRightPanelMaximized st) (mounted st).

Definition setIsAnalyzing (v : bool) (st : State) : State :=
  mkState (uploadedImage st) (imagePreview st) v (analysis st) (parsedAnalysis st)
          (error st) (isRightPanelMaximized st) (mounted st).

Definition setAnalysis (v : option string) (st : State) : State :=
  mkState (uploadedImage st) (imagePreview st) (isAnalyzing st) v (parsedAnalysis st)
          (error st) (isRightPanelMaximized st) (mounted st).

Definition setParsedAnalysis (v : Json) (st : State) : State :=
  mkState (uploadedImage st) (imagePreview st) (isAnalyzing st) (analysis st) v
          (error st) (isRightPanelMaximized st) (mounted st).

Definition setError (v : option string) (st : State) : State :=
  mkState (uploadedImage st) (imagePreview st) (isAnalyzing st) (analysis st)
          (parsedAnalysis st) v (isRightPanelMaximized st) (mounted st).

(** Lines 59-72. *)
Definition onDrop (acceptedFiles : list File.t) (st : State) : State :=
  match acceptedFiles with
  | file :: _ =>
      if Js.startsWith "image/" (File.type file) then
        setError None (setAnalysis None (setUploadedImage (Some file) st))
      else st
  | [] => st
  end.

(** Lines 82-87. *)
Definition clearImage (st : State) : State :=
  setError None (setAnalysis None (setImagePreview None (setUploadedImage None st))).

(** [page.tsx] lines 175-183: the classes of an issue card, by a [switch] on the severity. *)
Definition getSeverityColor (severity : string) : string :=
  if String.eqb severity "critical" then
    "bg-red-100 text-red-800 border-red-200 dark:bg-red-900/30 dark:text-red-200 dark:border-red-700"
  else if String.eqb severity "severe" then
    "bg-orange-100 text-orange-800 border-orange-200 dark:bg-orange-900/30 dark:text-orange-200 dark:border-orange-700"
  else if String.eqb severity "moderate" then
    "bg-yellow-100 text-yellow-800 border-yellow-200 dark:bg-yellow-900/30 dark:text-yellow-200 dark:border-yellow-700"
  else if String.eqb severity "minor" then
    "bg-green-100 text-green-800 border-green-200 dark:bg-green-900/30 dark:text-green-200 dark:border-green-700"
  else
    "bg-gray-100 text-gray-800 border-gray-200 dark:bg-gray-900/30 dark:text-gray-200 dark:border-gray-700".

(** [page.tsx] lines 185-193: the classes of the urgency badge. *)
Definition getUrgencyColor (urgency : string) : string :=
  if String.eqb urgency "immediate" then
    "bg-red-500 text-white"
  else if String.eqb urgency "within_24h" then
    "bg-orange-500 text-white"
  else if String.eqb urgency "within_week" then
    "bg-yellow-500 text-white"
  else if String.eqb urgency "routine_maintenance" then
    "bg-blue-500 text-white"
  else
    "bg-gray-500 text-white".

(** [page.tsx] lines 195-204: the classes of the condition rating. *)
Definition getConditionColor (condition : string) : string :=
  if String.eqb condition "excellent" then
    "text-green-600 dark:text-green-400"
  else if String.eqb condition "good" then
    "text-blue-600 dark:text-blue-400"
  else if String.eqb condition "fair" then
    "text-yellow-600 dark:text-yellow-400"
  else if String.eqb condition "poor" then
    "text-orange-600 dark:text-orange-400"
  else if String.eqb condition "dangerous" then
    "text-red-600 dark:text-red-400"
  else
    "text-gray-600 dark:text-gray-400".

Section Handlers.

Context {rt : Runtime}.

Variable fetch : FormData -> JsResult Client.Response.

(** Lines 126-148, for the truthy [data.analysis]. *)
Definition handleAnalysis (analysisData : Json) (st : State) : State * option JsError :=
  let st :=
    setAnalysis
      (Some (match analysisData with
             | JStr s => s
             | _ => JSON_stringify analysisData
             end)) st in
  match Client.parsedData analysisData with
  | Ok parsedData => (setParsedAnalysis parsedData st, None)
  | Throw e => (st, Some e)
  end.

(** The [try] block of lines 95-148: the form carries the image only. *)
Definition analyzeImage_try (uploadedImage : File.t) (st : State) : State * option JsError :=
  let formData : FormData := [("image", EntryFile uploadedImage)] in
  match fetch formData with
  | Throw e => (st, Some e)
  | Ok response =>
      if negb (match Client.content_type response with
               | Some contentType =>
                   Js.truthy (Some contentType) &&
                   Js.includes "application/json" contentType
               | None => false
               end) then
        match Client.text response with
        | Throw e => (st, Some e)
        | Ok _ => (st, Some (RuntimeError "Server returned an invalid response format"))
        end
      else
        match Client.json response with
        | Throw e => (st, Some e)
        | Ok JNull =>
            (st, Some (RuntimeError
                         (if Client.ok response
                          then "Cannot read properties of null (reading 'analysis')"
                          else "Cannot read properties of null (reading 'error')")))
        | Ok data =>
            if negb (Client.ok response) then
              (st, Some (RuntimeError
                           (match prop "error" data with
                            | Some v =>
                                if truthyJson (Some v) then Client.toString v
                                else "Server error: " +:+ pretty (Client.status response)
                            | None => "Server error: " +:+ pretty (Client.status response)
                            end)))
            else
              match prop "analysis" data with
              | Some analysisData =>
                  if negb (truthyJson (Some analysisData)) then
                    (st, Some (RuntimeError "No analysis received from server"))
                  else handleAnalysis analysisData st
              | None => (st, Some (RuntimeError "No analysis received from server"))
              end
        end
  end.

(** Lines 89-168, as one step. *)
Definition analyzeImage (st : State) : State :=
  match uploadedImage st with
  | None => st
  | Some image =>
      let st := setError None (setIsAnalyzing true st) in
      let '(st, thrown) := analyzeImage_try image st in
      let st :=
        match thrown with
        | Some error => setError (Some (Client.errorMessage error)) st
        | None => st
        end in
      setIsAnalyzing false st
  end.

(** Which branch of the results panel the mounted component takes
    (lines 393-703); as in the later component, the JSX inside a branch
    is not modelled. *)
Inductive ResultsPanel : Type :=
  | Analyzing
  | Failed (error : string)
  | Structured (parsedAnalysis : Json)
  | Unstructured (analysis : string)
  | Ready.

Definition resultsPanel (st : State) : ResultsPanel :=
  if isAnalyzing st then Analyzing
  else if Js.truthy (error st) then
    Failed (default EmptyString (error st))
  else if Js.truthy (analysis st) then
    if truthyJson (Some (parsedAnalysis st)) then Structured (parsedAnalysis st)
    else Unstructured (default EmptyString (analysis st))
  else Ready.

End Handlers.

End Page.

(** ** The two ends together *)

(** What the client's [fetch] receives for a relay response: the body
    written by [NextResponse.json] and read back by [response.json()]. *)
Definition deliver (r : Relay.NextResponse) : Client.Response :=
  {| Client.content_type := Some "application/json";
     Client.status := Relay.status r;
     Client.text := Ok tt;
     Client.json := Ok (Relay.body r) |}.

(** [fetch] served by the relay: the form travels in its multipart
    encoding. *)
Definition fetch_relay {rt : Runtime} (openai : Relay.OpenAI) (env : gmap string string)
    (now : string) (create : Relay.ModelCall -> Relay.ModelReply)
    (formData : FormData) : JsResult Client.Response :=
  Ok (deliver
        (snd (Relay.POST openai env now create (Relay.WithBody (Ok (multipart formData)))))).

(** ** A runtime to run the handlers on

    A JSON reader for the texts without [\u] escapes and without
    fractions or exponents (it rejects those), the two-space printer,
    the string conversion and base64. *)

Module Reference.

Definition code (c : ascii) : N := N_of_ascii c.

Definition isJsonWhiteSpace (c : ascii) : bool :=
  ((code c =? 32) || (code c =? 9) || (code c =? 10) || (code c =? 13))%N.

Fixpoint skipWhiteSpace (s : string) : string :=
  match s with
  | EmptyString => EmptyString
  | String c r => if isJsonWhiteSpace c then skipWhiteSpace r else s
  end.

Definition isDigit (c : ascii) : bool := ((48 <=? code c) && (code c <=? 57))%N.

Fixpoint digits (acc : Z) (s : string) : Z * string :=
  match s with
  | EmptyString => (acc, EmptyString)
  | String c r =>
      if isDigit c then digits (10 * acc + Z.of_N (code c - 48)) r else (acc, s)
  end.

(** An integer: an optional minus sign, then [0] or a digit string
    without a leading zero; no fraction and no exponent may follow. *)
Definition number (s : string) : option (Json * string) :=
  let '(negative, s1) :=
    match s with
    | String c r => if (code c =? 45)%N then (true, r) else (false, s)
    | EmptyString => (false, s)
    end in
  match s1 with
  | EmptyString => None
  | String c r =>
      if isDigit c then
        let '(n, rest) := digits 0 s1 in
        let leadingZero :=
          (code c =? 48)%N && match r with String d _ => isDigit d | EmptyString => false end in
        let continues :=
          match rest with
          | String d _ => ((code d =? 46) || (code d =? 101) || (code d =? 69))%N
          | EmptyString => false
          end in
        if leadingZero || continues then None
        else Some (JNum (if negative then - n else n), rest)
      else None
  end.

(** The character an escape [\c] stands for. *)
Definition unescape (c : ascii) : option ascii :=
  let n := code c in
  if ((n =? 34) || (n =? 92) || (n =? 47))%N then Some c
  else if (n =? 98)%N then Some (ascii_of_nat 8)
  else if (n =? 102)%N then Some (ascii_of_nat 12)
  else if (n =? 110)%N then Some (ascii_of_nat 10)
  else if (n =? 114)%N then Some (ascii_of_nat 13)
  else if (n =? 116)%N then Some (ascii_of_nat 9)
  else None.

(** The rest of a string literal after its opening quote. *)
Fixpoint stringLiteral (s : string) : option (string * string) :=
  match s with
  | EmptyString => None
  | String c r =>
      if (code c =? 34)%N then Some (EmptyString, r)
      else if (code c =? 92)%N then
        match r with
        | EmptyString => None
        | String e r' =>
            match unescape e, stringLiteral r' with
            | Some x, Some (str, rest) => Some (String x str, rest)
            | _, _ => None
            end
        end
      else if (code c <? 32)%N then None
      else
        match stringLiteral r with
        | Some (str, rest) => Some (String c str, rest)
        | None => None
        end
  end.

Definition keyword (k : string) (v : Json) (s : string) : option (Json * string) :=
  match Js.removePrefix k s with
  | Some rest => Some (v, rest)
  | None => None
  end.

(** Set a property: a repeated key keeps its place and takes the new value. *)
Fixpoint setProp (k : string) (v : Json) (props : list (string * Json)) : list (string * Json) :=
  match props with
  | [] => [(k, v)]
  | (k', v') :: rest =>
      if String.eqb k k' then (k', v) :: rest else (k', v') :: setProp k v rest
  end.

Fixpoint value (fuel : nat) (s : string) : option (Json * string) :=
  match fuel with
  | O => None
  | S fuel =>
      match s with
      | EmptyString => None
      | String c r =>
          match valueStart c with
          | None => None
          | Some StartNull => keyword "null" JNull s
          | Some StartTrue => keyword "true" (JBool true) s
          | Some StartFalse => keyword "false" (JBool false) s
          | Some StartNumber => number s
          | Some StartString =>
              match stringLiteral r with
              | Some (str, rest) => Some (JStr str, rest)
              | None => None
              end
          | Some StartArray =>
              match skipWhiteSpace r with
              | EmptyString => None
              | String c' r' =>
                  if (code c' =? 93)%N then Some (JArr [], r')
                  else
                    match elements fuel (String c' r') [] with
                    | Some (items, rest) => Some (JArr items, rest)
                    | None => None
                    end
              end
          | Some StartObject =>
              match skipWhiteSpace r with
              | EmptyString => None
              | String c' r' =>
                  if (code c' =? 125)%N then Some (JObj [], r')
                  else
                    match members fuel (String c' r') [] with
                    | Some (props, rest) => Some (JObj props, rest)
                    | None => None
                    end
              end
          end
      end
  end
with elements (fuel : nat) (s : string) (acc : list Json) : option (list Json * string) :=
  match fuel with
  | O => None
  | S fuel =>
      match value fuel s with
      | None => None
      | Some (v, r) =>
          match skipWhiteSpace r with
          | EmptyString => None
          | String c r' =>
              if (code c =? 44)%N then elements fuel (skipWhiteSpace r') (acc ++ [v])%list
              else if (code c =? 93)%N then Some ((acc ++ [v])%list, r')
              else None
          end
      end
  end
with members (fuel : nat) (s : string) (acc : list (string * Json))
    : option (list (string * Json) * string) :=
  match fuel with
  | O => None
  | S fuel =>
      match s with
      | EmptyString => None
      | String c r =>
          if (code c =? 34)%N then
            match stringLiteral r with
            | None => None
            | Some (k, r1) =>
                match skipWhiteSpace r1 with
                | EmptyString => None
                | String c1 r2 =>
                    if (code c1 =? 58)%N then
                      match value fuel (skipWhiteSpace r2) with
                      | None => None
                      | Some (v, r3) =>
                          match skipWhiteSpace r3 with
                          | EmptyString => None
                          | String c3 r4 =>
                              if (code c3 =? 44)%N then
                                members fuel (skipWhiteSpace r4) (setProp k v acc)
                              else if (code c3 =? 125)%N then Some (setProp k v acc, r4)
                              else None
                          end
                      end
                    else None
                end
            end
          else None
      end
  end.

Definition parse (s : string) : option Json :=
  match value (S (String.length s)) (skipWhiteSpace s) with
  | Some (v, rest) =>
      match skipWhiteSpace rest with
      | EmptyString => Some v
      | String _ _ => None
      end
  | None => None
  end.

Definition hexDigit (n : N) : ascii :=
  ascii_of_N (if (n <? 10)%N then 48 + n else 87 + n).

(** A character inside a printed string literal. *)
Definition escape (c : ascii) : string :=
  let n := code c in
  let bs := String (ascii_of_nat 92) EmptyString in
  if ((n =? 34) || (n =? 92))%N then bs +:+ String c EmptyString
  else if (n =? 8)%N then bs +:+ "b"
  else if (n =? 12)%N then bs +:+ "f"
  else if (n =? 10)%N then bs +:+ "n"
  else if (n =? 13)%N then bs +:+ "r"
  else if (n =? 9)%N then bs +:+ "t"
  else if (n <? 32)%N then
    bs +:+ "u00" +:+ String (hexDigit (n / 16)) (String (hexDigit (n mod 16)) EmptyString)
  else String c EmptyString.

Fixpoint escapeAll (s : string) : string :=
  match s with
  | EmptyString => EmptyString
  | String c r => escape c +:+ escapeAll r
  end.

Definition quote (s : string) : string := Js.dq +:+ escapeAll s +:+ Js.dq.

Definition newline : string := String (ascii_of_nat 10) EmptyString.

(** [JSON.stringify(v, null, 2)] at the given current indentation. *)
Fixpoint stringifyAt (indent : string) (v : Json) : string :=
  let inner := indent +:+ "  " in
  match v with
  | JNull => "null"
  | JBool true => "true"
  | JBool false => "false"
  | JNum n => pretty n
  | JStr s => quote s
  | JArr [] => "[]"
  | JArr items =>
      "[" +:+ newline +:+
      String.concat ("," +:+ newline)
        (map (fun x => inner +:+ stringifyAt inner x) items) +:+
      newline +:+ indent +:+ "]"
  | JObj [] => "{}"
  | JObj props =>
      "{" +:+ newline +:+
      String.concat ("," +:+ newline)
        (map (fun kv => inner +:+ quote (fst kv) +:+ ": " +:+ stringifyAt inner (snd kv)) props) +:+
      newline +:+ indent +:+ "}"
  end.

Definition stringify (v : Json) : string := stringifyAt EmptyString v.

(** [String(v)]. *)
Fixpoint toStringValue (v : Json) : string :=
  match v with
  | JNull => "null"
  | JBool true => "true"
  | JBool false => "false"
  | JNum n => pretty n
  | JStr s => s
  | JArr items =>
      String.concat ","
        (map (fun x => match x with JNull => EmptyString | _ => toStringValue x end) items)
  | JObj _ => "[object Object]"
  end.

(** The base64 alphabet. *)
Definition base64Char (n : N) : ascii :=
  ascii_of_N (if (n <? 26)%N then 65 + n
              else if (n <? 52)%N then 71 + n
              else if (n <? 62)%N then n - 4
              else if (n =? 62)%N then 43 else 47).

Definition byteCode (b : Byte.byte) : N := Byte.to_N b.

Fixpoint base64 (bytes : list Byte.byte) : string :=
  match bytes with
  | [] => EmptyString
  | [a] =>
      let n := (byteCode a * 65536)%N in
      String (base64Char (n / 262144)) (String (base64Char (n / 4096 mod 64)) "==")
  | [a; b] =>
      let n := (byteCode a * 65536 + byteCode b * 256)%N in
      String (base64Char (n / 262144)) (String (base64Char (n / 4096 mod 64))
        (String (base64Char (n / 64 mod 64)) "="))
  | a :: b :: c :: rest =>
      let n := (byteCode a * 65536 + byteCode b * 256 + byteCode c)%N in
      String (base64Char (n / 262144)) (String (base64Char (n / 4096 mod 64))
        (String (base64Char (n / 64 mod 64)) (String (base64Char (n mod 64)) (base64 rest))))
  end.

#[export] Instance runtime : Runtime :=
  {| JSON_parse := parse;
     JSON_stringify := stringify;
     ToString := toStringValue;
     toString_base64 := base64 |}.

End Reference.

(** ** Sample inputs *)

Module Sample.

Definition image : File.t :=
  {| File.type := "image/jpeg"; File.size := 3; File.bytes := [Byte.x4d; Byte.x61; Byte.x6e] |}.

Definition document : File.t :=
  {| File.type := "application/pdf"; File.size := 3;
     File.bytes := [Byte.x4d; Byte.x61; Byte.x6e] |}.

Definition formData : FormData :=
  [ ("image", EntryFile image);
    ("description", EntryString "John Doe: pothole near gate") ].

(** A form whose [description] is there and empty. *)
Definition formData_empty : FormData :=
  [ ("image", EntryFile image); ("description", EntryString EmptyString) ].

Definition request : Relay.NextRequest := Relay.WithBody (Ok formData).

(** A form whose image field is not an image. *)
Definition formData_pdf : FormData := [ ("image", EntryFile document) ].

Definition openai : Relay.OpenAI := {| Relay.apiKey := "sk-sample" |}.

Definition env : gmap string string := {[ Relay.OPENAI_API_KEY := "sk-from-env" ]}.

(** [OPENAI_API_KEY] set, to the empty string. *)
Definition env_empty : gmap string string := {[ Relay.OPENAI_API_KEY := EmptyString ]}.

Definition now : string := "2025-01-01T00:00:00.000Z".

(** A model that answers with the given content. *)
Definition answers (content : string) : Relay.ModelCall -> Relay.ModelReply :=
  fun _ => Ok (Some content).

(** A model call that fails with the given value. *)
Definition fails (e : JsError) : Relay.ModelCall -> Relay.ModelReply :=
  fun _ => Throw e.

(** The upstream rate-limit failure. *)
Definition rateLimited : JsError :=
  {| error_type := Some "rate_limit_error"; instanceof_Error := true;
     message := "429 Rate limit reached for requests" |}.

(** [{"issue_count": 0}] *)
Definition report : string :=
  "{" +:+ Js.dq +:+ "issue_count" +:+ Js.dq +:+ ": 0}".

(** The one call the relay makes for the sample form. *)
Definition call : Relay.ModelCall :=
  Relay.modelCall (rt := Reference.runtime) openai formData image.

(** The client with the sample image staged. *)
Definition staged : Client.State := Client.onDrop [image] Client.initial.

(** The client after one analysis served by the relay. *)
Definition resolved : Client.State :=
  Client.analyzeImage (rt := Reference.runtime)
    (fetch_relay (rt := Reference.runtime) openai env now (answers report)) staged.

(** A response that carries [user_context] at the top level. *)
Definition response_echo : Client.Response :=
  {| Client.content_type := Some "application/json";
     Client.status := 200;
     Client.text := Ok tt;
     Client.json :=
       Ok (JObj [("analysis", JObj [("issue_count", JNum 0)]);
                 ("user_context",
                  JObj [("description", JStr "John Doe: pothole near gate")])]) |}.

(** The client after one analysis answered with [response_echo]. *)
Definition echoed : Client.State :=
  Client.analyzeImage (rt := Reference.runtime) (fun _ => Ok response_echo) staged.

(** [OPENAI_API_KEY] set to another value. *)
Definition env_other : gmap string string := {[ Relay.OPENAI_API_KEY := "sk-other" ]}.

(** A form whose [description] is a file. *)
Definition formData_file : FormData :=
  [ ("image", EntryFile image); ("description", EntryFile document) ].

(** A network that fails. *)
Definition offline : FormData -> JsResult Client.Response :=
  fun _ => Throw (RuntimeError "Failed to fetch").

(** A gateway that answers with a page of HTML. *)
Definition response_html : Client.Response :=
  {| Client.content_type := Some "text/html";
     Client.status := 502;
     Client.text := Ok tt;
     Client.json := Throw (RuntimeError "Unexpected token < in JSON at position 0") |}.

(** A form whose [image] field is text. *)
Definition formData_text : FormData := [ ("image", EntryString "photo.jpg") ].

(** A request whose body is not a form: [request.formData()] throws a
    [TypeError]. *)
Definition unreadable : Relay.NextRequest :=
  Relay.WithBody (Throw (RuntimeError "Failed to parse body as FormData.")).

(** A gateway whose body breaks off while it is read. *)
Definition response_broken : Client.Response :=
  {| Client.content_type := Some "text/html";
     Client.status := 502;
     Client.text := Throw (RuntimeError "terminated");
     Client.json := Throw (RuntimeError "terminated") |}.


End Sample.

(** ** Vocabulary of the statements *)

(** The request carries no image field: it has no body, or a body that
    is not a form ([request.formData()] throws on it), or its form has
    no field of that name, or has a text under that name and not a
    file. *)
Definition noImageField (request : Relay.NextRequest) : Prop :=
  request = Relay.NoBody \/
  (exists e : JsError, request = Relay.WithBody (Throw e)) \/
  exists formData : FormData,
    request = Relay.WithBody (Ok formData) /\
    (get "image" formData = None \/
     exists s : string, get "image" formData = Some (EntryString s)).

(** The request is a form whose image field is the text [s], not a file. *)
Definition imageText (request : Relay.NextRequest) (formData : FormData) (s : string)
    : Prop :=
  request = Relay.WithBody (Ok formData) /\ get "image" formData = Some (EntryString s).

(** A value thrown that the [catch] block of the relay does not
    recognise: no upstream type tag, and not an [Error] whose message
    names [fetch], [timeout] or [API key]. *)
Definition unrecognised (e : JsError) : Prop :=
  Js.truthy (error_type e) = false /\
  (instanceof_Error e = true ->
   Js.includes "fetch" (message e) = false /\
   Js.includes "timeout" (message e) = false /\
   Js.includes "API key" (message e) = false).

(** The content of the model is blank: [null], or white space only. *)
Definition blank (content : option string) : Prop :=
  content = None \/ exists s : string, content = Some s /\ Js.allWhiteSpace s = true.


(** The request is a form whose image field is the file [image]. *)
Definition imageField (request : Relay.NextRequest) (formData : FormData) (image : File.t)
    : Prop :=
  request = Relay.WithBody (Ok formData) /\ get "image" formData = Some (EntryFile image).

(** The declared content type starts with [image/] and the size is at
    most 10 MiB. *)
Definition validImage (image : File.t) : Prop :=
  Js.startsWith "image/" (File.type image) = true /\ (File.size image <= 10 * 1024 * 1024)%N.

(** The statuses documented for the type tags of an upstream failure:
    invalid request, authentication, permission, rate limit, transient
    failure, overload. *)
Definition upstreamStatus : list (string * Z) :=
  [ ("invalid_request_error", 400);
    ("authentication_error", 401);
    ("permission_error", 403);
    ("rate_limit_error", 429);
    ("api_error", 502);
    ("overloaded_error", 503) ].

(** The user-facing messages of the relay's error mapping. *)
Definition errorMessages : list string :=
  [ "Invalid request to AI service";
    "AI service authentication failed";
    "Permission denied for AI service";
    "Rate limit exceeded. Please try again in a moment";
    "AI service temporarily unavailable";
    "AI service is overloaded. Please try again";
    "AI service error occurred";
    "Network error. Please check your connection";
    "Request timed out. Please try again";
    "AI service configuration error";
    "Internal server error occurred" ].

(** Two thrown values the [catch] block cannot tell apart: the same
    upstream type tag, both or neither an [Error], and messages that
    agree on the three words the block looks for. *)
Definition sameFailure (e1 e2 : JsError) : Prop :=
  error_type e1 = error_type e2 /\
  instanceof_Error e1 = instanceof_Error e2 /\
  Js.includes "fetch" (message e1) = Js.includes "fetch" (message e2) /\
  Js.includes "timeout" (message e1) = Js.includes "timeout" (message e2) /\
  Js.includes "API key" (message e1) = Js.includes "API key" (message e2).

(** The response field [v] echoes the form field [name]: [null] when
    the field is absent or empty, the very string otherwise. *)
Definition echoes (formData : FormData) (name : string) (v : Json) : Prop :=
  (get name formData = None -> v = JNull) /\
  (get name formData = Some (EntryString EmptyString) -> v = JNull) /\
  (forall s : string,
      s <> EmptyString -> get name formData = Some (EntryString s) -> v = JStr s).

(** The headings under which the prompt lists its seven categories. *)
Definition categoryHeadings : list string :=
  [ "1. **STRUCTURAL DAMAGE**";
    "2. **ROAD MARKINGS**";
    "3. **GARBAGE & LITTER**";
    "4. **OBSTACLES & HAZARDS**";
    "5. **INFRASTRUCTURE ISSUES**";
    "6. **VEGETATION ISSUES**";
    "7. **SAFETY CONCERNS**" ].

(** The optional form fields and the line each one opens in the prompt. *)
Definition hintLabels : list (string * string) :=
  [ ("complaintType", "
User complaint type: ");
    ("location", "
Reported location: ");
    ("description", "
User description: ") ].

(** One event of a session of the client whose requests the relay
    serves: the mount effect, typing in the text area, a drop, the
    file reader finishing, the clear button, the panel toggle, the
    Analyze button and the Try Again button. *)
Inductive step {rt : Runtime} : Client.State -> Client.State -> Prop :=
| step_mount (st : Client.State) : step st (Client.mount st)
| step_details (st : Client.State) (v : string) : step st (Client.setUserDetails v st)
| step_drop (st : Client.State) (acceptedFiles : list File.t) :
    step st (Client.onDrop acceptedFiles st)
| step_loaded (st : Client.State) (result : option string) :
    step st (Client.reader_onload result st)
| step_clear (st : Client.State) : step st (Client.clearImage st)
| step_toggle (st : Client.State) : step st (Client.toggleRightPanel st)
| step_analyze (st : Client.State) (openai : Relay.OpenAI) (env : gmap string string)
    (now : string) (create : Relay.ModelCall -> Relay.ModelReply) :
    step st (Client.analyzeImage (fetch_relay openai env now create) st)
| step_retry (st : Client.State) (openai : Relay.OpenAI) (env : gmap string string)
    (now : string) (create : Relay.ModelCall -> Relay.ModelReply) :
    step st (Client.retry (fetch_relay openai env now create) st).

(** The states a session can be in. *)
Inductive reachable {rt : Runtime} : Client.State -> Prop :=
| reachable_initial : reachable Client.initial
| reachable_step (st st' : Client.State) : reachable st -> step st st' -> reachable st'.

(** ** Vocabulary of the further statements *)

(** Every message the relay puts in an [{ error }] body. *)
Definition relayMessages : list string :=
  [ "No request body provided";
    "No image file provided";
    "File must be an image";
    "Image file too large. Maximum size is 10MB";
    "AI service not configured";
    "No analysis generated" ] ++ errorMessages.

(** The statuses of the relay's failures. *)
Definition failureStatuses : list Z := [400; 401; 403; 408; 429; 500; 502; 503].

(** The form the client sends for a staged image and the text of the
    text area. *)
Definition clientForm (image : File.t) (userDetails : string) : FormData :=
  ("image", EntryFile image) ::
  match Js.trim userDetails with
  | EmptyString => []
  | details => [("description", EntryString details)]
  end.

(** The state of the earlier component that a state of the later one
    extends. *)
Definition forget (st : Client.State) : Page.State :=
  {| Page.uploadedImage := Client.uploadedImage st;
     Page.imagePreview := Client.imagePreview st;
     Page.isAnalyzing := Client.isAnalyzing st;
     Page.analysis := Client.analysis st;
     Page.parsedAnalysis := Client.parsedAnalysis st;
     Page.error := Client.error st;
     Page.isRightPanelMaximized := Client.isRightPanelMaximized st;
     Page.mounted := Client.mounted st |}.

(** The panel of the earlier component: the later one without the
    Complaint Details. *)
Definition forgetPanel (panel : Client.ResultsPanel) : Page.ResultsPanel :=
  match panel with
  | Client.Analyzing => Page.Analyzing
  | Client.Failed error => Page.Failed error
  | Client.Structured parsedAnalysis _ => Page.Structured parsedAnalysis
  | Client.Unstructured analysis => Page.Unstructured analysis
  | Client.Ready => Page.Ready
  end.

(** The severities, urgencies and condition ratings of the report. *)
Definition severities : list string := ["critical"; "severe"; "moderate"; "minor"].
Definition urgencies : list string :=
  ["immediate"; "within_24h"; "within_week"; "routine_maintenance"].
Definition conditions : list string := ["excellent"; "good"; "fair"; "poor"; "dangerous"].

(** * Properties *)

(** ** Strings *)

Module JsFacts.
Import Js.

Lemma app_cons (c : ascii) (s t : string) : String c s +:+ t = String c (s +:+ t).
Proof. reflexivity. Qed.

Lemma app_nil_l (s : string) : EmptyString +:+ s = s.
Proof. reflexivity. Qed.

Lemma app_nil_r (s : string) : s +:+ EmptyString = s.
Proof. induction s as [|c s IH]; [reflexivity|]. rewrite app_cons, IH. reflexivity. Qed.

Lemma app_assoc (s t u : string) : (s +:+ t) +:+ u = s +:+ t +:+ u.
Proof.
  induction s as [|c s IH]; [reflexivity|].
  rewrite !app_cons, IH. reflexivity.
Qed.

Lemma length_app (s t : string) :
  String.length (s +:+ t) = (String.length s + String.length t)%nat.
Proof.
  induction s as [|c s IH]; [reflexivity|].
  rewrite app_cons. simpl. rewrite IH. reflexivity.
Qed.

Lemma startsWith_app (p s : string) : startsWith p (p +:+ s) = true.
Proof.
  induction p as [|c p IH]; [reflexivity|].
  rewrite app_cons. simpl. rewrite Ascii.eqb_refl, IH. reflexivity.
Qed.

Lemma startsWith_head (a b : ascii) (p s : string) :
  a <> b -> startsWith (String a p) (String b s) = false.
Proof.
  intros Hab. simpl. apply Ascii.eqb_neq in Hab. rewrite Hab. reflexivity.
Qed.

Lemma removePrefix_app (p s : string) : removePrefix p (p +:+ s) = Some s.
Proof.
  induction p as [|c p IH]; [reflexivity|].
  rewrite app_cons. simpl. rewrite Ascii.eqb_refl. exact IH.
Qed.

Lemma replaceStart_app (p s : string) : replaceStart p (p +:+ s) = s.
Proof. unfold replaceStart. rewrite removePrefix_app. reflexivity. Qed.

Lemma replaceEnd_app (p s : string) : replaceEnd p (s +:+ p) = s.
Proof.
  induction s as [|c s IH].
  - rewrite app_nil_l. destruct p as [|a p]; [reflexivity|].
    simpl. rewrite Ascii.eqb_refl, String.eqb_refl. reflexivity.
  - rewrite app_cons.
    assert (Hne : String.eqb (String c (s +:+ p)) p = false).
    { apply String.eqb_neq. intros Heq.
      apply (f_equal String.length) in Heq. simpl in Heq.
      rewrite length_app in Heq. lia. }
    simpl. simpl in Hne. rewrite Hne, IH. reflexivity.
Qed.

Lemma trimStart_ws_app (w s : string) :
  allWhiteSpace w = true -> trimStart (w +:+ s) = trimStart s.
Proof.
  induction w as [|c w IH]; intros Hw; [reflexivity|].
  simpl in Hw. apply andb_true_iff in Hw as [Hc Hw].
  rewrite app_cons. simpl. rewrite Hc. auto.
Qed.

Lemma trimStart_head (c : ascii) (s : string) :
  isWhiteSpace c = false -> trimStart (String c s) = String c s.
Proof. intros Hc. simpl. rewrite Hc. reflexivity. Qed.

Lemma trimEnd_ws (w : string) : allWhiteSpace w = true -> trimEnd w = EmptyString.
Proof.
  induction w as [|c w IH]; intros Hw; [reflexivity|].
  simpl in Hw. apply andb_true_iff in Hw as [Hc Hw].
  simpl. rewrite (IH Hw), Hc. reflexivity.
Qed.

Lemma trimEnd_app_ws (s w : string) :
  allWhiteSpace w = true -> trimEnd (s +:+ w) = trimEnd s.
Proof.
  intros Hw. induction s as [|c s IH].
  - rewrite app_nil_l. apply trimEnd_ws, Hw.
  - rewrite app_cons. simpl. rewrite IH. reflexivity.
Qed.

(** A string that ends with a character that is not white space is its
    own [trimEnd]. *)
Lemma trimEnd_last (s : string) (c : ascii) :
  isWhiteSpace c = false ->
  trimEnd (s +:+ String c EmptyString) = s +:+ String c EmptyString.
Proof.
  intros Hc. induction s as [|a s IH].
  - rewrite app_nil_l. simpl. rewrite Hc. reflexivity.
  - rewrite app_cons. simpl. rewrite IH.
    destruct s; reflexivity.
Qed.

(** [trimEnd] keeps a first character that is not white space. *)
Lemma trimEnd_head (c : ascii) (s : string) :
  isWhiteSpace c = false -> exists r : string, trimEnd (String c s) = String c r.
Proof.
  intros Hc. simpl. destruct (trimEnd s) as [|a r].
  - rewrite Hc. eauto.
  - eauto.
Qed.

(** [trim] of a text between two runs of white space, when the text
    starts and ends with characters that are not white space. *)
Lemma trim_padded (w1 w2 s : string) (a b : ascii) :
  allWhiteSpace w1 = true -> allWhiteSpace w2 = true ->
  isWhiteSpace a = false -> isWhiteSpace b = false ->
  trim (w1 +:+ (String a s +:+ String b EmptyString) +:+ w2)
  = String a s +:+ String b EmptyString.
Proof.
  intros H1 H2 Ha Hb.
  transitivity (trimEnd (String a s +:+ String b EmptyString));
    [|apply trimEnd_last; exact Hb].
  unfold trim. rewrite trimStart_ws_app by exact H1.
  rewrite <- (trimEnd_app_ws (String a s +:+ String b EmptyString) w2 H2).
  f_equal. rewrite app_assoc, app_cons. apply trimStart_head. exact Ha.
Qed.

Lemma trim_empty_iff_length (s : string) :
  (String.length (trim s) =? 0)%nat = true <-> trim s = EmptyString.
Proof.
  destruct (trim s); simpl; split; intros H; try reflexivity; discriminate.
Qed.

Lemma occursIn_refl (s : string) : occursIn s s.
Proof. exists EmptyString, EmptyString. rewrite app_nil_r. reflexivity. Qed.

Lemma occursIn_app_l (x s t : string) : occursIn x s -> occursIn x (s +:+ t).
Proof.
  intros (a & b & ->). exists a, (b +:+ t). rewrite !app_assoc. reflexivity.
Qed.

Lemma occursIn_app_r (x s t : string) : occursIn x t -> occursIn x (s +:+ t).
Proof.
  intros (a & b & ->). exists (s +:+ a), b. rewrite !app_assoc. reflexivity.
Qed.

Lemma occursIn_trans (x y s : string) : occursIn x y -> occursIn y s -> occursIn x s.
Proof.
  intros (a & b & ->) (a' & b' & ->). exists (a' +:+ a), (b +:+ b').
  rewrite !app_assoc. reflexivity.
Qed.

(** [includes] is sound for occurrence. *)
Lemma startsWith_occurs (p s : string) :
  startsWith p s = true -> exists r : string, s = p +:+ r.
Proof.
  revert s. induction p as [|c p IH]; intros s H.
  - exists s. reflexivity.
  - destruct s as [|d s]; [discriminate|]. simpl in H.
    apply andb_true_iff in H as [Hcd H]. apply Ascii.eqb_eq in Hcd as ->.
    destruct (IH s H) as [r ->]. exists r. reflexivity.
Qed.

Lemma includes_occursIn (p s : string) : includes p s = true <-> occursIn p s.
Proof.
  split.
  - induction s as [|c s IH]; intros H.
    + simpl in H. rewrite orb_false_r in H.
      destruct (startsWith_occurs _ _ H) as [r Hr]. exists EmptyString, r. exact Hr.
    + simpl in H. apply orb_true_iff in H as [H|H].
      * destruct (startsWith_occurs _ _ H) as [r Hr]. exists EmptyString, r. exact Hr.
      * destruct (IH H) as (a & b & ->). exists (String c a), b. reflexivity.
  - intros (a & b & ->). induction a as [|c a IH].
    + rewrite app_nil_l.
      destruct (p +:+ b) eqn:E; simpl; rewrite <- E, startsWith_app; reflexivity.
    + rewrite app_cons. simpl. fold (includes p (a +:+ p +:+ b)). rewrite IH.
      apply orb_true_r.
Qed.

End JsFacts.

Lemma trimStart_allWhiteSpace (s : string) :
  Js.allWhiteSpace s = true -> Js.trimStart s = EmptyString.
Proof.
  induction s as [|c s IH]; [reflexivity|]. simpl.
  intros H. apply andb_true_iff in H as [Hc Hs]. rewrite Hc. auto.
Qed.

(** [trim] leaves nothing exactly of the strings of white space. *)
Lemma trim_empty (s : string) : Js.trim s = EmptyString <-> Js.allWhiteSpace s = true.
Proof.
  split.
  - unfold Js.trim. induction s as [|c s IH]; [reflexivity|].
    cbn [Js.trimStart Js.allWhiteSpace].
    destruct (Js.isWhiteSpace c) eqn:Hc; [exact IH|].
    intros H. destruct (JsFacts.trimEnd_head c s Hc) as [r Hr]. congruence.
  - intros H. unfold Js.trim. rewrite (trimStart_allWhiteSpace s H). reflexivity.
Qed.




(** ** The relay *)

Section RelayFacts.

Context {rt : Runtime}.
Variable openai : Relay.OpenAI.
Variable env : gmap string string.
Variable now : string.
Variable create : Relay.ModelCall -> Relay.ModelReply.

Local Abbreviation POST := (Relay.POST openai env now create).
Local Abbreviation POST_try := (Relay.POST_try openai env now create).

Lemma maxSize_ltb (image : File.t) :
  (File.size image <= 10 * 1024 * 1024)%N -> (Relay.maxSize <? File.size image)%N = false.
Proof. intros H. apply N.ltb_ge. exact H. Qed.

(** The handler on a form whose image field is a valid image: the
    credential check, then the one call. *)
Lemma POST_try_valid (request : Relay.NextRequest) (formData : FormData) (image : File.t) :
  imageField request formData image -> validImage image ->
  POST_try request =
    if negb (Js.truthy (env !! Relay.OPENAI_API_KEY)) then
      ([], Ok (Relay.NextResponse_json (Relay.error_json "AI service not configured") 500))
    else
      match create (Relay.modelCall openai formData image) with
      | Throw e => ([Relay.modelCall openai formData image], Throw e)
      | Ok analysis =>
          ([Relay.modelCall openai formData image],
           Ok (Relay.respond now formData image analysis))
      end.
Proof.
  intros [-> Hget] [Htype Hsize]. unfold Relay.POST_try.
  rewrite Hget. cbn [truthyEntry negb].
  rewrite Htype, (maxSize_ltb _ Hsize). reflexivity.
Qed.

(** Whenever the handler calls the model, the request was a form with a
    valid image, the credential variable was truthy, and the call is the
    one built from the form. *)
Lemma POST_try_call (request : Relay.NextRequest) (call : Relay.ModelCall) :
  fst (POST_try request) = [call] ->
  exists (formData : FormData) (image : File.t),
    imageField request formData image /\ validImage image /\
    Js.truthy (env !! Relay.OPENAI_API_KEY) = true /\
    call = Relay.modelCall openai formData image.
Proof.
  unfold Relay.POST_try.
  destruct request as [|[formData|e]]; try discriminate.
  destruct (get "image" formData) as [[s|image]|] eqn:Hget.
  - destruct (truthyEntry (Some (EntryString s))); discriminate.
  - cbn [truthyEntry negb].
    destruct (Js.startsWith "image/" (File.type image)) eqn:Htype; [|discriminate].
    cbn [negb].
    destruct (Relay.maxSize <? File.size image)%N eqn:Hsize; [discriminate|].
    destruct (Js.truthy (env !! Relay.OPENAI_API_KEY)) eqn:Hkey; [|discriminate].
    cbn [negb]. intros Hcall.
    exists formData, image. repeat split; try assumption.
    + apply N.ltb_ge in Hsize. exact Hsize.
    + destruct (create _); cbn in Hcall; congruence.
  - discriminate.
Qed.

Lemma POST_fst (request : Relay.NextRequest) : fst (POST request) = fst (POST_try request).
Proof. unfold Relay.POST. destruct (POST_try request). reflexivity. Qed.

Lemma POST_snd (request : Relay.NextRequest) :
  snd (POST request) =
    match snd (POST_try request) with
    | Ok response => response
    | Throw error => Relay.POST_catch error
    end.
Proof. unfold Relay.POST. destruct (POST_try request). reflexivity. Qed.

(** The response once the call has been made. *)
Lemma POST_after_call (request : Relay.NextRequest) (call : Relay.ModelCall) :
  fst (POST request) = [call] ->
  exists (formData : FormData) (image : File.t),
    imageField request formData image /\ validImage image /\
    Js.truthy (env !! Relay.OPENAI_API_KEY) = true /\
    call = Relay.modelCall openai formData image /\
    snd (POST request) =
      match create call with
      | Throw e => Relay.POST_catch e
      | Ok analysis => Relay.respond now formData image analysis
      end.
Proof.
  rewrite POST_fst. intros Hcall.
  destruct (POST_try_call _ _ Hcall) as (formData & image & Hreq & Hvalid & Hkey & ->).
  exists formData, image. repeat split; try assumption; try apply Hvalid; try apply Hreq.
  rewrite POST_snd, (POST_try_valid _ _ _ Hreq Hvalid), Hkey. cbn [negb].
  destruct (create _); reflexivity.
Qed.

(** The relay on a body it cannot read as a form, and on an image field
    that is text: both end in the [catch] block, without a call. *)
Lemma POST_unreadable (e : JsError) :
  POST (Relay.WithBody (Throw e)) = ([], Relay.POST_catch e).
Proof. reflexivity. Qed.

Lemma POST_catch_unrecognised (e : JsError) :
  unrecognised e ->
  Relay.POST_catch e =
    Relay.NextResponse_json (Relay.error_json "Internal server error occurred") 500.
Proof.
  intros [Htag Hmsg]. unfold Relay.POST_catch.
  destruct (error_type e) as [[|c type]|]; try discriminate;
    (destruct (instanceof_Error e); [|reflexivity];
     destruct (Hmsg eq_refl) as (-> & -> & ->); reflexivity).
Qed.

Lemma POST_imageText (formData : FormData) (c : ascii) (s : string) :
  get "image" formData = Some (EntryString (String c s)) ->
  POST (Relay.WithBody (Ok formData)) =
    ([], Relay.NextResponse_json (Relay.error_json "Internal server error occurred") 500).
Proof.
  intros Hget. unfold Relay.POST, Relay.POST_try. rewrite Hget. vm_compute. reflexivity.
Qed.

(** C1 (amended). A request without a body, a form without an image
    field or with an empty text as image, and a form whose image is a
    file of a declared content type that does not start with [image/] or
    of more than 10 MiB, are answered with status 400, and no call to
    the model is made. A body that cannot be read as a form and an image
    field that is a text are not answered by the validation but by the
    [catch] block, without a call either: status 500 with
    [Internal server error occurred], unless the value thrown is one the
    block recognises. A request with a valid image passes these checks:
    it reaches the credential check and, past it, the call to the
    model. *)
Theorem C1_input_validation (request : Relay.NextRequest) :
  (request = Relay.NoBody \/
   (exists formData : FormData,
      request = Relay.WithBody (Ok formData) /\
      (get "image" formData = None \/
       get "image" formData = Some (EntryString EmptyString))) \/
   (exists (formData : FormData) (image : File.t),
      imageField request formData image /\
      (Js.startsWith "image/" (File.type image) = false \/
       (10 * 1024 * 1024 < File.size image)%N)) ->
   Relay.status (snd (POST request)) = 400 /\ fst (POST request) = []) /\
  (forall e : JsError,
      request = Relay.WithBody (Throw e) ->
      POST request = ([], Relay.POST_catch e) /\
      (unrecognised e ->
       POST request =
         ([], Relay.NextResponse_json
                (Relay.error_json "Internal server error occurred") 500))) /\
  (forall (formData : FormData) (c : ascii) (s : string),
      imageText request formData (String c s) ->
      POST request =
        ([], Relay.NextResponse_json
               (Relay.error_json "Internal server error occurred") 500)) /\
  (forall (formData : FormData) (image : File.t),
      imageField request formData image -> validImage image ->
      if Js.truthy (env !! Relay.OPENAI_API_KEY)
      then fst (POST request) = [Relay.modelCall openai formData image]
      else POST request =
             ([], Relay.NextResponse_json (Relay.error_json "AI service not configured") 500)).
Proof.
  split; [|split; [|split]].
  - intros [->|[(formData & -> & Hget)|(formData & image & [-> Hget] & Hbad)]].
    + split; reflexivity.
    + unfold Relay.POST, Relay.POST_try.
      destruct Hget as [-> | ->]; split; reflexivity.
    + unfold Relay.POST, Relay.POST_try. rewrite Hget. cbn [truthyEntry negb].
      destruct (Js.startsWith "image/" (File.type image)) eqn:Htype.
      * destruct Hbad as [Hbad|Hbad]; [discriminate|].
        apply N.ltb_lt in Hbad. unfold Relay.maxSize. cbn [negb]. rewrite Hbad.
        split; reflexivity.
      * split; reflexivity.
  - intros e ->. split; [apply POST_unreadable|].
    intros He. rewrite POST_unreadable, (POST_catch_unrecognised e He). reflexivity.
  - intros formData c s [-> Hget]. exact (POST_imageText formData c s Hget).
  - intros formData image Hreq Hvalid.
    unfold Relay.POST. rewrite (POST_try_valid _ _ _ Hreq Hvalid).
    destruct (Js.truthy (env !! Relay.OPENAI_API_KEY)); cbn [negb].
    + destruct (create _); reflexivity.
    + reflexivity.
Qed.

(** C6. With a valid image and no [OPENAI_API_KEY] in the process
    environment, the relay answers 500 with the fixed message
    [AI service not configured] and makes no call to the model. *)
Theorem C6_missing_credential (request : Relay.NextRequest) (formData : FormData)
    (image : File.t) :
  imageField request formData image -> validImage image ->
  env !! Relay.OPENAI_API_KEY = None ->
  POST request =
    ([], Relay.NextResponse_json (Relay.error_json "AI service not configured") 500).
Proof.
  intros Hreq Hvalid Hkey.
  unfold Relay.POST. rewrite (POST_try_valid _ _ _ Hreq Hvalid), Hkey. reflexivity.
Qed.


Lemma POST_catch_upstream (e : JsError) (type : string) (code : Z) :
  In (type, code) upstreamStatus -> error_type e = Some type ->
  Relay.status (Relay.POST_catch e) = code.
Proof.
  intros Hin Htype. unfold Relay.POST_catch. rewrite Htype.
  unfold upstreamStatus in Hin. cbn [In] in Hin.
  repeat (destruct Hin as [Hin|Hin]; [injection Hin as <- <-; reflexivity|]).
  destruct Hin.
Qed.

Lemma POST_catch_unrecognized_type (e : JsError) (type : string) :
  error_type e = Some type -> type <> EmptyString ->
  ~ In type (map fst upstreamStatus) ->
  Relay.POST_catch e = Relay.NextResponse_json (Relay.error_json "AI service error occurred") 500.
Proof.
  intros Htype Hne Hnot. unfold Relay.POST_catch. rewrite Htype.
  destruct type as [|c type]; [contradiction|].
  cbn [map fst upstreamStatus In] in Hnot.
  repeat match goal with
         | |- context [String.eqb ?a ?b] =>
             destruct (String.eqb_spec a b) as [Heq|_];
             [exfalso; apply Hnot; rewrite Heq; tauto|]
         end.
  reflexivity.
Qed.

Lemma POST_catch_message (e : JsError) :
  exists msg : string,
    In msg errorMessages /\ Relay.body (Relay.POST_catch e) = Relay.error_json msg.
Proof.
  unfold Relay.POST_catch, errorMessages.
  destruct (error_type e) as [[|c type]|];
    repeat match goal with
           | |- context [if ?b then _ else _] => destruct b
           end;
    eexists; (split; [|reflexivity]); cbn [In]; tauto.
Qed.

Lemma POST_catch_sameFailure (e1 e2 : JsError) :
  sameFailure e1 e2 -> Relay.POST_catch e1 = Relay.POST_catch e2.
Proof.
  intros (Htype & Hinst & Hfetch & Htimeout & Hkey).
  unfold Relay.POST_catch. rewrite Htype, Hinst, Hfetch, Htimeout, Hkey. reflexivity.
Qed.

(** The mapping of the [catch] block for a failure raised by the call to
    the model, by the type tags and the words it tests: the upstream
    type tags for invalid request, authentication, permission, rate
    limit, transient failure and overload to 400, 401, 403, 429, 502
    and 503; without a type tag, an [Error] whose message names [fetch]
    to 503 and otherwise one whose message names [timeout] to 408; any
    other type tag and any other thrown value to 500. The body is
    [{ error: m }] for one of the fixed messages, and is the same for
    any two failures of the same kind: no text of the exception reaches
    it. *)
Lemma POST_failure_mapping (request : Relay.NextRequest) (call : Relay.ModelCall)
    (e : JsError) :
  fst (POST request) = [call] -> create call = Throw e ->
  let response := snd (POST request) in
  (forall (type : string) (code : Z),
      In (type, code) upstreamStatus -> error_type e = Some type ->
      Relay.status response = code) /\
  (Js.truthy (error_type e) = false -> instanceof_Error e = true ->
   Js.includes "fetch" (message e) = true -> Relay.status response = 503) /\
  (Js.truthy (error_type e) = false -> instanceof_Error e = true ->
   Js.includes "fetch" (message e) = false ->
   Js.includes "timeout" (message e) = true -> Relay.status response = 408) /\
  (Js.truthy (error_type e) = true ->
   (forall type : string, error_type e = Some type -> ~ In type (map fst upstreamStatus)) ->
   Relay.status response = 500) /\
  (Js.truthy (error_type e) = false ->
   instanceof_Error e = false \/
   Js.includes "fetch" (message e) = false /\ Js.includes "timeout" (message e) = false ->
   Relay.status response = 500) /\
  (exists msg : string, In msg errorMessages /\ Relay.body response = Relay.error_json msg) /\
  (forall e' : JsError, sameFailure e e' -> Relay.POST_catch e' = response).
Proof.
  intros Hcall Hthrow response.
  destruct (POST_after_call _ _ Hcall) as (formData & image & _ & _ & _ & _ & Hresp).
  rewrite Hthrow in Hresp. subst response. rewrite Hresp. clear Hresp.
  repeat split.
  - intros type code. apply POST_catch_upstream.
  - intros Htype Hinst Hfetch. unfold Relay.POST_catch.
    destruct (error_type e) as [[|c type]|]; try discriminate;
      rewrite Hinst, Hfetch; reflexivity.
  - intros Htype Hinst Hfetch Htimeout. unfold Relay.POST_catch.
    destruct (error_type e) as [[|c type]|]; try discriminate;
      rewrite Hinst, Hfetch, Htimeout; reflexivity.
  - intros Htruthy Htagged.
    destruct (error_type e) as [[|c type]|] eqn:Htype; try discriminate.
    rewrite (POST_catch_unrecognized_type e (String c type) Htype);
      [reflexivity | discriminate | apply Htagged; reflexivity].
  - intros Hfalsy Huntagged. unfold Relay.POST_catch.
    destruct (error_type e) as [[|c type]|]; try discriminate;
      (destruct Huntagged as [Hinst|[Hfetch Htimeout]];
       [rewrite Hinst; reflexivity
       |rewrite Hfetch, Htimeout, !andb_false_r;
        destruct (instanceof_Error e && Js.includes "API key" (message e)); reflexivity]).
  - apply POST_catch_message.
  - intros e' Hsame. symmetry. apply POST_catch_sameFailure, Hsame.
Qed.

(** C4. The failures the SDK raises for a request that timed out and for
    a connection that failed carry no upstream type tag, and their
    messages, [Request timed out.] and [Connection error.], name neither
    [timeout] nor [fetch]: the [catch] block does not recognise them,
    and the relay answers 500 with [Internal server error occurred]
    where 408 and 503 are documented. *)
Theorem C4_timeout_unmapped (request : Relay.NextRequest) (call : Relay.ModelCall) :
  fst (POST request) = [call] ->
  (create call = Throw Relay.APIConnectionTimeoutError ->
   snd (POST request) =
     Relay.NextResponse_json (Relay.error_json "Internal server error occurred") 500 /\
   Relay.status (snd (POST request)) <> 408) /\
  (create call = Throw Relay.APIConnectionError ->
   snd (POST request) =
     Relay.NextResponse_json (Relay.error_json "Internal server error occurred") 500 /\
   Relay.status (snd (POST request)) <> 503).
Proof.
  intros Hcall.
  destruct (POST_after_call _ _ Hcall) as (formData & image & _ & _ & _ & _ & ->).
  split; intros ->; (split; [vm_compute; reflexivity | vm_compute; discriminate]).
Qed.


Lemma valueStart_not_ws (c : ascii) :
  is_Some (valueStart c) -> Js.isWhiteSpace c = false.
Proof.
  intros [k Hk]. destruct (Js.isWhiteSpace c) eqn:Hws; [|reflexivity].
  exfalso. revert Hk Hws.
  destruct c as [[] [] [] [] [] [] [] []]; vm_compute; congruence.
Qed.

(** A text [JSON.parse] accepts is not blank. *)
Lemma parsed_not_blank (parse : string -> option Json) (s : string) (v : Json) :
  JSON_parse_value_start parse -> parse s = Some v ->
  exists (c : ascii) (r : string), Js.trim s = String c r /\ is_Some (valueStart c).
Proof.
  intros Hlaw Hparse. destruct (Hlaw s v Hparse) as (c & r & Hstart & Hc).
  unfold Js.trim. rewrite Hstart.
  destruct (JsFacts.trimEnd_head c r (valueStart_not_ws c Hc)) as [r' Hr'].
  exists c, r'. split; assumption.
Qed.

Lemma orNull_echoes (formData : FormData) (name : string) :
  echoes formData name (orNull (get name formData)).
Proof.
  repeat split.
  - intros ->. reflexivity.
  - intros ->. reflexivity.
  - intros s Hs ->. destruct s; [contradiction|reflexivity].
Qed.

(** C2 (amended). When the content the model returned is not blank and
    is not parseable as JSON, the relay answers 200 with the body
    [{ analysis: <the raw text>, raw: true }]; content that is [null],
    empty or white space only is answered 500 with
    [No analysis generated], whatever [JSON.parse] would make of it. *)
Theorem C2_raw_passthrough (request : Relay.NextRequest) (call : Relay.ModelCall)
    (content : option string) :
  fst (POST request) = [call] -> create call = Ok content ->
  (forall analysis : string,
      content = Some analysis ->
      Js.trim analysis <> EmptyString -> JSON_parse analysis = None ->
      snd (POST request) =
        Relay.NextResponse_json
          (JObj [("analysis", JStr analysis); ("raw", JBool true)]) 200) /\
  (content = None \/
   (exists analysis : string, content = Some analysis /\ Js.trim analysis = EmptyString) ->
   snd (POST request) =
     Relay.NextResponse_json (Relay.error_json "No analysis generated") 500).
Proof.
  intros Hcall Hreply.
  destruct (POST_after_call _ _ Hcall) as (formData & image & _ & _ & _ & _ & ->).
  rewrite Hreply. unfold Relay.respond. split.
  - intros analysis -> Hblank Hparse.
    destruct (Js.trim analysis) eqn:Htrim; [contradiction|].
    cbn [String.length Nat.eqb]. rewrite Hparse. reflexivity.
  - intros [->|(analysis & -> & Htrim)]; [reflexivity|].
    rewrite Htrim. reflexivity.
Qed.

(** C3 (amended). When the content the model returned parses as JSON,
    the relay answers 200 with the body
    [{ analysis, metadata: { timestamp, image_size, user_context } }]
    and no [raw] key; each of [complaint_type], [location] and
    [description] is the very string the caller supplied when that
    string is not empty, and [null] when the field is absent or empty. *)
Theorem C3_parsed_response (request : Relay.NextRequest) (call : Relay.ModelCall)
    (analysis : string) (parsedAnalysis : Json) :
  JSON_parse_value_start JSON_parse ->
  fst (POST request) = [call] -> create call = Ok (Some analysis) ->
  JSON_parse analysis = Some parsedAnalysis ->
  exists (formData : FormData) (image : File.t) (complaint_type location description : Json),
    imageField request formData image /\
    snd (POST request) =
      Relay.NextResponse_json
        (JObj [("analysis", parsedAnalysis);
               ("metadata",
                JObj [("timestamp", JStr now);
                      ("image_size", JNum (Z.of_N (File.size image)));
                      ("user_context",
                       JObj [("complaint_type", complaint_type);
                             ("location", location);
                             ("description", description)])])]) 200 /\
    echoes formData "complaintType" complaint_type /\
    echoes formData "location" location /\
    echoes formData "description" description /\
    prop "raw" (Relay.body (snd (POST request))) = None.
Proof.
  intros Hlaw Hcall Hreply Hparse.
  destruct (POST_after_call _ _ Hcall) as (formData & image & Hreq & _ & _ & _ & Hresp).
  rewrite Hreply in Hresp.
  assert (Hbody : Relay.respond now formData image (Some analysis) =
    Relay.NextResponse_json
      (JObj [("analysis", parsedAnalysis);
             ("metadata",
              JObj [("timestamp", JStr now);
                    ("image_size", JNum (Z.of_N (File.size image)));
                    ("user_context",
                     JObj [("complaint_type", orNull (get "complaintType" formData));
                           ("location", orNull (get "location" formData));
                           ("description", orNull (get "description" formData))])])]) 200).
  { unfold Relay.respond.
    destruct (parsed_not_blank _ _ _ Hlaw Hparse) as (c & r & -> & _).
    cbn [String.length Nat.eqb]. rewrite Hparse. reflexivity. }
  exists formData, image, (orNull (get "complaintType" formData)),
    (orNull (get "location" formData)), (orNull (get "description" formData)).
  rewrite Hresp, Hbody.
  repeat split; try apply orNull_echoes; try apply Hreq.
Qed.

Lemma heading_in_tail (heading : string) :
  In heading categoryHeadings -> Js.occursIn heading Relay.analysisPrompt_tail.
Proof.
  intros Hin. apply JsFacts.includes_occursIn.
  unfold categoryHeadings in Hin. cbn [In] in Hin.
  repeat (destruct Hin as [<-|Hin]; [vm_compute; reflexivity|]).
  destruct Hin.
Qed.

Lemma hint_occurs (label s : string) :
  s <> EmptyString -> Relay.hint label (Some (EntryString s)) = label +:+ s.
Proof. intros Hs. destruct s; [contradiction|reflexivity]. Qed.

Lemma occursIn_empty (s : string) : Js.occursIn EmptyString s.
Proof. exists EmptyString, s. reflexivity. Qed.

Lemma occursIn_prompt (x : string) (complaintType location description : option FormDataEntryValue) :
  Js.occursIn x (Relay.hint "
User complaint type: " complaintType) \/
  Js.occursIn x (Relay.hint "
Reported location: " location) \/
  Js.occursIn x (Relay.hint "
User description: " description) ->
  Js.occursIn x (Relay.analysisPrompt (Relay.contextualInfo complaintType location description)).
Proof.
  intros H. unfold Relay.analysisPrompt, Relay.contextualInfo.
  apply JsFacts.occursIn_app_r, JsFacts.occursIn_app_l.
  destruct H as [H|[H|H]].
  - apply JsFacts.occursIn_app_l, H.
  - apply JsFacts.occursIn_app_r, JsFacts.occursIn_app_l, H.
  - apply JsFacts.occursIn_app_r, JsFacts.occursIn_app_r, H.
Qed.

(** C5. The prompt sent to the model lists the seven categories, and
    every [complaintType], [location] and [description] supplied as text
    occurs in it verbatim, on the line that introduces it. *)
Theorem C5_prompt_contents (request : Relay.NextRequest) (call : Relay.ModelCall) :
  fst (POST request) = [call] ->
  let prompt := Relay.text (Relay.call_params call) in
  (forall heading : string, In heading categoryHeadings -> Js.occursIn heading prompt) /\
  (forall (formData : FormData) (name label s : string),
      request = Relay.WithBody (Ok formData) ->
      In (name, label) hintLabels -> get name formData = Some (EntryString s) ->
      Js.occursIn s prompt /\ (s <> EmptyString -> Js.occursIn (label +:+ s) prompt)).
Proof.
  intros Hcall prompt.
  destruct (POST_after_call _ _ Hcall) as (formData & image & [Hreq _] & _ & _ & Hc & _).
  subst prompt. rewrite Hc. cbn [Relay.modelCall Relay.call_params Relay.text].
  split.
  - intros heading Hin. unfold Relay.analysisPrompt.
    apply JsFacts.occursIn_app_r, JsFacts.occursIn_app_r, heading_in_tail, Hin.
  - intros formData' name label s Hreq' Hin Hget.
    rewrite Hreq in Hreq'. injection Hreq' as <-.
    assert (Hlabelled : s <> EmptyString ->
      Js.occursIn (label +:+ s)
        (Relay.analysisPrompt
           (Relay.contextualInfo (get "complaintType" formData) (get "location" formData)
              (get "description" formData)))).
    { intros Hs. apply occursIn_prompt.
      unfold hintLabels in Hin. cbn [In] in Hin.
      destruct Hin as [Hin|[Hin|[Hin|[]]]]; injection Hin as <- <-; rewrite Hget;
        rewrite (hint_occurs _ s Hs); auto using JsFacts.occursIn_refl. }
    split; [|exact Hlabelled].
    destruct s as [|c s]; [apply occursIn_empty|].
    eapply JsFacts.occursIn_trans; [|apply Hlabelled; discriminate].
    apply JsFacts.occursIn_app_r, JsFacts.occursIn_refl.
Qed.

(** The calls of the handler are made on the client it is given. *)
Lemma POST_call_client (request : Relay.NextRequest) (call : Relay.ModelCall) :
  In call (fst (POST request)) -> Relay.call_client call = openai.
Proof.
  intros Hin. unfold Relay.POST, Relay.POST_try in Hin.
  destruct request as [|[formData|e]]; cbn in Hin; try contradiction.
  destruct (get "image" formData) as [[s|image]|]; cbn in Hin; try contradiction.
  - destruct s; cbn in Hin; contradiction.
  - repeat match type of Hin with
           | context [if ?b then _ else _] => destruct b; cbn in Hin; try contradiction
           end.
    destruct (create _); cbn in Hin; destruct Hin as [<-|[]]; reflexivity.
Qed.

End RelayFacts.

(** C10 (amended). The credential of every call the relay makes is the
    string literal its module builds the client from at load time
    ([Relay.openai], route.ts:4-6), whatever the process environment
    holds; and for any two environments in which [OPENAI_API_KEY] is set
    to a value that is not empty, the relay makes the same calls and
    gives the same response: the variable is tested for truthiness and
    never used as the credential. *)
Theorem C10_credential_fixed {rt : Runtime} (now : string)
    (create : Relay.ModelCall -> Relay.ModelReply) (request : Relay.NextRequest) :
  (forall (env : gmap string string) (call : Relay.ModelCall),
      In call (fst (Relay.POST Relay.openai env now create request)) ->
      Relay.call_client call = Relay.openai /\
      Relay.apiKey (Relay.call_client call) = Relay.apiKey Relay.openai) /\
  (forall (env1 env2 : gmap string string) (v1 v2 : string),
      env1 !! Relay.OPENAI_API_KEY = Some v1 -> v1 <> EmptyString ->
      env2 !! Relay.OPENAI_API_KEY = Some v2 -> v2 <> EmptyString ->
      Relay.POST Relay.openai env1 now create request =
      Relay.POST Relay.openai env2 now create request).
Proof.
  split.
  - intros env call Hin.
    rewrite (POST_call_client Relay.openai env now create request call Hin).
    split; reflexivity.
  - intros env1 env2 v1 v2 H1 Hv1 H2 Hv2.
    assert (Hsame : Relay.POST_try Relay.openai env1 now create request =
                    Relay.POST_try Relay.openai env2 now create request).
    { unfold Relay.POST_try. rewrite H1, H2.
      destruct v1; [contradiction|]. destruct v2; [contradiction|]. reflexivity. }
    unfold Relay.POST. rewrite Hsame. reflexivity.
Qed.


(** ** The client *)

Section ClientFacts.

Context {rt : Runtime}.

Lemma valueStart_not_backtick (c : ascii) : is_Some (valueStart c) -> c <> Js.backtick.
Proof. intros [k Hk] ->. vm_compute in Hk. discriminate. Qed.

Lemma valueStart_not_j (c : ascii) : is_Some (valueStart c) -> c <> "j"%char.
Proof. intros [k Hk] ->. vm_compute in Hk. discriminate. Qed.

(** The first character of a text [JSON.parse] accepts is not a [j]. *)
Lemma parsed_first_char (s : string) :
  (exists (c : ascii) (r : string), Js.trimStart s = String c r /\ is_Some (valueStart c)) ->
  exists (d : ascii) (s' : string), s = String d s' /\ d <> "j"%char.
Proof.
  intros (c & r & Hstart & Hc). destruct s as [|d s']; [discriminate|].
  exists d, s'. split; [reflexivity|]. simpl in Hstart.
  destruct (Js.isWhiteSpace d) eqn:Hd.
  - intros ->. vm_compute in Hd. discriminate.
  - injection Hstart as -> _. apply valueStart_not_j, Hc.
Qed.

(** A text that starts like a JSON value carries no fence. *)
Lemma cleanAnalysis_plain (s : string) :
  (exists (c : ascii) (r : string), Js.trimStart s = String c r /\ is_Some (valueStart c)) ->
  Client.cleanAnalysis s = Js.trim s.
Proof.
  intros (c & r & Hstart & Hc). unfold Client.cleanAnalysis, Js.trim. rewrite Hstart.
  destruct (JsFacts.trimEnd_head c r (valueStart_not_ws c Hc)) as [r' ->].
  assert (Hb : Ascii.eqb "`" c = false).
  { apply Ascii.eqb_neq. intros <-. apply (valueStart_not_backtick _ Hc). reflexivity. }
  cbn [Js.startsWith]. rewrite Hb. reflexivity.
Qed.

Lemma fence_shape (p s : string) :
  String "`" p +:+ s +:+ "```" = String "`" (p +:+ s +:+ "``") +:+ "`".
Proof. rewrite !JsFacts.app_cons, !JsFacts.app_assoc. reflexivity. Qed.

Lemma trim_fenced (w1 w2 p s : string) :
  Js.allWhiteSpace w1 = true -> Js.allWhiteSpace w2 = true ->
  Js.trim (w1 +:+ (String "`" p +:+ s +:+ "```") +:+ w2) = String "`" p +:+ s +:+ "```".
Proof.
  intros H1 H2. rewrite fence_shape.
  apply JsFacts.trim_padded; try assumption; reflexivity.
Qed.

Lemma cleanAnalysis_fenced_json (w1 w2 s : string) :
  Js.allWhiteSpace w1 = true -> Js.allWhiteSpace w2 = true ->
  Client.cleanAnalysis (w1 +:+ ("```json" +:+ s +:+ "```") +:+ w2) = Js.trim s.
Proof.
  intros H1 H2. unfold Client.cleanAnalysis.
  rewrite (trim_fenced w1 w2 "``json" s H1 H2).
  change (String "`" "``json") with "```json".
  rewrite JsFacts.startsWith_app, JsFacts.replaceStart_app, JsFacts.replaceEnd_app.
  reflexivity.
Qed.

Lemma cleanAnalysis_fenced (w1 w2 s : string) :
  (exists (d : ascii) (s' : string), s = String d s' /\ d <> "j"%char) ->
  Js.allWhiteSpace w1 = true -> Js.allWhiteSpace w2 = true ->
  Client.cleanAnalysis (w1 +:+ ("```" +:+ s +:+ "```") +:+ w2) = Js.trim s.
Proof.
  intros (d & s' & -> & Hd) H1 H2. unfold Client.cleanAnalysis.
  rewrite (trim_fenced w1 w2 "``" (String d s') H1 H2).
  change (String "`" "``") with "```".
  assert (Hjson : Js.startsWith "```json" ("```" +:+ String d s' +:+ "```") = false).
  { change (Js.startsWith "json" (String d (s' +:+ "```")) = false).
    apply JsFacts.startsWith_head. congruence. }
  rewrite Hjson, JsFacts.startsWith_app, JsFacts.replaceStart_app, JsFacts.replaceEnd_app.
  reflexivity.
Qed.

(** C7. For a text [s] that [JSON.parse] accepts, the client's parsing
    of the fenced texts [```json s ```] and [``` s ```], with any white
    space around them, gives what it gives on [s] itself, namely what
    [JSON.parse] gives on the trimmed [s]: the parsed value [v] of [s],
    as [JSON.parse] ignores the white space around a value. And for any
    string whose content, once the fence is stripped, is not parseable,
    the client keeps the raw string as the analysis, stores no parsed
    result, and throws nothing. *)
Theorem C7_fence_stripping (s w1 w2 : string) (v : Json) :
  JSON_parse_value_start JSON_parse -> JSON_parse s = Some v ->
  Js.allWhiteSpace w1 = true -> Js.allWhiteSpace w2 = true ->
  let fenced_json := w1 +:+ ("```json" +:+ s +:+ "```") +:+ w2 in
  let fenced := w1 +:+ ("```" +:+ s +:+ "```") +:+ w2 in
  Client.parsedData (JStr fenced_json) = Client.parsedData (JStr s) /\
  Client.parsedData (JStr fenced) = Client.parsedData (JStr s) /\
  Client.parsedData (JStr s) =
    Ok (match JSON_parse (Js.trim s) with
        | Some parsed => parsed
        | None => JNull
        end) /\
  (JSON_parse (Js.trim s) = Some v ->
   Client.parsedData (JStr fenced_json) = Ok v /\
   Client.parsedData (JStr fenced) = Ok v /\
   Client.parsedData (JStr s) = Ok v) /\
  (forall (raw : string) (data : Json) (st : Client.State),
      JSON_parse (Client.cleanAnalysis raw) = None ->
      Client.handleAnalysis data (JStr raw) st =
        (Client.setUserContext (prop "user_context" data)
           (Client.setParsedAnalysis JNull (Client.setAnalysis (Some raw) st)), None)).
Proof.
  intros Hlaw Hparse H1 H2 fenced_json fenced. subst fenced_json fenced.
  pose proof (Hlaw s v Hparse) as Hstart.
  unfold Client.parsedData.
  rewrite (cleanAnalysis_fenced_json w1 w2 s H1 H2).
  rewrite (cleanAnalysis_fenced w1 w2 s (parsed_first_char s Hstart) H1 H2).
  rewrite (cleanAnalysis_plain s Hstart).
  do 2 (split; [reflexivity|]).
  split; [destruct (JSON_parse (Js.trim s)); reflexivity|].
  split; [intros ->; repeat split|].
  intros raw data st Hraw. unfold Client.handleAnalysis, Client.parsedData.
  rewrite Hraw. reflexivity.
Qed.

Variable fetch : FormData -> JsResult Client.Response.

(** C8 (amended). After [clearImage], and after [onDrop] of an image
    file, the analysis text and the error are [null], so the results
    panel shows nothing of the earlier result: it shows the placeholder,
    or the spinner while a request is in flight. The parsed result and
    the user context keep their values. *)
Theorem C8_result_hidden (st : Client.State) :
  (let st' := Client.clearImage st in
   Client.uploadedImage st' = None /\ Client.imagePreview st' = None /\
   Client.analysis st' = None /\ Client.error st' = None /\
   Client.parsedAnalysis st' = Client.parsedAnalysis st /\
   Client.userContext st' = Client.userContext st /\
   Client.resultsPanel st' =
     if Client.isAnalyzing st then Client.Analyzing else Client.Ready) /\
  (forall (file : File.t) (others : list File.t),
      Js.startsWith "image/" (File.type file) = true ->
      let st' := Client.onDrop (file :: others) st in
      Client.uploadedImage st' = Some file /\
      Client.analysis st' = None /\ Client.error st' = None /\
      Client.parsedAnalysis st' = Client.parsedAnalysis st /\
      Client.userContext st' = Client.userContext st /\
      Client.resultsPanel st' =
        if Client.isAnalyzing st then Client.Analyzing else Client.Ready).
Proof.
  split.
  - cbn. unfold Client.resultsPanel. cbn. destruct (Client.isAnalyzing st); repeat split.
  - intros file others Htype. unfold Client.onDrop. rewrite Htype.
    cbn. unfold Client.resultsPanel. cbn. destruct (Client.isAnalyzing st); repeat split.
Qed.

(** The client on a 200 response whose [analysis] is an object. *)
Lemma analyzeImage_object (st : Client.State) (image : File.t) (data : Json)
    (props : list (string * Json)) :
  Client.uploadedImage st = Some image ->
  (forall formData : FormData,
      fetch formData = Ok (deliver (Relay.NextResponse_json data 200))) ->
  data <> JNull -> prop "analysis" data = Some (JObj props) ->
  Client.analyzeImage fetch st =
    Client.setIsAnalyzing false
      (Client.setUserContext (prop "user_context" data)
         (Client.setParsedAnalysis (JObj props)
            (Client.setAnalysis (Some (JSON_stringify (JObj props)))
               (Client.setError None (Client.setIsAnalyzing true st))))).
Proof.
  intros Himage Hfetch Hnull Hanalysis.
  unfold Client.analyzeImage. rewrite Himage.
  unfold Client.analyzeImage_try. rewrite Hfetch.
  cbn [deliver Client.content_type Client.json Relay.NextResponse_json Relay.status
       Relay.body].
  replace (Js.truthy (Some "application/json") &&
           Js.includes "application/json" "application/json") with true
    by (vm_compute; reflexivity).
  cbn [negb].
  destruct data; try contradiction; try discriminate.
  cbn [prop] in Hanalysis.
  cbn [Client.ok Client.status]. cbn [Z.leb Z.compare Pos.compare Pos.compare_cont andb negb].
  cbn [prop]. rewrite Hanalysis. reflexivity.
Qed.

(** C9. The client stores [data?.user_context], the top-level key of the
    response body. For a response of the documented shape
    [{ analysis, metadata: { timestamp, image_size, user_context } }]
    with an object as [analysis], that key is absent whatever
    [metadata.user_context] holds: the stored user context is
    [undefined], [renderUserContext] returns [null] on it, and the
    structured report shows no Complaint Details panel. *)
Theorem C9_user_context_undefined (st : Client.State) (image : File.t)
    (props : list (string * Json)) (timestamp image_size user_context : Json) :
  let metadata :=
    JObj [("timestamp", timestamp); ("image_size", image_size);
          ("user_context", user_context)] in
  let data := JObj [("analysis", JObj props); ("metadata", metadata)] in
  Client.uploadedImage st = Some image ->
  (forall formData : FormData,
      fetch formData = Ok (deliver (Relay.NextResponse_json data 200))) ->
  let st' := Client.analyzeImage fetch st in
  prop "user_context" metadata = Some user_context /\
  prop "user_context" data = None /\
  Client.userContext st' = prop "user_context" data /\
  Client.userContext st' = None /\
  Client.renderUserContext (Client.userContext st') = None /\
  (forall (parsed : Json) (complaintDetails : option (list (string * Json))),
      Client.resultsPanel st' = Client.Structured parsed complaintDetails ->
      parsed = JObj props /\ complaintDetails = None).
Proof.
  intros metadata data Himage Hfetch st'.
  assert (Hst : st' =
    Client.setIsAnalyzing false
      (Client.setUserContext None
         (Client.setParsedAnalysis (JObj props)
            (Client.setAnalysis (Some (JSON_stringify (JObj props)))
               (Client.setError None (Client.setIsAnalyzing true st)))))).
  { subst st'. apply (analyzeImage_object st image data props Himage Hfetch);
      [discriminate|reflexivity]. }
  rewrite Hst. do 5 (split; [reflexivity|]).
  intros parsed complaintDetails. unfold Client.resultsPanel. cbn.
  destruct (JSON_stringify (JObj props)); cbn; [discriminate|].
  intros Hpanel. injection Hpanel as <- <-. split; reflexivity.
Qed.

End ClientFacts.

(** ** The two ends together *)

Section SessionFacts.

Context {rt : Runtime}.

(** What the relay answers is an error body, the parsed report with its
    metadata, or the raw text. *)
Lemma POST_body (openai : Relay.OpenAI) (env : gmap string string) (now : string)
    (create : Relay.ModelCall -> Relay.ModelReply) (request : Relay.NextRequest) :
  let response := snd (Relay.POST openai env now create request) in
  (exists msg : string, Relay.body response = Relay.error_json msg) \/
  Relay.status response = 200 /\
  ((exists parsedAnalysis metadata : Json,
       Relay.body response = JObj [("analysis", parsedAnalysis); ("metadata", metadata)]) \/
   (exists analysis : string,
       Relay.body response = JObj [("analysis", JStr analysis); ("raw", JBool true)])).
Proof.
  intros response. subst response. rewrite POST_snd.
  destruct (snd (Relay.POST_try openai env now create request)) as [response|e] eqn:Htry.
  - unfold Relay.POST_try in Htry.
    destruct request as [|[formData|e]]; cbn in Htry;
      [injection Htry as <-; left; eexists; reflexivity | | discriminate].
    destruct (get "image" formData) as [[[|c s]|image]|]; cbn in Htry;
      try discriminate; try (injection Htry as <-; left; eexists; reflexivity).
    repeat match type of Htry with
           | context [if ?b then _ else _] =>
               destruct b; cbn in Htry;
               try (injection Htry as <-; left; eexists; reflexivity)
           end.
    destruct (create _) as [analysis|e]; cbn in Htry; [|discriminate].
    injection Htry as <-. unfold Relay.respond.
    destruct analysis as [analysis|]; [|left; eexists; reflexivity].
    destruct (String.length (Js.trim analysis) =? 0)%nat; [left; eexists; reflexivity|].
    destruct (JSON_parse analysis) as [parsedAnalysis|].
    + right. split; [reflexivity|]. left. eexists _, _. reflexivity.
    + right. split; [reflexivity|]. right. eexists. reflexivity.
  - left. destruct (POST_catch_message e) as (msg & _ & Hmsg). eauto.
Qed.

(** No body of the relay has a [user_context] key at the top level. *)
Lemma POST_no_user_context (openai : Relay.OpenAI) (env : gmap string string) (now : string)
    (create : Relay.ModelCall -> Relay.ModelReply) (request : Relay.NextRequest) :
  prop "user_context" (Relay.body (snd (Relay.POST openai env now create request))) = None.
Proof.
  destruct (POST_body openai env now create request)
    as [[msg ->]|[_ [(parsedAnalysis & metadata & ->)|[analysis ->]]]]; reflexivity.
Qed.

(** An analysis of a response without that key leaves the stored user
    context as it was, or [undefined]. *)
Lemma analyzeImage_userContext (fetch : FormData -> JsResult Client.Response)
    (st : Client.State) :
  (forall (formData : FormData) (response : Client.Response) (data : Json),
      fetch formData = Ok response -> Client.json response = Ok data ->
      prop "user_context" data = None) ->
  Client.userContext (Client.analyzeImage fetch st) = Client.userContext st \/
  Client.userContext (Client.analyzeImage fetch st) = None.
Proof.
  intros Hfetch. unfold Client.analyzeImage.
  destruct (Client.uploadedImage st) as [image|]; [|left; reflexivity].
  unfold Client.analyzeImage_try.
  match goal with |- context [fetch ?fd] => destruct (fetch fd) as [response|e] eqn:Hresp end;
    [|left; reflexivity].
  destruct (negb _); [destruct (Client.text response); left; reflexivity|].
  destruct (Client.json response) as [data|e] eqn:Hdata; [|left; reflexivity].
  specialize (Hfetch _ _ _ Hresp Hdata).
  destruct data; try (left; reflexivity);
    (destruct (negb (Client.ok response)); [left; reflexivity|]);
    try (left; reflexivity).
  cbn [prop] in *.
  destruct (assoc "analysis" props) as [analysisData|]; [|left; reflexivity].
  destruct (negb (truthyJson (Some analysisData))); [left; reflexivity|].
  unfold Client.handleAnalysis.
  destruct (Client.parsedData analysisData); [|left; reflexivity].
  right. cbn. exact Hfetch.
Qed.

Lemma fetch_relay_user_context (openai : Relay.OpenAI) (env : gmap string string)
    (now : string) (create : Relay.ModelCall -> Relay.ModelReply)
    (formData : FormData) (response : Client.Response) (data : Json) :
  fetch_relay openai env now create formData = Ok response ->
  Client.json response = Ok data -> prop "user_context" data = None.
Proof.
  unfold fetch_relay. intros Hresp Hdata. injection Hresp as <-.
  cbn in Hdata. injection Hdata as <-. apply POST_no_user_context.
Qed.

(** In every state of a session served by the relay the stored user
    context is [null] or [undefined], and the Complaint Details panel is
    not rendered. *)
Lemma session_userContext (st : Client.State) :
  reachable st ->
  (Client.userContext st = Some JNull \/ Client.userContext st = None) /\
  Client.renderUserContext (Client.userContext st) = None.
Proof.
  intros Hreach.
  assert (Hctx : Client.userContext st = Some JNull \/ Client.userContext st = None).
  { induction Hreach as [|st st' _ IH Hstep]; [left; reflexivity|].
    destruct Hstep as [st|st v|st files|st result|st|st|st openai env now create
                      |st openai env now create].
    - exact IH.
    - exact IH.
    - unfold Client.onDrop. destruct files as [|file files]; [exact IH|].
      destruct (Js.startsWith "image/" (File.type file)); exact IH.
    - exact IH.
    - exact IH.
    - exact IH.
    - destruct (analyzeImage_userContext (fetch_relay openai env now create) st
                  (fetch_relay_user_context openai env now create)) as [->| ->];
        [exact IH | right; reflexivity].
    - unfold Client.retry. destruct (Client.uploadedImage st); [|exact IH].
      destruct (analyzeImage_userContext (fetch_relay openai env now create) st
                  (fetch_relay_user_context openai env now create)) as [->| ->];
        [exact IH | right; reflexivity]. }
  split; [exact Hctx|]. destruct Hctx as [-> | ->]; reflexivity.
Qed.

End SessionFacts.

(** ** The reference runtime *)

Lemma json_white_space (c : ascii) :
  Reference.isJsonWhiteSpace c = true -> Js.isWhiteSpace c = true.
Proof. destruct c as [[] [] [] [] [] [] [] []]; vm_compute; congruence. Qed.

Lemma skipWhiteSpace_trimStart (s : string) (c : ascii) (r : string) :
  Reference.skipWhiteSpace s = String c r -> is_Some (valueStart c) ->
  Js.trimStart s = String c r.
Proof.
  intros Hskip Hc. induction s as [|d s IH]; [discriminate|].
  simpl in Hskip. simpl.
  destruct (Reference.isJsonWhiteSpace d) eqn:Hd.
  - rewrite (json_white_space d Hd). apply IH, Hskip.
  - injection Hskip as -> ->. rewrite (valueStart_not_ws c Hc). reflexivity.
Qed.

(** The reference reader accepts only texts that start, after white
    space, like a JSON value. *)
Lemma Reference_parse_value_start : JSON_parse_value_start Reference.parse.
Proof.
  intros s v Hparse. unfold Reference.parse in Hparse.
  destruct (Reference.skipWhiteSpace s) as [|c r] eqn:Hskip; [discriminate|].
  assert (Hc : is_Some (valueStart c)).
  { cbn [Reference.value] in Hparse.
    destruct (valueStart c); [eauto|discriminate]. }
  exists c, r. split; [|exact Hc].
  apply skipWhiteSpace_trimStart; assumption.
Qed.

(** ** The statements on sample inputs *)

Lemma sample_imageField : imageField Sample.request Sample.formData Sample.image.
Proof. split; reflexivity. Qed.

Lemma sample_validImage : validImage Sample.image.
Proof. split; [reflexivity|]. vm_compute. discriminate. Qed.

Lemma sample_calls (create : Relay.ModelCall -> Relay.ModelReply) :
  fst (Relay.POST (rt := Reference.runtime) Sample.openai Sample.env Sample.now create
         Sample.request) = [Sample.call].
Proof.
  rewrite POST_fst, (POST_try_valid _ _ _ _ _ _ _ sample_imageField sample_validImage).
  change (Js.truthy (Sample.env !! Relay.OPENAI_API_KEY)) with true. cbn [negb].
  destruct (create _); reflexivity.
Qed.

Lemma C1_witness :
  (imageField (Relay.WithBody (Ok Sample.formData_pdf)) Sample.formData_pdf Sample.document /\
   Js.startsWith "image/" (File.type Sample.document) = false) /\
  unrecognised (RuntimeError "Failed to parse body as FormData.") /\
  imageText (Relay.WithBody (Ok Sample.formData_text)) Sample.formData_text "photo.jpg" /\
  (imageField Sample.request Sample.formData Sample.image /\ validImage Sample.image) /\
  Relay.status
    (snd (Relay.POST (rt := Reference.runtime) Sample.openai Sample.env Sample.now
            (Sample.answers Sample.report) (Relay.WithBody (Ok Sample.formData_pdf)))) = 400 /\
  fst (Relay.POST (rt := Reference.runtime) Sample.openai Sample.env Sample.now
         (Sample.answers Sample.report) (Relay.WithBody (Ok Sample.formData_pdf))) = [] /\
  Relay.POST (rt := Reference.runtime) Sample.openai Sample.env Sample.now
    (Sample.answers Sample.report) Sample.unreadable =
    ([], Relay.NextResponse_json (Relay.error_json "Internal server error occurred") 500) /\
  Relay.POST (rt := Reference.runtime) Sample.openai Sample.env Sample.now
    (Sample.answers Sample.report) (Relay.WithBody (Ok Sample.formData_text)) =
    ([], Relay.NextResponse_json (Relay.error_json "Internal server error occurred") 500) /\
  fst (Relay.POST (rt := Reference.runtime) Sample.openai Sample.env Sample.now
         (Sample.answers Sample.report) Sample.request) = [Sample.call].
Proof.
  assert (Hpdf : imageField (Relay.WithBody (Ok Sample.formData_pdf)) Sample.formData_pdf
                   Sample.document) by (split; reflexivity).
  assert (Herror : unrecognised (RuntimeError "Failed to parse body as FormData."))
    by (split; [reflexivity | intros _; repeat split]).
  assert (Htext : imageText (Relay.WithBody (Ok Sample.formData_text)) Sample.formData_text
                    "photo.jpg") by (split; reflexivity).
  assert (Himage : imageField Sample.request Sample.formData Sample.image)
    by (split; reflexivity).
  assert (Hvalid : validImage Sample.image)
    by (split; [reflexivity | vm_compute; discriminate]).
  split; [split; [exact Hpdf | reflexivity]|].
  split; [exact Herror|]. split; [exact Htext|]. split; [split; assumption|].
  destruct (C1_input_validation (rt := Reference.runtime) Sample.openai Sample.env Sample.now
              (Sample.answers Sample.report) (Relay.WithBody (Ok Sample.formData_pdf)))
    as [Hreject _].
  destruct Hreject as [Hstatus Hcalls].
  { right. right. exists Sample.formData_pdf, Sample.document. split; [exact Hpdf|].
    left. reflexivity. }
  split; [exact Hstatus|]. split; [exact Hcalls|].
  split.
  { exact (proj2 (proj1 (proj2 (C1_input_validation (rt := Reference.runtime) Sample.openai
                                  Sample.env Sample.now (Sample.answers Sample.report)
                                  Sample.unreadable))
                        (RuntimeError "Failed to parse body as FormData.") eq_refl)
                 Herror). }
  split.
  { exact (proj1 (proj2 (proj2 (C1_input_validation (rt := Reference.runtime) Sample.openai
                                  Sample.env Sample.now (Sample.answers Sample.report)
                                  (Relay.WithBody (Ok Sample.formData_text)))))
                 Sample.formData_text "p"%char "hoto.jpg" Htext). }
  exact (proj2 (proj2 (proj2 (C1_input_validation (rt := Reference.runtime) Sample.openai
                                Sample.env Sample.now (Sample.answers Sample.report)
                                Sample.request)))
               Sample.formData Sample.image Himage Hvalid).
Defined.

(** C1 as stated fails on a request whose body is not a form, and on a
    form whose image is a text: neither carries an image field, and the
    relay answers both with 500, not 400. *)
Lemma C1_counterexample :
  noImageField Sample.unreadable /\
  Relay.POST (rt := Reference.runtime) Sample.openai Sample.env Sample.now
    (Sample.answers Sample.report) Sample.unreadable =
    ([], Relay.NextResponse_json (Relay.error_json "Internal server error occurred") 500) /\
  noImageField (Relay.WithBody (Ok Sample.formData_text)) /\
  Relay.POST (rt := Reference.runtime) Sample.openai Sample.env Sample.now
    (Sample.answers Sample.report) (Relay.WithBody (Ok Sample.formData_text)) =
    ([], Relay.NextResponse_json (Relay.error_json "Internal server error occurred") 500) /\
  ~ (forall request : Relay.NextRequest,
        noImageField request ->
        Relay.status
          (snd (Relay.POST (rt := Reference.runtime) Sample.openai Sample.env Sample.now
                  (Sample.answers Sample.report) request)) = 400).
Proof.
  assert (Hnone : noImageField Sample.unreadable) by (right; left; eexists; reflexivity).
  assert (Htext : noImageField (Relay.WithBody (Ok Sample.formData_text))).
  { right. right. exists Sample.formData_text. split; [reflexivity|].
    right. eexists. reflexivity. }
  split; [exact Hnone|]. split; [vm_compute; reflexivity|].
  split; [exact Htext|]. split; [vm_compute; reflexivity|].
  intros Hclaim. specialize (Hclaim Sample.unreadable Hnone).
  vm_compute in Hclaim. discriminate Hclaim.
Qed.

Lemma C6_witness :
  imageField Sample.request Sample.formData Sample.image /\ validImage Sample.image /\
  (∅ : gmap string string) !! Relay.OPENAI_API_KEY = None /\
  Relay.POST (rt := Reference.runtime) Sample.openai ∅ Sample.now
    (Sample.answers Sample.report) Sample.request =
  ([], Relay.NextResponse_json (Relay.error_json "AI service not configured") 500).
Proof.
  assert (Himage : imageField Sample.request Sample.formData Sample.image)
    by (split; reflexivity).
  assert (Hvalid : validImage Sample.image)
    by (split; [reflexivity | vm_compute; discriminate]).
  split; [exact Himage|]. split; [exact Hvalid|]. split; [reflexivity|].
  apply (C6_missing_credential (rt := Reference.runtime) Sample.openai ∅ Sample.now
           (Sample.answers Sample.report) Sample.request Sample.formData Sample.image);
    [exact Himage | exact Hvalid | reflexivity].
Defined.

Lemma C2_witness :
  fst (Relay.POST (rt := Reference.runtime) Sample.openai Sample.env Sample.now
         (Sample.answers "not json") Sample.request) = [Sample.call] /\
  Sample.answers "not json" Sample.call = Ok (Some "not json") /\
  Js.trim "not json" <> EmptyString /\
  JSON_parse (Runtime := Reference.runtime) "not json" = None /\
  snd (Relay.POST (rt := Reference.runtime) Sample.openai Sample.env Sample.now
         (Sample.answers "not json") Sample.request) =
    Relay.NextResponse_json (JObj [("analysis", JStr "not json"); ("raw", JBool true)]) 200.
Proof.
  assert (Hcalls := sample_calls (Sample.answers "not json")).
  split; [exact Hcalls|]. split; [reflexivity|].
  split; [vm_compute; discriminate|]. split; [reflexivity|].
  apply (proj1 (C2_raw_passthrough (rt := Reference.runtime) Sample.openai Sample.env
                  Sample.now (Sample.answers "not json") Sample.request Sample.call
                  (Some "not json") Hcalls eq_refl) "not json");
    [reflexivity | vm_compute; discriminate | reflexivity].
Defined.

(** C2 as stated fails on content that is white space only: it is not
    empty and not parseable, and the relay answers 500. *)
Lemma C2_counterexample :
  " " <> EmptyString /\
  JSON_parse (Runtime := Reference.runtime) " " = None /\
  fst (Relay.POST (rt := Reference.runtime) Sample.openai Sample.env Sample.now
         (Sample.answers " ") Sample.request) = [Sample.call] /\
  snd (Relay.POST (rt := Reference.runtime) Sample.openai Sample.env Sample.now
         (Sample.answers " ") Sample.request) =
    Relay.NextResponse_json (Relay.error_json "No analysis generated") 500.
Proof.
  split; [discriminate|]. split; [reflexivity|].
  split; vm_compute; reflexivity.
Qed.

Lemma C3_witness :
  JSON_parse_value_start (JSON_parse (Runtime := Reference.runtime)) /\
  fst (Relay.POST (rt := Reference.runtime) Sample.openai Sample.env Sample.now
         (Sample.answers Sample.report) Sample.request) = [Sample.call] /\
  Sample.answers Sample.report Sample.call = Ok (Some Sample.report) /\
  JSON_parse (Runtime := Reference.runtime) Sample.report
    = Some (JObj [("issue_count", JNum 0)]) /\
  exists (formData : FormData) (image : File.t) (complaint_type location description : Json),
    imageField Sample.request formData image /\
    snd (Relay.POST (rt := Reference.runtime) Sample.openai Sample.env Sample.now
           (Sample.answers Sample.report) Sample.request) =
      Relay.NextResponse_json
        (JObj [("analysis", JObj [("issue_count", JNum 0)]);
               ("metadata",
                JObj [("timestamp", JStr Sample.now);
                      ("image_size", JNum (Z.of_N (File.size image)));
                      ("user_context",
                       JObj [("complaint_type", complaint_type);
                             ("location", location);
                             ("description", description)])])]) 200 /\
    echoes formData "complaintType" complaint_type /\
    echoes formData "location" location /\
    echoes formData "description" description /\
    prop "raw"
      (Relay.body
         (snd (Relay.POST (rt := Reference.runtime) Sample.openai Sample.env Sample.now
                 (Sample.answers Sample.report) Sample.request))) = None.
Proof.
  assert (Hcalls := sample_calls (Sample.answers Sample.report)).
  split; [exact Reference_parse_value_start|]. split; [exact Hcalls|].
  split; [reflexivity|]. split; [reflexivity|].
  apply (C3_parsed_response (rt := Reference.runtime) Sample.openai Sample.env Sample.now
           (Sample.answers Sample.report) Sample.request Sample.call Sample.report
           (JObj [("issue_count", JNum 0)]));
    [exact Reference_parse_value_start | exact Hcalls | reflexivity | reflexivity].
Defined.

(** C3 as stated fails on a field supplied as the empty string: the
    response carries [null], not the string supplied. *)
Lemma C3_counterexample :
  get "description" Sample.formData_empty = Some (EntryString EmptyString) /\
  JSON_parse (Runtime := Reference.runtime) "{}" = Some (JObj []) /\
  Relay.status
    (snd (Relay.POST (rt := Reference.runtime) Sample.openai Sample.env Sample.now
            (Sample.answers "{}") (Relay.WithBody (Ok Sample.formData_empty)))) = 200 /\
  path ["metadata"; "user_context"; "description"]
    (Relay.body
       (snd (Relay.POST (rt := Reference.runtime) Sample.openai Sample.env Sample.now
               (Sample.answers "{}") (Relay.WithBody (Ok Sample.formData_empty)))))
    = Some JNull /\
  Some JNull <> Some (JStr EmptyString).
Proof.
  split; [reflexivity|]. split; [reflexivity|].
  split; [vm_compute; reflexivity|]. split; [vm_compute; reflexivity|]. discriminate.
Qed.

Lemma C4_witness :
  fst (Relay.POST (rt := Reference.runtime) Sample.openai Sample.env Sample.now
         (Sample.fails Relay.APIConnectionTimeoutError) Sample.request) = [Sample.call] /\
  Sample.fails Relay.APIConnectionTimeoutError Sample.call
    = Throw Relay.APIConnectionTimeoutError /\
  snd (Relay.POST (rt := Reference.runtime) Sample.openai Sample.env Sample.now
         (Sample.fails Relay.APIConnectionTimeoutError) Sample.request) =
    Relay.NextResponse_json (Relay.error_json "Internal server error occurred") 500.
Proof.
  assert (Hcalls := sample_calls (Sample.fails Relay.APIConnectionTimeoutError)).
  split; [exact Hcalls|]. split; [reflexivity|].
  exact (proj1 (proj1 (C4_timeout_unmapped (rt := Reference.runtime) Sample.openai Sample.env
                         Sample.now (Sample.fails Relay.APIConnectionTimeoutError)
                         Sample.request Sample.call Hcalls)
                      eq_refl)).
Defined.

Lemma C5_witness :
  fst (Relay.POST (rt := Reference.runtime) Sample.openai Sample.env Sample.now
         (Sample.answers Sample.report) Sample.request) = [Sample.call] /\
  In "7. **SAFETY CONCERNS**" categoryHeadings /\
  In ("description", "
User description: ") hintLabels /\
  get "description" Sample.formData = Some (EntryString "John Doe: pothole near gate") /\
  Js.occursIn "7. **SAFETY CONCERNS**" (Relay.text (Relay.call_params Sample.call)) /\
  Js.occursIn "
User description: John Doe: pothole near gate" (Relay.text (Relay.call_params Sample.call)).
Proof.
  assert (Hcalls := sample_calls (Sample.answers Sample.report)).
  assert (Hheading : In "7. **SAFETY CONCERNS**" categoryHeadings) by (cbn; tauto).
  assert (Hlabel : In ("description", "
User description: ") hintLabels) by (cbn; tauto).
  destruct (C5_prompt_contents (rt := Reference.runtime) Sample.openai Sample.env Sample.now
              (Sample.answers Sample.report) Sample.request Sample.call Hcalls)
    as [Hheadings Hhints].
  split; [exact Hcalls|]. split; [exact Hheading|]. split; [exact Hlabel|].
  split; [reflexivity|]. split; [exact (Hheadings _ Hheading)|].
  apply (Hhints Sample.formData "description" _ "John Doe: pothole near gate" eq_refl
           Hlabel eq_refl).
  discriminate.
Defined.

Lemma C7_witness :
  JSON_parse_value_start (JSON_parse (Runtime := Reference.runtime)) /\
  JSON_parse (Runtime := Reference.runtime) Sample.report
    = Some (JObj [("issue_count", JNum 0)]) /\
  JSON_parse (Runtime := Reference.runtime) (Js.trim Sample.report)
    = Some (JObj [("issue_count", JNum 0)]) /\
  Js.allWhiteSpace " " = true /\ Js.allWhiteSpace Reference.newline = true /\
  Client.parsedData (rt := Reference.runtime)
    (JStr (" " +:+ ("```json" +:+ Sample.report +:+ "```") +:+ Reference.newline))
    = Ok (JObj [("issue_count", JNum 0)]) /\
  Client.parsedData (rt := Reference.runtime)
    (JStr (" " +:+ ("```" +:+ Sample.report +:+ "```") +:+ Reference.newline))
    = Ok (JObj [("issue_count", JNum 0)]) /\
  Client.parsedData (rt := Reference.runtime) (JStr Sample.report)
    = Ok (JObj [("issue_count", JNum 0)]).
Proof.
  split; [exact Reference_parse_value_start|]. split; [reflexivity|].
  split; [reflexivity|]. split; [reflexivity|]. split; [reflexivity|].
  destruct (C7_fence_stripping (rt := Reference.runtime) Sample.report " " Reference.newline
              (JObj [("issue_count", JNum 0)]) Reference_parse_value_start eq_refl
              eq_refl eq_refl) as (_ & _ & _ & Hvalue & _).
  exact (Hvalue eq_refl).
Defined.

Lemma C8_witness :
  Js.startsWith "image/" (File.type Sample.image) = true /\
  Client.analysis (Client.onDrop [Sample.image] Sample.resolved) = None /\
  Client.resultsPanel (rt := Reference.runtime) (Client.onDrop [Sample.image] Sample.resolved)
    = Client.Ready /\
  Client.resultsPanel (rt := Reference.runtime) (Client.clearImage Sample.resolved)
    = Client.Ready.
Proof.
  destruct (C8_result_hidden (rt := Reference.runtime) Sample.resolved) as [Hclear Hdrop].
  destruct (Hdrop Sample.image [] eq_refl) as (_ & Hanalysis & _ & _ & _ & Hpanel).
  destruct Hclear as (_ & _ & _ & _ & _ & _ & Hpanel').
  split; [reflexivity|]. split; [exact Hanalysis|].
  split; [exact Hpanel | exact Hpanel'].
Defined.

(** C8 as stated fails: the parsed result outlives [clearImage] and
    [onDrop], and so does a stored user context. *)
Lemma C8_counterexample :
  Client.parsedAnalysis Sample.resolved = JObj [("issue_count", JNum 0)] /\
  Client.parsedAnalysis (Client.clearImage Sample.resolved) = JObj [("issue_count", JNum 0)] /\
  Client.parsedAnalysis (Client.onDrop [Sample.image] Sample.resolved)
    = JObj [("issue_count", JNum 0)] /\
  Client.userContext (Client.clearImage Sample.echoed)
    = Some (JObj [("description", JStr "John Doe: pothole near gate")]) /\
  Client.userContext (Client.onDrop [Sample.image] Sample.echoed)
    = Some (JObj [("description", JStr "John Doe: pothole near gate")]).
Proof. repeat split; vm_compute; reflexivity. Qed.

Lemma C9_witness :
  Client.uploadedImage Sample.staged = Some Sample.image /\
  Client.userContext
    (Client.analyzeImage (rt := Reference.runtime)
       (fun _ =>
          Ok (deliver
                (Relay.NextResponse_json
                   (JObj [("analysis", JObj [("issue_count", JNum 0)]);
                          ("metadata",
                           JObj [("timestamp", JStr Sample.now);
                                 ("image_size", JNum 3);
                                 ("user_context",
                                  JObj [("complaint_type", JNull);
                                        ("location", JNull);
                                        ("description",
                                         JStr "John Doe: pothole near gate")])])])
                   200)))
       Sample.staged) = None.
Proof.
  split; [reflexivity|].
  apply (C9_user_context_undefined (rt := Reference.runtime) _ Sample.staged Sample.image
           [("issue_count", JNum 0)] (JStr Sample.now) (JNum 3)
           (JObj [("complaint_type", JNull); ("location", JNull);
                  ("description", JStr "John Doe: pothole near gate")])
           eq_refl (fun _ => eq_refl)).
Defined.

Lemma C10_witness :
  Sample.env !! Relay.OPENAI_API_KEY = Some "sk-from-env" /\
  Sample.env_other !! Relay.OPENAI_API_KEY = Some "sk-other" /\
  Relay.POST (rt := Reference.runtime) Relay.openai Sample.env Sample.now
    (Sample.answers Sample.report) Sample.request =
  Relay.POST (rt := Reference.runtime) Relay.openai Sample.env_other Sample.now
    (Sample.answers Sample.report) Sample.request.
Proof.
  split; [reflexivity|]. split; [reflexivity|].
  apply (proj2 (C10_credential_fixed (rt := Reference.runtime) Sample.now
                  (Sample.answers Sample.report) Sample.request)
               Sample.env Sample.env_other "sk-from-env" "sk-other");
    [reflexivity | discriminate | reflexivity | discriminate].
Defined.

(** C10 as stated fails on a variable set to the empty string: with it
    the relay makes no call, with any other value it makes the call. *)
Lemma C10_counterexample :
  Sample.env_empty !! Relay.OPENAI_API_KEY = Some EmptyString /\
  Sample.env !! Relay.OPENAI_API_KEY = Some "sk-from-env" /\
  fst (Relay.POST (rt := Reference.runtime) Relay.openai Sample.env_empty Sample.now
         (Sample.answers Sample.report) Sample.request) = [] /\
  fst (Relay.POST (rt := Reference.runtime) Relay.openai Sample.env Sample.now
         (Sample.answers Sample.report) Sample.request)
    = [Relay.modelCall (rt := Reference.runtime) Relay.openai Sample.formData Sample.image].
Proof. repeat split; vm_compute; reflexivity. Qed.

(** ** Examples *)

Example trim_example : Js.trim "  a b
" = "a b".
Proof. reflexivity. Qed.

Example cleanAnalysis_example :
  Client.cleanAnalysis ("```json
" +:+ Sample.report +:+ "
```") = Sample.report.
Proof. reflexivity. Qed.

Example cleanAnalysis_unfenced : Client.cleanAnalysis " plain text " = "plain text".
Proof. reflexivity. Qed.

Example parse_report : Reference.parse Sample.report = Some (JObj [("issue_count", JNum 0)]).
Proof. reflexivity. Qed.

Example parse_blank : Reference.parse " " = None.
Proof. reflexivity. Qed.

Example base64_example : Reference.base64 [Byte.x4d; Byte.x61] = "TWE=".
Proof. reflexivity. Qed.

(** The scenario of a rate limit upstream: status 429. *)
Example rate_limit_scenario :
  snd (Relay.POST (rt := Reference.runtime) Sample.openai Sample.env Sample.now
         (Sample.fails Sample.rateLimited) Sample.request) =
  Relay.NextResponse_json
    (Relay.error_json "Rate limit exceeded. Please try again in a moment") 429.
Proof. vm_compute. reflexivity. Qed.

(** A file that is not an image: status 400, no call. *)
Example pdf_scenario :
  Relay.POST (rt := Reference.runtime) Sample.openai Sample.env Sample.now
    (Sample.answers Sample.report) (Relay.WithBody (Ok Sample.formData_pdf)) =
  ([], Relay.NextResponse_json (Relay.error_json "File must be an image") 400).
Proof. vm_compute. reflexivity. Qed.

(** The client shows the structured report of the sample analysis,
    without a Complaint Details panel. *)
Example resolved_panel :
  Client.resultsPanel (rt := Reference.runtime) Sample.resolved =
  Client.Structured (JObj [("issue_count", JNum 0)]) None.
Proof. vm_compute. reflexivity. Qed.

(** With a top-level [user_context] the panel is there. *)
Example echoed_panel :
  Client.resultsPanel (rt := Reference.runtime) Sample.echoed =
  Client.Structured (JObj [("issue_count", JNum 0)])
    (Some [("description", JStr "John Doe: pothole near gate")]).
Proof. vm_compute. reflexivity. Qed.

(** * Further properties *)

(** ** The relay, as a whole *)

Lemma relayMessages_plain (msg : string) :
  In msg relayMessages ->
  msg <> EmptyString /\
  Js.includes "Failed to fetch" msg = false /\
  Js.includes "invalid response format" msg = false.
Proof.
  intros Hin. unfold relayMessages, errorMessages in Hin. cbn [app In] in Hin.
  repeat (destruct Hin as [<-|Hin];
          [split; [discriminate|split; vm_compute; reflexivity]|]).
  destruct Hin.
Qed.

Lemma failureStatuses_not_ok (code : Z) :
  In code failureStatuses -> code <> 200 /\ (200 <=? code) && (code <=? 299) = false.
Proof.
  intros Hin. unfold failureStatuses in Hin. cbn [In] in Hin.
  repeat (destruct Hin as [<-|Hin]; [split; [discriminate|reflexivity]|]).
  destruct Hin.
Qed.

Ltac failure_case :=
  right; split; [cbn; tauto | eexists; split; [|reflexivity]; cbn; tauto].

Lemma POST_catch_cases (e : JsError) :
  In (Relay.status (Relay.POST_catch e)) failureStatuses /\
  exists msg : string,
    In msg relayMessages /\ Relay.body (Relay.POST_catch e) = Relay.error_json msg.
Proof.
  unfold Relay.POST_catch.
  destruct (error_type e) as [[|c type]|];
    repeat match goal with
           | |- context [if ?b then _ else _] => destruct b
           end;
    (split; [cbn; tauto | eexists; split; [|reflexivity]; cbn; tauto]).
Qed.

Section RelayWhole.

Context {rt : Runtime}.
Variable openai : Relay.OpenAI.
Variable env : gmap string string.
Variable now : string.
Variable create : Relay.ModelCall -> Relay.ModelReply.

Local Abbreviation POST := (Relay.POST openai env now create).
Local Abbreviation POST_try := (Relay.POST_try openai env now create).

(** A response is the report or the raw text under status 200, or a
    failure status with one of the relay's messages. *)
Lemma POST_response_cases (request : Relay.NextRequest) :
  (Relay.status (snd (POST request)) = 200 /\
   is_Some (prop "analysis" (Relay.body (snd (POST request)))) /\
   prop "error" (Relay.body (snd (POST request))) = None) \/
  (In (Relay.status (snd (POST request))) failureStatuses /\
   exists msg : string,
     In msg relayMessages /\ Relay.body (snd (POST request)) = Relay.error_json msg).
Proof.
  rewrite POST_snd.
  destruct (snd (POST_try request)) as [response|e] eqn:Htry;
    [|right; apply POST_catch_cases].
  unfold Relay.POST_try in Htry.
  destruct request as [|[formData|e]]; cbn in Htry;
    [injection Htry as <-; failure_case | | discriminate].
  destruct (get "image" formData) as [[[|c s]|image]|]; cbn in Htry;
    try discriminate; try (injection Htry as <-; failure_case).
  repeat match type of Htry with
         | context [if ?b then _ else _] =>
             destruct b; cbn in Htry; try (injection Htry as <-; failure_case)
         end.
  destruct (create _) as [analysis|e]; cbn in Htry; [|discriminate].
  injection Htry as <-. unfold Relay.respond.
  destruct analysis as [analysis|]; [|failure_case].
  destruct (String.length (Js.trim analysis) =? 0)%nat; [failure_case|].
  destruct (JSON_parse analysis) as [parsedAnalysis|];
    left; (split; [reflexivity|]); (split; [eexists; reflexivity|reflexivity]).
Qed.

(** X1. Whatever the request, the environment and the model do, the
    relay answers with status 200 or one of 400, 401, 403, 408, 429,
    500, 502, 503; the body has an [analysis] key exactly under status
    200, and is [{ error: m }] for one of the relay's fixed messages
    exactly under the other statuses. *)
Theorem POST_outcome (request : Relay.NextRequest) :
  let response := snd (POST request) in
  In (Relay.status response) (200 :: failureStatuses) /\
  (Relay.status response = 200 <-> is_Some (prop "analysis" (Relay.body response))) /\
  (Relay.status response <> 200 <->
   exists msg : string, In msg relayMessages /\ Relay.body response = Relay.error_json msg).
Proof.
  intros response. subst response.
  destruct (POST_response_cases request)
    as [(Hstatus & Hanalysis & Herror)|(Hstatus & msg & Hmsg & Hbody)].
  - split; [left; congruence|]. split; [tauto|]. split; [congruence|].
    intros (msg & _ & Hbody). rewrite Hbody in Herror. discriminate.
  - destruct (failureStatuses_not_ok _ Hstatus) as [Hne _].
    split; [right; exact Hstatus|]. split.
    + split; [congruence|]. rewrite Hbody. intros [v Hv]. discriminate.
    + split; [eauto|]. intros _. exact Hne.
Qed.

Lemma data_url (type base64 : string) :
  Js.startsWith "image/" type = true ->
  Js.startsWith "data:image/" ("data:" +:+ type +:+ ";base64," +:+ base64) = true.
Proof.
  intros Htype. destruct (JsFacts.startsWith_occurs _ _ Htype) as [r ->].
  rewrite JsFacts.app_assoc, <- (JsFacts.app_assoc "data:" "image/").
  apply JsFacts.startsWith_app.
Qed.

(** X2. The relay calls [chat.completions.create] exactly when the form
    carries a valid image file and the credential variable is truthy,
    and the image then travels as a [data:image/] URL. *)
Theorem POST_calls (request : Relay.NextRequest) :
  (fst (POST request) <> [] <->
   exists (formData : FormData) (image : File.t),
     imageField request formData image /\ validImage image /\
     Js.truthy (env !! Relay.OPENAI_API_KEY) = true) /\
  (forall call : Relay.ModelCall,
      In call (fst (POST request)) ->
      Js.startsWith "data:image/" (Relay.image_url (Relay.call_params call)) = true).
Proof.
  rewrite POST_fst.
  destruct (fst (POST_try request)) as [|call calls] eqn:Hcalls.
  - split; [|intros call []].
    split; [congruence|]. intros (formData & image & Hreq & Hvalid & Hkey).
    pose proof (POST_try_valid openai env now create _ _ _ Hreq Hvalid) as Htry.
    rewrite Hkey in Htry. cbn [negb] in Htry. rewrite Htry in Hcalls.
    destruct (create _); discriminate.
  - assert (Hone : calls = []).
    { revert Hcalls. unfold Relay.POST_try.
      destruct request as [|[formData|e]]; try discriminate.
      destruct (get "image" formData) as [[[|c s]|image]|]; cbn; try discriminate.
      repeat match goal with
             | |- context [if ?b then _ else _] => destruct b; cbn; try discriminate
             end.
      destruct (create _); cbn; congruence. }
    subst calls.
    destruct (POST_try_call openai env now create _ _ Hcalls)
      as (formData & image & Hreq & Hvalid & Hkey & ->).
    split.
    + split; [eauto 6|discriminate].
    + intros call [<-|[]]. apply data_url, Hvalid.
Qed.

End RelayWhole.

(** X3. The status of the [catch] block tells the kind of failure: 400,
    401, 403, 429 and 502 come from their upstream type tag only, 408
    only from an untagged [Error] whose message names [timeout] and not
    [fetch], and 503 only from the overload tag or an untagged [Error]
    whose message names [fetch]. *)
Theorem POST_catch_status (e : JsError) :
  let response := Relay.POST_catch e in
  (Relay.status response = 400 -> error_type e = Some "invalid_request_error") /\
  (Relay.status response = 401 -> error_type e = Some "authentication_error") /\
  (Relay.status response = 403 -> error_type e = Some "permission_error") /\
  (Relay.status response = 429 -> error_type e = Some "rate_limit_error") /\
  (Relay.status response = 502 -> error_type e = Some "api_error") /\
  (Relay.status response = 408 ->
   Js.truthy (error_type e) = false /\ instanceof_Error e = true /\
   Js.includes "timeout" (message e) = true /\ Js.includes "fetch" (message e) = false) /\
  (Relay.status response = 503 ->
   error_type e = Some "overloaded_error" \/
   Js.truthy (error_type e) = false /\ instanceof_Error e = true /\
   Js.includes "fetch" (message e) = true).
Proof.
  unfold Relay.POST_catch.
  destruct (error_type e) as [[|c type]|];
    repeat match goal with
           | |- context [String.eqb ?a ?b] =>
               destruct (String.eqb_spec a b) as [->|_]
           end;
    try (cbn; repeat split; intros; first [discriminate | reflexivity | tauto]);
    destruct (instanceof_Error e); cbn [andb];
    destruct (Js.includes "fetch" (message e));
    destruct (Js.includes "timeout" (message e));
    destruct (Js.includes "API key" (message e));
    cbn; repeat split; intros; first [discriminate | reflexivity | tauto].
Qed.

Lemma POST_catch_status_witness :
  Relay.status (Relay.POST_catch Sample.rateLimited) = 429 /\
  error_type Sample.rateLimited = Some "rate_limit_error".
Proof.
  split; [reflexivity|].
  destruct (POST_catch_status Sample.rateLimited) as (_ & _ & _ & H & _).
  apply H. reflexivity.
Defined.

Lemma POST_outcome_witness :
  Relay.status (snd (Relay.POST (rt := Reference.runtime) Sample.openai Sample.env Sample.now
                       (Sample.answers Sample.report) Sample.request)) = 200 /\
  is_Some (prop "analysis"
             (Relay.body (snd (Relay.POST (rt := Reference.runtime) Sample.openai Sample.env
                                 Sample.now (Sample.answers Sample.report) Sample.request)))).
Proof.
  split; [vm_compute; reflexivity|].
  apply (proj1 (proj1 (proj2 (POST_outcome (rt := Reference.runtime) Sample.openai Sample.env
                                Sample.now (Sample.answers Sample.report) Sample.request)))).
  vm_compute. reflexivity.
Defined.

Lemma POST_calls_witness :
  imageField Sample.request Sample.formData Sample.image /\ validImage Sample.image /\
  Js.truthy (Sample.env !! Relay.OPENAI_API_KEY) = true /\
  fst (Relay.POST (rt := Reference.runtime) Sample.openai Sample.env Sample.now
         (Sample.answers Sample.report) Sample.request) <> [].
Proof.
  assert (Himage : imageField Sample.request Sample.formData Sample.image)
    by (split; reflexivity).
  assert (Hvalid : validImage Sample.image)
    by (split; [reflexivity | vm_compute; discriminate]).
  split; [exact Himage|]. split; [exact Hvalid|]. split; [reflexivity|].
  apply (proj2 (proj1 (POST_calls (rt := Reference.runtime) Sample.openai Sample.env
                         Sample.now (Sample.answers Sample.report) Sample.request))).
  exists Sample.formData, Sample.image. split; [exact Himage|]. split; [exact Hvalid|].
  reflexivity.
Defined.

(** ** The relay and the content of the model *)

Section RelayContent.

Context {rt : Runtime}.
Variable openai : Relay.OpenAI.
Variable env : gmap string string.
Variable now : string.
Variable create : Relay.ModelCall -> Relay.ModelReply.

Local Abbreviation POST := (Relay.POST openai env now create).

(** X4. Once the model has answered, the relay reports
    [No analysis generated] under status 500 exactly when the content is
    [null] or made of white space only, and answers 200 with an
    [analysis] exactly when it is not. *)
Theorem POST_blank_content (request : Relay.NextRequest) (call : Relay.ModelCall)
    (content : option string) :
  fst (POST request) = [call] -> create call = Ok content ->
  (snd (POST request) =
     Relay.NextResponse_json (Relay.error_json "No analysis generated") 500 <->
   blank content) /\
  (Relay.status (snd (POST request)) = 200 /\
   is_Some (prop "analysis" (Relay.body (snd (POST request)))) <->
   ~ blank content).
Proof.
  intros Hcall Hreply.
  destruct (POST_after_call openai env now create _ _ Hcall)
    as (formData & image & _ & _ & _ & _ & ->).
  rewrite Hreply. unfold Relay.respond, blank.
  destruct content as [s|].
  - destruct (Js.trim s) as [|c r] eqn:Htrim; cbn [String.length Nat.eqb].
    + assert (Hws : Js.allWhiteSpace s = true) by (apply trim_empty, Htrim).
      split.
      * split; [|reflexivity]. intros _. right. exists s. split; [reflexivity|exact Hws].
      * split; [intros [Hstatus _]; discriminate Hstatus|].
        intros Hnot. exfalso. apply Hnot. right. exists s. split; [reflexivity|exact Hws].
    + assert (Hnot : ~ (Some s = None \/
                        exists s' : string, Some s = Some s' /\ Js.allWhiteSpace s' = true)).
      { intros [Hnone|(s' & Hs' & Hws)]; [discriminate|].
        injection Hs' as <-. apply trim_empty in Hws. congruence. }
      split.
      * split; [|intros H; contradiction].
        destruct (JSON_parse s); discriminate.
      * split; [intros _; exact Hnot|]. intros _.
        destruct (JSON_parse s); (split; [reflexivity|eexists; reflexivity]).
  - split.
    + split; [auto|reflexivity].
    + split; [intros [Hstatus _]; discriminate Hstatus|].
      intros Hnot. exfalso. apply Hnot. left. reflexivity.
Qed.

(** X6. A file sent in the [description] field is not rejected: the
    prompt names it [[object File]], and the response echoes it as an
    empty object. *)
Theorem POST_file_as_text (request : Relay.NextRequest) (call : Relay.ModelCall)
    (formData : FormData) (file : File.t) :
  fst (POST request) = [call] -> request = Relay.WithBody (Ok formData) ->
  get "description" formData = Some (EntryFile file) ->
  Js.occursIn "
User description: [object File]" (Relay.text (Relay.call_params call)) /\
  (forall (analysis : string) (parsedAnalysis : Json),
      create call = Ok (Some analysis) -> Js.trim analysis <> EmptyString ->
      JSON_parse analysis = Some parsedAnalysis ->
      path ["metadata"; "user_context"; "description"] (Relay.body (snd (POST request)))
        = Some (JObj [])).
Proof.
  intros Hcall Hreq Hget.
  destruct (POST_after_call openai env now create _ _ Hcall)
    as (formData' & image & [Hreq' _] & _ & _ & Hc & Hresp).
  rewrite Hreq in Hreq'. injection Hreq' as <-.
  split.
  - rewrite Hc. cbn [Relay.modelCall Relay.call_params Relay.text].
    apply occursIn_prompt. right. right. rewrite Hget. apply JsFacts.occursIn_refl.
  - intros analysis parsedAnalysis Hreply Hblank Hparse.
    rewrite Hresp, Hreply. unfold Relay.respond.
    destruct (Js.trim analysis); [contradiction|].
    cbn [String.length Nat.eqb]. rewrite Hparse, Hget. reflexivity.
Qed.

End RelayContent.

Lemma POST_blank_content_witness :
  fst (Relay.POST (rt := Reference.runtime) Sample.openai Sample.env Sample.now
         (Sample.answers " ") Sample.request) = [Sample.call] /\
  Sample.answers " " Sample.call = Ok (Some " ") /\
  blank (Some " ") /\
  snd (Relay.POST (rt := Reference.runtime) Sample.openai Sample.env Sample.now
         (Sample.answers " ") Sample.request) =
    Relay.NextResponse_json (Relay.error_json "No analysis generated") 500.
Proof.
  assert (Hcalls := sample_calls (Sample.answers " ")).
  assert (Hblank : blank (Some " ")) by (right; exists " "; split; reflexivity).
  split; [exact Hcalls|]. split; [reflexivity|]. split; [exact Hblank|].
  exact (proj2 (proj1 (POST_blank_content (rt := Reference.runtime) Sample.openai Sample.env
                         Sample.now (Sample.answers " ") Sample.request Sample.call
                         (Some " ") Hcalls eq_refl))
               Hblank).
Defined.

Lemma POST_file_as_text_witness :
  fst (Relay.POST (rt := Reference.runtime) Sample.openai Sample.env Sample.now
         (Sample.answers Sample.report) (Relay.WithBody (Ok Sample.formData_file)))
    = [Relay.modelCall (rt := Reference.runtime) Sample.openai Sample.formData_file
         Sample.image] /\
  get "description" Sample.formData_file = Some (EntryFile Sample.document) /\
  Js.occursIn "
User description: [object File]"
    (Relay.text (Relay.call_params
                   (Relay.modelCall (rt := Reference.runtime) Sample.openai
                      Sample.formData_file Sample.image))).
Proof.
  assert (Hcalls :
    fst (Relay.POST (rt := Reference.runtime) Sample.openai Sample.env Sample.now
           (Sample.answers Sample.report) (Relay.WithBody (Ok Sample.formData_file)))
      = [Relay.modelCall (rt := Reference.runtime) Sample.openai Sample.formData_file
           Sample.image]) by (vm_compute; reflexivity).
  split; [exact Hcalls|]. split; [reflexivity|].
  exact (proj1 (POST_file_as_text (rt := Reference.runtime) Sample.openai Sample.env
                  Sample.now (Sample.answers Sample.report) _ _ Sample.formData_file
                  Sample.document Hcalls eq_refl eq_refl)).
Defined.

(** ** The client's handlers *)

Section ClientHandlers.

Context {rt : Runtime}.
Variable fetch : FormData -> JsResult Client.Response.

Ltac break_match :=
  match goal with
  | |- context [match ?x with _ => _ end] => destruct x eqn:?
  end.

(** The form [analyzeImage] sends. *)
Lemma analyzeImage_form (image : File.t) (userDetails : string) :
  ("image", EntryFile image) ::
  (if Js.truthy (Some (Js.trim userDetails))
   then [("description", EntryString (Js.trim userDetails))] else [])
  = clientForm image userDetails.
Proof. unfold clientForm. destruct (Js.trim userDetails); reflexivity. Qed.

(** The [try] block writes [analysis], [parsedAnalysis] and
    [userContext] only. *)
Lemma analyzeImage_try_frame (image : File.t) (st : Client.State) :
  let st' := fst (Client.analyzeImage_try fetch image st) in
  Client.uploadedImage st' = Client.uploadedImage st /\
  Client.imagePreview st' = Client.imagePreview st /\
  Client.isAnalyzing st' = Client.isAnalyzing st /\
  Client.error st' = Client.error st /\
  Client.isRightPanelMaximized st' = Client.isRightPanelMaximized st /\
  Client.mounted st' = Client.mounted st /\
  Client.userDetails st' = Client.userDetails st.
Proof.
  unfold Client.analyzeImage_try, Client.handleAnalysis.
  repeat break_match; cbn; repeat split.
Qed.

(** X7. Whatever the network answers, [analyzeImage] leaves the staged
    image, its preview, the text area, the mount flag and the panel
    toggle as they were; without a staged image it changes nothing, and
    with one it ends with the Analyze button enabled again. *)
Theorem analyzeImage_frame (st : Client.State) :
  let st' := Client.analyzeImage fetch st in
  Client.uploadedImage st' = Client.uploadedImage st /\
  Client.imagePreview st' = Client.imagePreview st /\
  Client.userDetails st' = Client.userDetails st /\
  Client.mounted st' = Client.mounted st /\
  Client.isRightPanelMaximized st' = Client.isRightPanelMaximized st /\
  (Client.uploadedImage st = None -> st' = st) /\
  (Client.uploadedImage st <> None -> Client.isAnalyzing st' = false).
Proof.
  unfold Client.analyzeImage.
  destruct (Client.uploadedImage st) as [image|] eqn:Himage.
  - pose proof (analyzeImage_try_frame image
                  (Client.setError None (Client.setIsAnalyzing true st))) as Hframe.
    destruct (Client.analyzeImage_try fetch image _) as [st2 thrown].
    cbn in Hframe. destruct Hframe as (H1 & H2 & _ & _ & H5 & H6 & H7).
    destruct thrown; cbn; rewrite ?H1, ?H2, ?H5, ?H6, ?H7; repeat split; congruence.
  - repeat split; congruence.
Qed.

(** X8. An analysis with a staged image ends in one of two ways: an
    error message is stored and the parsed result and the user context
    are as before; or no error is stored, and the response had status
    2xx and a truthy [analysis], whose text, parsed form and top-level
    [user_context] are what the state now holds. *)
Theorem analyzeImage_outcome (st : Client.State) (image : File.t) :
  Client.uploadedImage st = Some image ->
  let st' := Client.analyzeImage fetch st in
  (exists msg : string,
      Client.error st' = Some msg /\
      Client.parsedAnalysis st' = Client.parsedAnalysis st /\
      Client.userContext st' = Client.userContext st) \/
  (Client.error st' = None /\
   exists (response : Client.Response) (data analysisData : Json),
     fetch (clientForm image (Client.userDetails st)) = Ok response /\
     Client.json response = Ok data /\ Client.ok response = true /\
     prop "analysis" data = Some analysisData /\
     truthyJson (Some analysisData) = true /\
     Client.parsedData analysisData = Ok (Client.parsedAnalysis st') /\
     Client.userContext st' = prop "user_context" data /\
     Client.analysis st' =
       Some (match analysisData with
             | JStr s => s
             | _ => JSON_stringify analysisData
             end)).
Proof.
  intros Himage. unfold Client.analyzeImage. rewrite Himage.
  unfold Client.analyzeImage_try. cbn [Client.userDetails Client.setError Client.setIsAnalyzing].
  rewrite analyzeImage_form.
  destruct (fetch (clientForm image (Client.userDetails st))) as [response|e] eqn:Hfetch;
    [|left; eexists; cbn; repeat split].
  destruct (negb _); [destruct (Client.text response); left; eexists; cbn; repeat split|].
  destruct (Client.json response) as [data|e] eqn:Hjson; [|left; eexists; cbn; repeat split].
  destruct (Client.ok response) eqn:Hok; cbn [negb];
    [|destruct data; left; eexists; cbn; repeat split].
  destruct data as [| | | | |props]; try (left; eexists; cbn; repeat split; fail).
  cbn [prop].
  destruct (assoc "analysis" props) as [analysisData|] eqn:Hanalysis;
    [|left; eexists; cbn; repeat split].
  destruct (truthyJson (Some analysisData)) eqn:Htruthy; cbn [negb];
    [|left; eexists; cbn; repeat split].
  unfold Client.handleAnalysis.
  destruct (Client.parsedData analysisData) as [parsed|e] eqn:Hparsed;
    [|left; eexists; cbn; repeat split].
  right. split; [reflexivity|].
  exists response, (JObj props), analysisData. cbn. repeat split; assumption.
Qed.

(** X9. A response whose content type is not JSON is never read as
    data, whatever its status and body: the analysis, the parsed result
    and the user context are kept. When its body can be read as text the
    client shows [Server error. Please try again in a moment.]; when
    reading the body fails, the client reports that failure as its
    [catch] block words it. *)
Theorem analyzeImage_not_json (st : Client.State) (image : File.t)
    (response : Client.Response) :
  Client.uploadedImage st = Some image ->
  fetch (clientForm image (Client.userDetails st)) = Ok response ->
  (forall contentType : string,
      Client.content_type response = Some contentType ->
      Js.includes "application/json" contentType = false) ->
  let st' := Client.analyzeImage fetch st in
  Client.analysis st' = Client.analysis st /\
  Client.parsedAnalysis st' = Client.parsedAnalysis st /\
  Client.userContext st' = Client.userContext st /\
  Client.isAnalyzing st' = false /\
  (Client.text response = Ok tt ->
   Client.resultsPanel st' = Client.Failed "Server error. Please try again in a moment.") /\
  (forall e : JsError,
      Client.text response = Throw e ->
      Client.error st' = Some (Client.errorMessage e)).
Proof.
  intros Himage Hfetch Htype. unfold Client.analyzeImage. rewrite Himage.
  unfold Client.analyzeImage_try. cbn [Client.userDetails Client.setError Client.setIsAnalyzing].
  rewrite analyzeImage_form, Hfetch.
  assert (Hbad : match Client.content_type response with
                 | Some contentType =>
                     Js.truthy (Some contentType) &&
                     Js.includes "application/json" contentType
                 | None => false
                 end = false).
  { destruct (Client.content_type response) as [contentType|]; [|reflexivity].
    rewrite (Htype contentType eq_refl). apply andb_false_r. }
  rewrite Hbad. cbn [negb].
  destruct (Client.text response) as [[]|e].
  - replace (Client.errorMessage (RuntimeError "Server returned an invalid response format"))
      with "Server error. Please try again in a moment." by (vm_compute; reflexivity).
    do 4 (split; [reflexivity|]). split; [reflexivity|]. intros e He. discriminate He.
  - do 4 (split; [reflexivity|]). split; [intros He; discriminate He|].
    intros e' He. injection He as <-. reflexivity.
Qed.

(** X10. When the request itself fails, the analysis the client had is
    kept, and the panel shows
    [Network error. Please check your connection and try again.] for an
    [Error] whose message names [Failed to fetch], and
    [An unexpected error occurred] for a thrown value that is not an
    [Error]; the message of any other [Error] is stored as it is. *)
Theorem analyzeImage_rejected (st : Client.State) (image : File.t) (e : JsError) :
  Client.uploadedImage st = Some image ->
  fetch (clientForm image (Client.userDetails st)) = Throw e ->
  let st' := Client.analyzeImage fetch st in
  Client.analysis st' = Client.analysis st /\
  Client.parsedAnalysis st' = Client.parsedAnalysis st /\
  Client.userContext st' = Client.userContext st /\
  (instanceof_Error e = true -> Js.includes "Failed to fetch" (message e) = true ->
   Client.resultsPanel st' =
     Client.Failed "Network error. Please check your connection and try again.") /\
  (instanceof_Error e = false ->
   Client.resultsPanel st' = Client.Failed "An unexpected error occurred") /\
  (instanceof_Error e = true -> Js.includes "Failed to fetch" (message e) = false ->
   Js.includes "invalid response format" (message e) = false ->
   Client.error st' = Some (message e)).
Proof.
  intros Himage Hfetch. unfold Client.analyzeImage. rewrite Himage.
  unfold Client.analyzeImage_try. cbn [Client.userDetails Client.setError Client.setIsAnalyzing].
  rewrite analyzeImage_form, Hfetch. unfold Client.errorMessage.
  do 3 (split; [reflexivity|]).
  split; [|split].
  - intros -> ->. reflexivity.
  - intros ->. reflexivity.
  - intros -> -> ->. reflexivity.
Qed.

(** [onDrop] stages the first file only, and only an image: with
    no file, or a first file whose type does not start with [image/],
    the state, staged image and results included, is left as it was. *)
Lemma onDrop_rejects (st : Client.State) (acceptedFiles : list File.t) :
  (forall file : File.t,
      head acceptedFiles = Some file -> Js.startsWith "image/" (File.type file) = false) ->
  Client.onDrop acceptedFiles st = st.
Proof.
  intros Hhead. unfold Client.onDrop. destruct acceptedFiles as [|file others]; [reflexivity|].
  rewrite (Hhead file eq_refl). reflexivity.
Qed.

End ClientHandlers.

(** ** The client served by the relay *)

Section EndToEnd.

Context {rt : Runtime}.
Variable openai : Relay.OpenAI.
Variable env : gmap string string.
Variable now : string.
Variable create : Relay.ModelCall -> Relay.ModelReply.

Local Abbreviation POST := (Relay.POST openai env now create).
Local Abbreviation fetch := (fetch_relay openai env now create).

(** The client on a response [{ error: msg }] with a failure status. *)
Lemma analyzeImage_error_body (fetch' : FormData -> JsResult Client.Response)
    (st : Client.State) (image : File.t) (code : Z) (msg : string) :
  Client.uploadedImage st = Some image ->
  fetch' (clientForm image (Client.userDetails st))
    = Ok (deliver (Relay.NextResponse_json (Relay.error_json msg) code)) ->
  In code failureStatuses -> In msg relayMessages ->
  Client.analyzeImage fetch' st =
    Client.setIsAnalyzing false
      (Client.setError (Some msg) (Client.setError None (Client.setIsAnalyzing true st))).
Proof.
  intros Himage Hfetch Hcode Hmsg.
  destruct (failureStatuses_not_ok code Hcode) as [_ Hok].
  destruct (relayMessages_plain msg Hmsg) as (Hne & Hfailed & Hformat).
  unfold Client.analyzeImage. rewrite Himage.
  unfold Client.analyzeImage_try. cbn [Client.userDetails Client.setError Client.setIsAnalyzing].
  rewrite analyzeImage_form, Hfetch.
  cbn [deliver Client.content_type Client.json Relay.NextResponse_json Relay.status
       Relay.body Relay.error_json].
  replace (Js.truthy (Some "application/json") &&
           Js.includes "application/json" "application/json") with true
    by (vm_compute; reflexivity).
  cbn [negb]. unfold Client.ok.
  cbn [Client.status deliver Relay.status Relay.NextResponse_json].
  rewrite Hok. cbn [negb]. unfold Relay.error_json. cbn [prop assoc].
  replace (String.eqb "error" "error") with true by reflexivity.
  destruct msg as [|c msg]; [contradiction|].
  cbn [truthyJson Client.toString]. unfold Client.errorMessage.
  cbn [RuntimeError instanceof_Error message]. rewrite Hfailed, Hformat. reflexivity.
Qed.

(** X11. Every failure of the relay reaches the user in the relay's own
    words: when the relay answers the client's request with a status
    other than 200, the client stores the relay's message unchanged,
    shows it in the failure panel, and keeps the analysis it had. *)
Theorem relay_failure_shown (st : Client.State) (image : File.t) :
  Client.uploadedImage st = Some image ->
  let response :=
    snd (POST (Relay.WithBody (Ok (multipart (clientForm image (Client.userDetails st)))))) in
  let st' := Client.analyzeImage fetch st in
  Relay.status response <> 200 ->
  exists msg : string,
    In msg relayMessages /\ Relay.body response = Relay.error_json msg /\
    Client.error st' = Some msg /\ Client.resultsPanel st' = Client.Failed msg /\
    Client.analysis st' = Client.analysis st /\
    Client.parsedAnalysis st' = Client.parsedAnalysis st.
Proof.
  intros Himage response st' Hstatus. subst st'.
  assert (Hfetch : fetch (clientForm image (Client.userDetails st)) = Ok (deliver response))
    by reflexivity.
  pose proof (POST_response_cases openai env now create
                (Relay.WithBody (Ok (multipart (clientForm image (Client.userDetails st))))))
    as Hcases.
  fold response in Hcases. clearbody response.
  destruct response as [code body]. cbn [Relay.status Relay.body] in *.
  destruct Hcases as [[H200 _]|(Hcode & msg & Hmsg & Hbody)]; [contradiction|].
  subst body. exists msg. split; [exact Hmsg|]. split; [reflexivity|].
  rewrite (analyzeImage_error_body fetch st image code msg Himage Hfetch Hcode Hmsg).
  destruct (relayMessages_plain msg Hmsg) as (Hne & _ & _).
  destruct msg; [contradiction|]. repeat split.
Qed.

(** The client on a 200 response with a truthy [analysis]. *)
Lemma analyzeImage_ok (fetch' : FormData -> JsResult Client.Response)
    (st : Client.State) (image : File.t) (data analysisData : Json) :
  Client.uploadedImage st = Some image ->
  fetch' (clientForm image (Client.userDetails st))
    = Ok (deliver (Relay.NextResponse_json data 200)) ->
  prop "analysis" data = Some analysisData -> truthyJson (Some analysisData) = true ->
  Client.analyzeImage fetch' st =
    let '(st2, thrown) :=
      Client.handleAnalysis data analysisData
        (Client.setError None (Client.setIsAnalyzing true st)) in
    Client.setIsAnalyzing false
      match thrown with
      | Some error => Client.setError (Some (Client.errorMessage error)) st2
      | None => st2
      end.
Proof.
  intros Himage Hfetch Hanalysis Htruthy.
  unfold Client.analyzeImage. rewrite Himage.
  unfold Client.analyzeImage_try. cbn [Client.userDetails Client.setError Client.setIsAnalyzing].
  rewrite analyzeImage_form, Hfetch.
  cbn [deliver Client.content_type Client.json Relay.NextResponse_json Relay.status
       Relay.body].
  replace (Js.truthy (Some "application/json") &&
           Js.includes "application/json" "application/json") with true
    by (vm_compute; reflexivity).
  cbn [negb].
  destruct data; try discriminate.
  cbn [Client.ok Client.status]. cbn [Z.leb Z.compare Pos.compare Pos.compare_cont andb negb].
  rewrite Hanalysis, Htruthy. reflexivity.
Qed.

(** The form of the client as the relay reads it: the image as it was
    staged, and the note with its line breaks as CR LF. *)
Lemma sentFile_image (image : File.t) :
  Js.startsWith "image/" (File.type image) = true -> sentFile image = image.
Proof. unfold sentFile. destruct (File.type image); [discriminate|reflexivity]. Qed.

Lemma multipart_clientForm (image : File.t) (userDetails : string) :
  Js.startsWith "image/" (File.type image) = true ->
  multipart (clientForm image userDetails) =
    ("image", EntryFile image) ::
    match Js.trim userDetails with
    | EmptyString => []
    | details => [("description", EntryString (normalizeNewlines details))]
    end.
Proof.
  intros Htype. unfold clientForm, multipart. cbn [map fst snd].
  rewrite (sentFile_image image Htype). destruct (Js.trim userDetails); reflexivity.
Qed.

Lemma clientForm_image (image : File.t) (userDetails : string) :
  Js.startsWith "image/" (File.type image) = true ->
  imageField (Relay.WithBody (Ok (multipart (clientForm image userDetails))))
    (multipart (clientForm image userDetails)) image.
Proof.
  intros Htype. split; [reflexivity|].
  rewrite (multipart_clientForm image userDetails Htype). reflexivity.
Qed.

(** The relay's answer to the client's request, for a valid image and a
    truthy credential variable. *)
Lemma POST_clientForm (image : File.t) (userDetails : string) :
  validImage image -> Js.truthy (env !! Relay.OPENAI_API_KEY) = true ->
  POST (Relay.WithBody (Ok (multipart (clientForm image userDetails)))) =
    ([Relay.modelCall openai (multipart (clientForm image userDetails)) image],
     match create (Relay.modelCall openai (multipart (clientForm image userDetails)) image)
     with
     | Throw e => Relay.POST_catch e
     | Ok analysis =>
         Relay.respond now (multipart (clientForm image userDetails)) image analysis
     end).
Proof.
  intros Hvalid Hkey. unfold Relay.POST.
  rewrite (POST_try_valid openai env now create _ _ _
             (clientForm_image image userDetails (proj1 Hvalid)) Hvalid), Hkey.
  cbn [negb]. destruct (create _); reflexivity.
Qed.

(** X12. The report makes the round trip: when the model's content
    parses as a JSON object, the client that sent the image ends with
    that very object as its parsed analysis, its printed form as the
    analysis text, no error, and the Analyze button enabled again. *)
Theorem report_round_trip (st : Client.State) (image : File.t) (analysis : string)
    (props : list (string * Json)) :
  Client.uploadedImage st = Some image -> validImage image ->
  Js.truthy (env !! Relay.OPENAI_API_KEY) = true ->
  create (Relay.modelCall openai (multipart (clientForm image (Client.userDetails st))) image)
    = Ok (Some analysis) ->
  Js.trim analysis <> EmptyString -> JSON_parse analysis = Some (JObj props) ->
  let st' := Client.analyzeImage fetch st in
  Client.parsedAnalysis st' = JObj props /\ Client.error st' = None /\
  Client.isAnalyzing st' = false /\
  Client.analysis st' = Some (JSON_stringify (JObj props)).
Proof.
  intros Himage Hvalid Hkey Hreply Hblank Hparse st'. subst st'.
  assert (Hfetch : fetch (clientForm image (Client.userDetails st)) =
    Ok (deliver (Relay.NextResponse_json
                   (Relay.body (Relay.respond now
                                  (multipart (clientForm image (Client.userDetails st)))
                                  image (Some analysis))) 200))).
  { unfold fetch_relay. rewrite (POST_clientForm _ _ Hvalid Hkey), Hreply.
    cbn [snd]. unfold Relay.respond. destruct (Js.trim analysis); [contradiction|].
    cbn [String.length Nat.eqb]. rewrite Hparse. reflexivity. }
  rewrite (analyzeImage_ok fetch st image _ (JObj props) Himage Hfetch).
  - cbn. repeat split.
  - unfold Relay.respond. destruct (Js.trim analysis); [contradiction|].
    cbn [String.length Nat.eqb]. rewrite Hparse. reflexivity.
  - reflexivity.
Qed.

(** A fenced text is not JSON. *)
Lemma fenced_not_json (s : string) :
  JSON_parse_value_start JSON_parse -> JSON_parse (String "`" s) = None.
Proof.
  intros Hlaw. destruct (JSON_parse (String "`" s)) as [v|] eqn:Hparse; [|reflexivity].
  destruct (Hlaw _ v Hparse) as (c & r & Hstart & Hc).
  cbn in Hstart. injection Hstart as <- _.
  exfalso. apply (valueStart_not_backtick _ Hc). reflexivity.
Qed.

(** X13. A report the model wraps in a [```json] fence still arrives:
    the relay cannot parse the fenced content and passes it on as raw
    text, and the client strips the fence and parses what is inside. *)
Theorem fenced_report_arrives (st : Client.State) (image : File.t) (s : string)
    (parsed : Json) :
  JSON_parse_value_start JSON_parse ->
  Client.uploadedImage st = Some image -> validImage image ->
  Js.truthy (env !! Relay.OPENAI_API_KEY) = true ->
  create (Relay.modelCall openai (multipart (clientForm image (Client.userDetails st))) image)
    = Ok (Some ("```json" +:+ s +:+ "```")) ->
  JSON_parse (Js.trim s) = Some parsed ->
  let response :=
    snd (POST (Relay.WithBody (Ok (multipart (clientForm image (Client.userDetails st)))))) in
  let st' := Client.analyzeImage fetch st in
  Relay.body response =
    JObj [("analysis", JStr ("```json" +:+ s +:+ "```")); ("raw", JBool true)] /\
  Client.parsedAnalysis st' = parsed /\ Client.error st' = None /\
  Client.analysis st' = Some ("```json" +:+ s +:+ "```").
Proof.
  intros Hlaw Himage Hvalid Hkey Hreply Hparse response st'. subst response st'.
  assert (Hresp :
    snd (POST (Relay.WithBody (Ok (multipart (clientForm image (Client.userDetails st))))))
    = Relay.NextResponse_json
        (JObj [("analysis", JStr ("```json" +:+ s +:+ "```")); ("raw", JBool true)]) 200).
  { rewrite (POST_clientForm _ _ Hvalid Hkey), Hreply. cbn [snd]. unfold Relay.respond.
    destruct (Js.trim ("```json" +:+ s +:+ "```")) eqn:Htrim.
    - apply trim_empty in Htrim. discriminate.
    - cbn [String.length Nat.eqb].
      change ("```json" +:+ s +:+ "```") with (String "`" ("``json" +:+ s +:+ "```")).
      rewrite (fenced_not_json _ Hlaw). reflexivity. }
  split; [rewrite Hresp; reflexivity|].
  assert (Hclean : Client.cleanAnalysis ("```json" +:+ s +:+ "```") = Js.trim s).
  { pose proof (cleanAnalysis_fenced_json EmptyString EmptyString s eq_refl eq_refl) as H.
    rewrite JsFacts.app_nil_l, JsFacts.app_nil_r in H. exact H. }
  rewrite (analyzeImage_ok fetch st image
             (JObj [("analysis", JStr ("```json" +:+ s +:+ "```")); ("raw", JBool true)])
             (JStr ("```json" +:+ s +:+ "```")) Himage).
  - unfold Client.handleAnalysis, Client.parsedData. rewrite Hclean, Hparse.
    repeat split.
  - unfold fetch_relay. rewrite Hresp. reflexivity.
  - reflexivity.
  - reflexivity.
Qed.



End EndToEnd.

(** ** The session and the relay's checks *)

Section SessionChecks.

Context {rt : Runtime}.




End SessionChecks.

(** ** The Complaint Details panel *)

Section PanelFacts.

Context {rt : Runtime}.

(** X17. When [renderUserContext] renders the panel, it has at least
    one entry, and no entry of it is [null] or the empty string. *)
Theorem renderUserContext_entries (userContext : option Json)
    (entries : list (string * Json)) :
  Client.renderUserContext userContext = Some entries ->
  entries <> [] /\
  forall (key : string) (value : Json),
    In (key, value) entries -> value <> JNull /\ value <> JStr EmptyString.
Proof.
  unfold Client.renderUserContext.
  set (parsed := match userContext with
                 | Some (JObj props) => _
                 | _ => userContext
                 end).
  destruct parsed as [[| | | |items|props]|]; try discriminate;
    match goal with
    | |- context [filter ?P ?l] => destruct (filter P l) as [|kv rest] eqn:Hfilter
    end; try discriminate;
    intros H; injection H as <-; (split; [discriminate|]);
    intros key value Hin; apply list_elem_of_In in Hin; rewrite <- Hfilter in Hin;
    apply list_elem_of_filter in Hin as [Hshown _];
    unfold Client.shown in Hshown; cbn in Hshown;
    (split; intros ->; exact Hshown).
Qed.

(** X18. When the stored user context has a string as [description],
    nothing else of it is shown: the panel is the one of the context
    reduced to that description; and when the description is not
    itself JSON, the panel is the single entry [description]. *)
Theorem renderUserContext_description (props : list (string * Json)) (description : string) :
  assoc "description" props = Some (JStr description) ->
  Client.renderUserContext (Some (JObj props)) =
    Client.renderUserContext (Some (JObj [("description", JStr description)])) /\
  (description <> EmptyString ->
   JSON_parse (Client.cleanAnalysis description) = None ->
   Client.renderUserContext (Some (JObj props)) =
     Some [("description", JStr description)]).
Proof.
  intros Hdesc. unfold Client.renderUserContext. rewrite Hdesc.
  replace (assoc "description" [("description", JStr description)])
    with (Some (JStr description)) by reflexivity.
  split; [reflexivity|].
  intros Hne ->. destruct description; [contradiction|]. reflexivity.
Qed.

(** X19. The Detailed Analysis block shows [detailed_description] and
    nothing more: whatever [potholes_summary] or [potholesSummary] the
    report carries, no text is added for it. *)
Theorem detailedMarkdown_description (parsedAnalysis : Json) (detailed_description : string) :
  prop "detailed_description" parsedAnalysis = Some (JStr detailed_description) ->
  detailed_description <> EmptyString ->
  Client.detailedMarkdown parsedAnalysis = Some detailed_description.
Proof.
  intros Hprop Hne. unfold Client.detailedMarkdown. rewrite Hprop.
  destruct detailed_description as [|c d]; [contradiction|].
  cbn [truthyJson Client.toString]. unfold Client.getPotholesMarkdown.
  cbn [Js.truthy].
  destruct (Client.nullish _ _) as [potholes|];
    [destruct (truthyJson (Some potholes))|]; rewrite JsFacts.app_nil_r; reflexivity.
Qed.

End PanelFacts.

(** ** The colours of the report *)

(** X20. The later component colours nothing by level: [getSeverityColor],
    [getUrgencyColor] and [getConditionColor] each return the same
    classes for every argument. *)
Theorem colors_constant (a b : string) :
  Client.getSeverityColor a = Client.getSeverityColor b /\
  Client.getUrgencyColor a = Client.getUrgencyColor b /\
  Client.getConditionColor a = Client.getConditionColor b.
Proof.
  unfold Client.getSeverityColor, Client.getUrgencyColor, Client.getConditionColor.
  repeat split;
    repeat match goal with
           | |- context [String.eqb ?x ?y] => destruct (String.eqb x y)
           end; reflexivity.
Qed.

Ltac enumerate H :=
  cbn [In] in H; repeat (destruct H as [<-|H]); try destruct H.

Ltac not_listed Ha :=
  repeat match goal with
         | |- context [String.eqb ?x ?y] =>
             destruct (String.eqb_spec x y) as [->|_]; [exfalso; apply Ha; cbn; tauto|]
         end;
  reflexivity.

Lemma Page_severity_gray (a : string) :
  ~ In a severities -> Page.getSeverityColor a = Page.getSeverityColor EmptyString.
Proof. intros Ha. unfold Page.getSeverityColor. not_listed Ha. Qed.

Lemma Page_urgency_gray (a : string) :
  ~ In a urgencies -> Page.getUrgencyColor a = Page.getUrgencyColor EmptyString.
Proof. intros Ha. unfold Page.getUrgencyColor. not_listed Ha. Qed.

Lemma Page_condition_gray (a : string) :
  ~ In a conditions -> Page.getConditionColor a = Page.getConditionColor EmptyString.
Proof. intros Ha. unfold Page.getConditionColor. not_listed Ha. Qed.

(** X21. The earlier component tells the levels apart: on the four
    severities, the four urgencies and the five condition ratings its
    colour helpers are injective, and any other value gets the gray
    classes, which no level has. *)
Theorem Page_colors_distinct :
  (forall a b : string,
      In a severities -> In b severities ->
      Page.getSeverityColor a = Page.getSeverityColor b -> a = b) /\
  (forall a b : string,
      In a urgencies -> In b urgencies ->
      Page.getUrgencyColor a = Page.getUrgencyColor b -> a = b) /\
  (forall a b : string,
      In a conditions -> In b conditions ->
      Page.getConditionColor a = Page.getConditionColor b -> a = b) /\
  (forall a b : string,
      ~ In a severities -> In b severities ->
      Page.getSeverityColor a = Page.getSeverityColor EmptyString /\
      Page.getSeverityColor a <> Page.getSeverityColor b) /\
  (forall a b : string,
      ~ In a urgencies -> In b urgencies ->
      Page.getUrgencyColor a = Page.getUrgencyColor EmptyString /\
      Page.getUrgencyColor a <> Page.getUrgencyColor b) /\
  (forall a b : string,
      ~ In a conditions -> In b conditions ->
      Page.getConditionColor a = Page.getConditionColor EmptyString /\
      Page.getConditionColor a <> Page.getConditionColor b).
Proof.
  split; [|split; [|split; [|split; [|split]]]].
  - intros a b Ha Hb. unfold severities in *. enumerate Ha; enumerate Hb;
      vm_compute; intros H; first [reflexivity | discriminate H].
  - intros a b Ha Hb. unfold urgencies in *. enumerate Ha; enumerate Hb;
      vm_compute; intros H; first [reflexivity | discriminate H].
  - intros a b Ha Hb. unfold conditions in *. enumerate Ha; enumerate Hb;
      vm_compute; intros H; first [reflexivity | discriminate H].
  - intros a b Ha Hb. rewrite (Page_severity_gray a Ha). split; [reflexivity|].
    unfold severities in Hb. enumerate Hb; vm_compute; discriminate.
  - intros a b Ha Hb. rewrite (Page_urgency_gray a Ha). split; [reflexivity|].
    unfold urgencies in Hb. enumerate Hb; vm_compute; discriminate.
  - intros a b Ha Hb. rewrite (Page_condition_gray a Ha). split; [reflexivity|].
    unfold conditions in Hb. enumerate Hb; vm_compute; discriminate.
Qed.

(** ** Code fences *)

Lemma startsWith_fence (s : string) :
  Js.startsWith "```json" s = true -> Js.startsWith "```" s = true.
Proof.
  intros H. destruct (JsFacts.startsWith_occurs _ _ H) as [r ->].
  change ("```json" +:+ r) with ("```" +:+ ("json" +:+ r)). apply JsFacts.startsWith_app.
Qed.

Lemma trimEnd_idempotent (s : string) : Js.trimEnd (Js.trimEnd s) = Js.trimEnd s.
Proof.
  induction s as [|c s IH]; [reflexivity|]. cbn [Js.trimEnd].
  destruct (Js.trimEnd s) as [|a r] eqn:Hs.
  - destruct (Js.isWhiteSpace c) eqn:Hc; [reflexivity|].
    cbn [Js.trimEnd]. rewrite Hc. reflexivity.
  - cbn [Js.trimEnd] in *. rewrite IH. reflexivity.
Qed.

(** [trimStart] and [trimEnd] commute. *)
Lemma trimEnd_trimStart (s : string) :
  Js.trimEnd (Js.trimStart s) = Js.trimStart (Js.trimEnd s).
Proof.
  induction s as [|c s IH]; [reflexivity|].
  destruct (Js.isWhiteSpace c) eqn:Hc.
  - cbn [Js.trimStart]. rewrite Hc, IH. cbn [Js.trimEnd].
    destruct (Js.trimEnd s) as [|a r]; [rewrite Hc; reflexivity|].
    cbn [Js.trimStart]. rewrite Hc. reflexivity.
  - cbn [Js.trimStart]. rewrite Hc.
    destruct (JsFacts.trimEnd_head c s Hc) as [r Hr]. rewrite Hr.
    cbn [Js.trimStart]. rewrite Hc. reflexivity.
Qed.

Lemma trimStart_idempotent (s : string) : Js.trimStart (Js.trimStart s) = Js.trimStart s.
Proof.
  induction s as [|c s IH]; [reflexivity|]. cbn [Js.trimStart].
  destruct (Js.isWhiteSpace c) eqn:Hc; [exact IH|].
  cbn [Js.trimStart]. rewrite Hc. reflexivity.
Qed.

Lemma trim_idempotent (s : string) : Js.trim (Js.trim s) = Js.trim s.
Proof.
  unfold Js.trim.
  rewrite <- (trimEnd_trimStart (Js.trimStart s)), trimStart_idempotent.
  apply trimEnd_idempotent.
Qed.

Lemma trim_trimEnd (s : string) : Js.trim (Js.trimEnd s) = Js.trim s.
Proof.
  unfold Js.trim. rewrite (trimEnd_trimStart (Js.trimEnd s)), trimEnd_idempotent.
  symmetry. apply trimEnd_trimStart.
Qed.

Lemma trimEnd_app (a s : string) :
  Js.trimEnd (a +:+ s) =
    match Js.trimEnd s with
    | EmptyString => Js.trimEnd a
    | r => a +:+ r
    end.
Proof.
  induction a as [|c a IH].
  - rewrite JsFacts.app_nil_l. destruct (Js.trimEnd s); reflexivity.
  - rewrite JsFacts.app_cons. cbn [Js.trimEnd]. rewrite IH.
    destruct (Js.trimEnd s) as [|x r]; [reflexivity|].
    destruct a; reflexivity.
Qed.

(** [replaceEnd] removes a trailing [p] or nothing. *)
Lemma replaceEnd_cases (p s : string) :
  Js.replaceEnd p s = s \/ s = Js.replaceEnd p s +:+ p.
Proof.
  induction s as [|c s IH].
  - destruct p; [right|left]; reflexivity.
  - cbn [Js.replaceEnd]. destruct (String.eqb_spec (String c s) p) as [<-|_].
    + right. reflexivity.
    + destruct IH as [IH|IH]; [left|right]; rewrite JsFacts.app_cons || idtac; congruence.
Qed.

(** X22. [cleanAnalysis] always returns a trimmed text; a text that,
    once trimmed, does not start with three backticks is only trimmed;
    and an opening [```json] fence is stripped also when no closing
    fence follows, as in an answer cut short. *)
Theorem cleanAnalysis_fences (s : string) :
  Js.trim (Client.cleanAnalysis s) = Client.cleanAnalysis s /\
  (Js.startsWith "```" (Js.trim s) = false -> Client.cleanAnalysis s = Js.trim s) /\
  ((forall a : string, Js.trimEnd s <> a +:+ "```") ->
   Client.cleanAnalysis ("```json" +:+ s) = Js.trim s).
Proof.
  split; [|split].
  - unfold Client.cleanAnalysis.
    destruct (Js.startsWith "```json" (Js.trim s));
      [|destruct (Js.startsWith "```" (Js.trim s))]; apply trim_idempotent.
  - intros Hfence. unfold Client.cleanAnalysis. rewrite Hfence.
    destruct (Js.startsWith "```json" (Js.trim s)) eqn:Hjson; [|reflexivity].
    apply startsWith_fence in Hjson. congruence.
  - intros Hopen.
    assert (Htrim : Js.trim ("```json" +:+ s) = "```json" +:+ Js.trimEnd s).
    { unfold Js.trim.
      change (Js.trimStart ("```json" +:+ s)) with ("```json" +:+ s).
      rewrite trimEnd_app. destruct (Js.trimEnd s); [|reflexivity].
      rewrite JsFacts.app_nil_r. reflexivity. }
    unfold Client.cleanAnalysis.
    rewrite Htrim, JsFacts.startsWith_app, JsFacts.replaceStart_app.
    destruct (replaceEnd_cases "```" (Js.trimEnd s)) as [->|Hclosed].
    + apply trim_trimEnd.
    + exfalso. exact (Hopen _ Hclosed).
Qed.

(** ** Answers that are JSON but no report *)

Section NotAReport.

Context {rt : Runtime}.
Variable fetch : FormData -> JsResult Client.Response.

(** X23. A 200 response whose [analysis] is JSON but neither an object,
    an array nor a string ends in an error on the client: a falsy
    value ([null], [false], [0], the empty string) is reported as
    [No analysis received from server] and the earlier analysis is
    kept; a number other than 0, or [true], is first stored as the
    analysis text and then reported with the text of the [TypeError],
    [analysisData.trim is not a function]. *)
Theorem analysis_not_a_report (st : Client.State) (image : File.t)
    (analysisData metadata : Json) :
  Client.uploadedImage st = Some image ->
  fetch (clientForm image (Client.userDetails st)) =
    Ok (deliver (Relay.NextResponse_json
                   (JObj [("analysis", analysisData); ("metadata", metadata)]) 200)) ->
  let st' := Client.analyzeImage fetch st in
  (truthyJson (Some analysisData) = false ->
   Client.resultsPanel st' = Client.Failed "No analysis received from server" /\
   Client.analysis st' = Client.analysis st) /\
  ((exists n : Z, analysisData = JNum n /\ n <> 0) \/ analysisData = JBool true ->
   Client.resultsPanel st' = Client.Failed "analysisData.trim is not a function" /\
   Client.analysis st' = Some (JSON_stringify analysisData) /\
   Client.parsedAnalysis st' = Client.parsedAnalysis st).
Proof.
  intros Himage Hfetch st'. subst st'. split.
  - intros Hfalsy. unfold Client.analyzeImage. rewrite Himage.
    unfold Client.analyzeImage_try.
    cbn [Client.userDetails Client.setError Client.setIsAnalyzing].
    rewrite analyzeImage_form, Hfetch.
    cbn [deliver Client.content_type Client.json Relay.NextResponse_json Relay.status
         Relay.body].
    replace (Js.truthy (Some "application/json") &&
             Js.includes "application/json" "application/json") with true
      by (vm_compute; reflexivity).
    cbn [negb Client.ok Client.status].
    cbn [Z.leb Z.compare Pos.compare Pos.compare_cont andb negb].
    cbn [prop assoc]. replace (String.eqb "analysis" "analysis") with true by reflexivity.
    rewrite Hfalsy. cbn [negb].
    replace (Client.errorMessage (RuntimeError "No analysis received from server"))
      with "No analysis received from server" by (vm_compute; reflexivity).
    split; reflexivity.
  - intros Hscalar.
    assert (Htruthy : truthyJson (Some analysisData) = true).
    { destruct Hscalar as [(n & -> & Hn)| ->]; [|reflexivity].
      destruct n; [contradiction|reflexivity|reflexivity]. }
    rewrite (analyzeImage_ok fetch st image _ analysisData Himage Hfetch eq_refl Htruthy).
    unfold Client.handleAnalysis.
    replace (Client.parsedData analysisData)
      with (Throw (A := Json) (RuntimeError "analysisData.trim is not a function"))
      by (destruct Hscalar as [(n & -> & _)| ->]; reflexivity).
    replace (Client.errorMessage (RuntimeError "analysisData.trim is not a function"))
      with "analysisData.trim is not a function" by (vm_compute; reflexivity).
    destruct Hscalar as [(n & -> & _)| ->]; repeat split.
Qed.

End NotAReport.

(** ** The two versions of the client *)

Section Versions.

Context {rt : Runtime}.
Variable fetch : FormData -> JsResult Client.Response.

(** X24. The later component extends the earlier one: forgetting the
    text area and the user context, [onDrop] and [clearImage] of the
    later component are those of [page.tsx], the results panel is the
    same up to the Complaint Details, and so is [analyzeImage] whenever
    the text area is blank. *)
Theorem Page_simulation (st : Client.State) :
  (forall acceptedFiles : list File.t,
      forget (Client.onDrop acceptedFiles st) = Page.onDrop acceptedFiles (forget st)) /\
  forget (Client.clearImage st) = Page.clearImage (forget st) /\
  Page.resultsPanel (forget st) = forgetPanel (Client.resultsPanel st) /\
  (Js.trim (Client.userDetails st) = EmptyString ->
   forget (Client.analyzeImage fetch st) = Page.analyzeImage fetch (forget st)).
Proof.
  split; [|split; [|split]].
  - intros acceptedFiles. unfold Client.onDrop, Page.onDrop.
    destruct acceptedFiles as [|file others]; [reflexivity|].
    destruct (Js.startsWith "image/" (File.type file)); reflexivity.
  - reflexivity.
  - unfold Page.resultsPanel, Client.resultsPanel.
    cbn [forget Page.isAnalyzing Page.error Page.analysis Page.parsedAnalysis].
    destruct (Client.isAnalyzing st); [reflexivity|].
    destruct (Js.truthy (Client.error st)); [reflexivity|].
    destruct (Js.truthy (Client.analysis st)); [|reflexivity].
    destruct (truthyJson (Some (Client.parsedAnalysis st))); reflexivity.
  - intros Hblank. unfold Client.analyzeImage, Page.analyzeImage.
    cbn [forget Page.uploadedImage].
    destruct (Client.uploadedImage st) as [image|]; [|reflexivity].
    unfold Client.analyzeImage_try, Page.analyzeImage_try.
    cbn [Client.userDetails Client.setError Client.setIsAnalyzing].
    rewrite Hblank. cbn [Js.truthy].
    destruct (fetch [("image", EntryFile image)]) as [response|e]; [|reflexivity].
    destruct (negb _); [destruct (Client.text response); reflexivity|].
    destruct (Client.json response) as [data|e]; [|reflexivity].
    destruct data; try reflexivity;
      (destruct (negb (Client.ok response)); [reflexivity|]); try reflexivity.
    cbn [prop].
    destruct (assoc "analysis" props) as [analysisData|]; [|reflexivity].
    destruct (negb (truthyJson (Some analysisData))); [reflexivity|].
    unfold Client.handleAnalysis, Page.handleAnalysis.
    destruct (Client.parsedData analysisData); reflexivity.
Qed.

End Versions.

(** ** The further statements on sample inputs *)

Lemma analyzeImage_frame_witness :
  Client.uploadedImage Sample.staged <> None /\
  Client.isAnalyzing (Client.analyzeImage (rt := Reference.runtime) Sample.offline Sample.staged)
    = false.
Proof.
  split; [discriminate|].
  apply (analyzeImage_frame (rt := Reference.runtime) Sample.offline Sample.staged).
  discriminate.
Defined.

Lemma analyzeImage_outcome_witness :
  Client.uploadedImage Sample.staged = Some Sample.image /\
  ((exists msg : string,
       Client.error (Client.analyzeImage (rt := Reference.runtime) Sample.offline Sample.staged)
         = Some msg /\
       Client.parsedAnalysis
         (Client.analyzeImage (rt := Reference.runtime) Sample.offline Sample.staged)
         = Client.parsedAnalysis Sample.staged /\
       Client.userContext
         (Client.analyzeImage (rt := Reference.runtime) Sample.offline Sample.staged)
         = Client.userContext Sample.staged) \/
   Client.error (Client.analyzeImage (rt := Reference.runtime) Sample.offline Sample.staged)
     = None).
Proof.
  split; [reflexivity|].
  destruct (analyzeImage_outcome (rt := Reference.runtime) Sample.offline Sample.staged
              Sample.image eq_refl) as [Hfailed|[Hok _]]; [left; exact Hfailed|right; exact Hok].
Defined.

Lemma analyzeImage_not_json_witness :
  Client.uploadedImage Sample.staged = Some Sample.image /\
  Client.text Sample.response_html = Ok tt /\
  Client.text Sample.response_broken = Throw (RuntimeError "terminated") /\
  Client.resultsPanel (rt := Reference.runtime)
    (Client.analyzeImage (rt := Reference.runtime) (fun _ => Ok Sample.response_html)
       Sample.staged)
    = Client.Failed "Server error. Please try again in a moment." /\
  Client.error
    (Client.analyzeImage (rt := Reference.runtime) (fun _ => Ok Sample.response_broken)
       Sample.staged)
    = Some "terminated".
Proof.
  assert (Htype : forall contentType : string,
             Some "text/html" = Some contentType ->
             Js.includes "application/json" contentType = false)
    by (intros contentType H; injection H as <-; reflexivity).
  split; [reflexivity|]. split; [reflexivity|]. split; [reflexivity|].
  destruct (analyzeImage_not_json (rt := Reference.runtime) (fun _ => Ok Sample.response_html)
              Sample.staged Sample.image Sample.response_html eq_refl eq_refl Htype)
    as (_ & _ & _ & _ & Hread & _).
  destruct (analyzeImage_not_json (rt := Reference.runtime)
              (fun _ => Ok Sample.response_broken)
              Sample.staged Sample.image Sample.response_broken eq_refl eq_refl Htype)
    as (_ & _ & _ & _ & _ & Hbroken).
  split; [exact (Hread eq_refl) | exact (Hbroken _ eq_refl)].
Defined.

Lemma analyzeImage_rejected_witness :
  Client.uploadedImage Sample.staged = Some Sample.image /\
  Sample.offline (clientForm Sample.image (Client.userDetails Sample.staged))
    = Throw (RuntimeError "Failed to fetch") /\
  Client.resultsPanel (rt := Reference.runtime)
    (Client.analyzeImage (rt := Reference.runtime) Sample.offline Sample.staged)
    = Client.Failed "Network error. Please check your connection and try again.".
Proof.
  split; [reflexivity|]. split; [reflexivity|].
  destruct (analyzeImage_rejected (rt := Reference.runtime) Sample.offline Sample.staged
              Sample.image (RuntimeError "Failed to fetch") eq_refl eq_refl)
    as (_ & _ & _ & Hnetwork & _).
  apply Hnetwork; reflexivity.
Defined.

Lemma relay_failure_shown_witness :
  Client.uploadedImage Sample.staged = Some Sample.image /\
  Relay.status
    (snd (Relay.POST (rt := Reference.runtime) Sample.openai Sample.env Sample.now
            (Sample.fails Sample.rateLimited)
            (Relay.WithBody
               (Ok (multipart (clientForm Sample.image (Client.userDetails Sample.staged)))))))
    <> 200 /\
  exists msg : string,
    In msg relayMessages /\
    Client.resultsPanel (rt := Reference.runtime)
      (Client.analyzeImage (rt := Reference.runtime)
         (fetch_relay (rt := Reference.runtime) Sample.openai Sample.env Sample.now
            (Sample.fails Sample.rateLimited)) Sample.staged)
      = Client.Failed msg.
Proof.
  assert (Hstatus :
    Relay.status
      (snd (Relay.POST (rt := Reference.runtime) Sample.openai Sample.env Sample.now
              (Sample.fails Sample.rateLimited)
              (Relay.WithBody
                 (Ok (multipart
                        (clientForm Sample.image (Client.userDetails Sample.staged)))))))
      <> 200) by (vm_compute; discriminate).
  split; [reflexivity|]. split; [exact Hstatus|].
  destruct (relay_failure_shown (rt := Reference.runtime) Sample.openai Sample.env Sample.now
              (Sample.fails Sample.rateLimited) Sample.staged Sample.image eq_refl Hstatus)
    as (msg & Hmsg & _ & _ & Hpanel & _).
  exists msg. split; [exact Hmsg | exact Hpanel].
Defined.

Lemma sample_validImage' : validImage Sample.image.
Proof. split; [reflexivity | vm_compute; discriminate]. Defined.

Lemma report_round_trip_witness :
  Client.uploadedImage Sample.staged = Some Sample.image /\ validImage Sample.image /\
  Js.truthy (Sample.env !! Relay.OPENAI_API_KEY) = true /\
  Js.trim Sample.report <> EmptyString /\
  JSON_parse (Runtime := Reference.runtime) Sample.report
    = Some (JObj [("issue_count", JNum 0)]) /\
  Client.parsedAnalysis
    (Client.analyzeImage (rt := Reference.runtime)
       (fetch_relay (rt := Reference.runtime) Sample.openai Sample.env Sample.now
          (Sample.answers Sample.report)) Sample.staged)
    = JObj [("issue_count", JNum 0)].
Proof.
  assert (Hblank : Js.trim Sample.report <> EmptyString) by (vm_compute; discriminate).
  split; [reflexivity|]. split; [exact sample_validImage'|]. split; [reflexivity|].
  split; [exact Hblank|]. split; [reflexivity|].
  apply (report_round_trip (rt := Reference.runtime) Sample.openai Sample.env Sample.now
           (Sample.answers Sample.report) Sample.staged Sample.image Sample.report
           [("issue_count", JNum 0)] eq_refl sample_validImage' eq_refl eq_refl Hblank
           eq_refl).
Defined.

Lemma fenced_report_arrives_witness :
  JSON_parse_value_start (JSON_parse (Runtime := Reference.runtime)) /\
  Client.uploadedImage Sample.staged = Some Sample.image /\ validImage Sample.image /\
  Js.truthy (Sample.env !! Relay.OPENAI_API_KEY) = true /\
  JSON_parse (Runtime := Reference.runtime) (Js.trim Sample.report)
    = Some (JObj [("issue_count", JNum 0)]) /\
  Client.parsedAnalysis
    (Client.analyzeImage (rt := Reference.runtime)
       (fetch_relay (rt := Reference.runtime) Sample.openai Sample.env Sample.now
          (Sample.answers ("```json" +:+ Sample.report +:+ "```"))) Sample.staged)
    = JObj [("issue_count", JNum 0)].
Proof.
  split; [exact Reference_parse_value_start|]. split; [reflexivity|].
  split; [exact sample_validImage'|]. split; [reflexivity|]. split; [reflexivity|].
  apply (fenced_report_arrives (rt := Reference.runtime) Sample.openai Sample.env Sample.now
           (Sample.answers ("```json" +:+ Sample.report +:+ "```")) Sample.staged
           Sample.image Sample.report (JObj [("issue_count", JNum 0)])
           Reference_parse_value_start eq_refl sample_validImage' eq_refl eq_refl eq_refl).
Defined.


Lemma sample_reachable : reachable (rt := Reference.runtime) Sample.staged.
Proof.
  apply (reachable_step Client.initial); [apply reachable_initial|].
  apply (step_drop Client.initial [Sample.image]).
Defined.


Lemma renderUserContext_entries_witness :
  Client.renderUserContext (rt := Reference.runtime)
    (Some (JObj [("complaint_type", JNull); ("location", JStr "Main St");
                 ("note", JStr EmptyString)]))
    = Some [("location", JStr "Main St")] /\
  [("location", JStr "Main St")] <> ([] : list (string * Json)).
Proof.
  split; [reflexivity|].
  apply (renderUserContext_entries (rt := Reference.runtime)
           (Some (JObj [("complaint_type", JNull); ("location", JStr "Main St");
                        ("note", JStr EmptyString)]))
           [("location", JStr "Main St")] eq_refl).
Defined.

Lemma renderUserContext_description_witness :
  assoc "description"
    [("complaint_type", JStr "pothole"); ("description", JStr "near the gate")]
    = Some (JStr "near the gate") /\
  Client.renderUserContext (rt := Reference.runtime)
    (Some (JObj [("complaint_type", JStr "pothole"); ("description", JStr "near the gate")]))
    = Some [("description", JStr "near the gate")].
Proof.
  split; [reflexivity|].
  apply (renderUserContext_description (rt := Reference.runtime)
           [("complaint_type", JStr "pothole"); ("description", JStr "near the gate")]
           "near the gate" eq_refl); [discriminate | reflexivity].
Defined.

Lemma detailedMarkdown_description_witness :
  prop "detailed_description"
    (JObj [("detailed_description", JStr "### Road Condition: Fair");
           ("potholes_summary", JObj [("pothole_count", JNum 2)])])
    = Some (JStr "### Road Condition: Fair") /\
  Client.detailedMarkdown (rt := Reference.runtime)
    (JObj [("detailed_description", JStr "### Road Condition: Fair");
           ("potholes_summary", JObj [("pothole_count", JNum 2)])])
    = Some "### Road Condition: Fair".
Proof.
  split; [reflexivity|].
  apply (detailedMarkdown_description (rt := Reference.runtime)
           (JObj [("detailed_description", JStr "### Road Condition: Fair");
                  ("potholes_summary", JObj [("pothole_count", JNum 2)])])
           "### Road Condition: Fair" eq_refl).
  discriminate.
Defined.

Lemma Page_colors_distinct_witness :
  In "critical" severities /\ In "minor" severities /\
  Page.getSeverityColor "critical" <> Page.getSeverityColor "minor".
Proof.
  assert (Hc : In "critical" severities) by (cbn; tauto).
  assert (Hm : In "minor" severities) by (cbn; tauto).
  split; [exact Hc|]. split; [exact Hm|].
  intros Heq. pose proof (proj1 Page_colors_distinct "critical" "minor" Hc Hm Heq) as H.
  discriminate H.
Defined.

Lemma cleanAnalysis_fences_witness :
  (forall a : string, Js.trimEnd Sample.report <> a +:+ "```") /\
  Client.cleanAnalysis ("```json" +:+ Sample.report) = Js.trim Sample.report.
Proof.
  assert (Hopen : forall a : string, Js.trimEnd Sample.report <> a +:+ "```").
  { intros a Ha. pose proof (f_equal (Js.replaceEnd "```") Ha) as Hr.
    rewrite JsFacts.replaceEnd_app in Hr. rewrite <- Hr in Ha.
    vm_compute in Ha. discriminate Ha. }
  split; [exact Hopen|].
  apply (proj2 (proj2 (cleanAnalysis_fences Sample.report))). exact Hopen.
Defined.

Lemma analysis_not_a_report_witness :
  Client.uploadedImage Sample.staged = Some Sample.image /\
  Client.resultsPanel (rt := Reference.runtime)
    (Client.analyzeImage (rt := Reference.runtime)
       (fun _ => Ok (deliver (Relay.NextResponse_json
                                (JObj [("analysis", JNum 42); ("metadata", JNull)]) 200)))
       Sample.staged)
    = Client.Failed "analysisData.trim is not a function".
Proof.
  split; [reflexivity|].
  apply (proj2 (analysis_not_a_report (rt := Reference.runtime)
                  (fun _ => Ok (deliver (Relay.NextResponse_json
                                           (JObj [("analysis", JNum 42); ("metadata", JNull)])
                                           200)))
                  Sample.staged Sample.image (JNum 42) JNull eq_refl eq_refl)).
  left. exists 42. split; [reflexivity|discriminate].
Defined.

Lemma Page_simulation_witness :
  Js.trim (Client.userDetails Sample.staged) = EmptyString /\
  forget (Client.analyzeImage (rt := Reference.runtime) Sample.offline Sample.staged)
    = Page.analyzeImage (rt := Reference.runtime) Sample.offline (forget Sample.staged).
Proof.
  split; [reflexivity|].
  apply (Page_simulation (rt := Reference.runtime) Sample.offline Sample.staged).
  reflexivity.
Defined.

(** ** An image field that is no file, and the panel in a session *)

(** X5. An [image] field sent as text is not told apart from a file by
    the checks: empty, it counts as missing and is answered 400
    [No image file provided]; not empty, it passes the presence check,
    fails on its missing type, and is answered 500
    [Internal server error occurred]. In neither case is the model
    called. *)
Theorem POST_image_as_text {rt : Runtime} (openai : Relay.OpenAI)
    (env : gmap string string) (now : string)
    (create : Relay.ModelCall -> Relay.ModelReply) (formData : FormData) :
  (get "image" formData = Some (EntryString EmptyString) ->
   Relay.POST openai env now create (Relay.WithBody (Ok formData)) =
     ([], Relay.NextResponse_json (Relay.error_json "No image file provided") 400)) /\
  (forall (c : ascii) (s : string),
      get "image" formData = Some (EntryString (String c s)) ->
      Relay.POST openai env now create (Relay.WithBody (Ok formData)) =
        ([], Relay.NextResponse_json (Relay.error_json "Internal server error occurred") 500)).
Proof.
  split.
  - intros Hget. unfold Relay.POST, Relay.POST_try. rewrite Hget. reflexivity.
  - intros c s Hget. unfold Relay.POST, Relay.POST_try. rewrite Hget.
    vm_compute. reflexivity.
Qed.

Lemma POST_image_as_text_witness :
  get "image" Sample.formData_text = Some (EntryString "photo.jpg") /\
  Relay.POST (rt := Reference.runtime) Sample.openai Sample.env Sample.now
    (Sample.answers Sample.report) (Relay.WithBody (Ok Sample.formData_text)) =
  ([], Relay.NextResponse_json (Relay.error_json "Internal server error occurred") 500).
Proof.
  split; [reflexivity|].
  apply (proj2 (POST_image_as_text (rt := Reference.runtime) Sample.openai Sample.env
                  Sample.now (Sample.answers Sample.report) Sample.formData_text)
               "p"%char "hoto.jpg").
  reflexivity.
Defined.

(** X16. In a session served by the relay the Complaint Details panel
    never appears: in every state of the session [renderUserContext]
    returns [null] on the stored user context, and a structured report
    on screen has no such panel. *)
Theorem session_never_shows_details {rt : Runtime} (st : Client.State) :
  reachable st ->
  Client.renderUserContext (Client.userContext st) = None /\
  forall (parsedAnalysis : Json) (complaintDetails : option (list (string * Json))),
    Client.resultsPanel st = Client.Structured parsedAnalysis complaintDetails ->
    complaintDetails = None.
Proof.
  intros Hreach. destruct (session_userContext st Hreach) as [_ Hnone].
  split; [exact Hnone|].
  intros parsedAnalysis complaintDetails. unfold Client.resultsPanel.
  destruct (Client.isAnalyzing st); [discriminate|].
  destruct (Js.truthy (Client.error st)); [discriminate|].
  destruct (Js.truthy (Client.analysis st)); [|discriminate].
  destruct (truthyJson (Some (Client.parsedAnalysis st))); [|discriminate].
  intros H. injection H as _ <-. exact Hnone.
Qed.

Lemma resolved_reachable : reachable (rt := Reference.runtime) Sample.resolved.
Proof.
  apply (reachable_step Sample.staged); [exact sample_reachable|].
  apply (step_analyze Sample.staged Sample.openai Sample.env Sample.now
           (Sample.answers Sample.report)).
Defined.

Lemma session_never_shows_details_witness :
  reachable (rt := Reference.runtime) Sample.resolved /\
  Client.renderUserContext (rt := Reference.runtime) (Client.userContext Sample.resolved) = None.
Proof.
  split; [exact resolved_reachable|].
  apply (session_never_shows_details (rt := Reference.runtime) Sample.resolved
           resolved_reachable).
Defined.
